(** * ohaasa-bot: scheduler, daily cache and translation retry of [bot.py]

  A shallow embedding of the core of [src/bot.py]: the per-guild settings
  store, [translate_text], [get_today_horoscope_for_guild], the slash
  commands that mutate settings and [scheduler_loop], followed by the
  properties of the design document that concern them. *)

From Stdlib Require Import ZArith Lia Ascii String.
From stdpp Require Import base option list strings gmap pretty.

Local Open Scope string_scope.
Local Open Scope list_scope.
Local Open Scope Z_scope.
Local Set Warnings "-register-all".

(** ** Python values *)

Module Py.

(** The JSON-shaped values the bot handles: what [json.load] produces and
    what the commands store (floats do not occur in the bot's own data and
    are left out). *)
Inductive pyval : Type :=
| PyNone
| PyBool (b : bool)
| PyInt (z : Z)
| PyStr (s : string)
| PyList (items : list pyval)
| PyDict (entries : list (string * pyval)).

Inductive exn : Type := TypeError | ValueError.

(** Outcome of an expression that may raise. *)
Inductive result (A : Type) : Type :=
| Ok (a : A)
| Raise (e : exn).
Arguments Ok {A} a.
Arguments Raise {A} e.

Definition bind {A B} (r : result A) (k : A -> result B) : result B :=
  match r with
  | Ok a => k a
  | Raise e => Raise e
  end.

(** [bool(v)]: the truth value used by [if v], [not v], [a and b]. *)
Definition truthy (v : pyval) : bool :=
  match v with
  | PyNone => false
  | PyBool b => b
  | PyInt z => negb (z =? 0)
  | PyStr s => negb (String.eqb s EmptyString)
  | PyList items => match items with [] => false | _ => true end
  | PyDict entries => match entries with [] => false | _ => true end
  end.

(** [v is None] *)
Definition is_none (v : pyval) : bool :=
  match v with PyNone => true | _ => false end.

(** [v == s] for a [str] literal or variable [s]. *)
Definition eq_str (v : pyval) (s : string) : bool :=
  match v with PyStr s' => String.eqb s' s | _ => false end.

(** ASCII characters that [str.strip] treats as white space. *)
Definition is_space (a : ascii) : bool :=
  let n := nat_of_ascii a in
  ((9 <=? n)%nat && (n <=? 13)%nat) || ((28 <=? n)%nat && (n <=? 32)%nat).

(** ASCII characters that [int] skips around a literal. *)
Definition is_space_int (a : ascii) : bool :=
  let n := nat_of_ascii a in
  ((9 <=? n)%nat && (n <=? 13)%nat) || (n =? 32)%nat.

(** A [str] is held as its UTF-8 bytes.  The white space beyond ASCII, which
    [str.strip] and [int] treat alike: U+0085 and U+00A0 take two bytes, *)
Definition is_space2 (a b : ascii) : bool :=
  (nat_of_ascii a =? 194)%nat
  && ((nat_of_ascii b =? 133)%nat || (nat_of_ascii b =? 160)%nat).

(** and U+1680, U+2000 to U+200A, U+2028, U+2029, U+202F, U+205F and U+3000
    take three. *)
Definition is_space3 (a b c : ascii) : bool :=
  let x := nat_of_ascii a in
  let y := nat_of_ascii b in
  let z := nat_of_ascii c in
  ((x =? 225)%nat && (y =? 154)%nat && (z =? 128)%nat)
  || ((x =? 226)%nat && (y =? 128)%nat
      && (((128 <=? z)%nat && (z <=? 138)%nat)
          || (z =? 168)%nat || (z =? 169)%nat || (z =? 175)%nat))
  || ((x =? 226)%nat && (y =? 129)%nat && (z =? 159)%nat)
  || ((x =? 227)%nat && (y =? 128)%nat && (z =? 128)%nat).

(** The bytes left after the white space at the head of [l] is removed;
    [ascii_space] tells the ASCII white space, and [backwards] that [l] is
    the reversed string (so that its head is the end of the string). *)
Fixpoint lstrip (ascii_space : ascii -> bool) (backwards : bool) (l : list ascii)
  : list ascii :=
  match l with
  | a :: r =>
      if ascii_space a then lstrip ascii_space backwards r
      else
        match r with
        | b :: r' =>
            if (if backwards then is_space2 b a else is_space2 a b)
            then lstrip ascii_space backwards r'
            else
              match r' with
              | c :: r'' =>
                  if (if backwards then is_space3 c b a else is_space3 a b c)
                  then lstrip ascii_space backwards r''
                  else l
              | [] => l
              end
        | [] => l
        end
  | [] => []
  end.

Definition strip_chars (ascii_space : ascii -> bool) (l : list ascii) : list ascii :=
  rev (lstrip ascii_space true (rev (lstrip ascii_space false l))).

(** [s.strip()] *)
Definition strip (s : string) : string :=
  string_of_list_ascii (strip_chars is_space (list_ascii_of_string s)).

Definition digit_of (a : ascii) : option Z :=
  let n := nat_of_ascii a in
  if ((48 <=? n)%nat && (n <=? 57)%nat) then Some (Z.of_nat (n - 48)) else None.

(** Decimal digits, single underscores allowed between two digits. *)
Fixpoint parse_digits (acc : Z) (after_digit : bool) (l : list ascii) : option Z :=
  match l with
  | [] => if after_digit then Some acc else None
  | a :: r =>
      if Ascii.eqb a "_"%char then
        if after_digit then parse_digits acc false r else None
      else
        match digit_of a with
        | Some d => parse_digits (10 * acc + d) true r
        | None => None
        end
  end.

(** [int(s)] on a [str], base 10: [None] where Python raises [ValueError].
    The digits are the ASCII ones; the decimal digits of other scripts,
    which [int] converts as well, are not modelled. *)
Definition int_of_str (s : string) : option Z :=
  match strip_chars is_space_int (list_ascii_of_string s) with
  | "+"%char :: r => parse_digits 0 false r
  | "-"%char :: r => Z.opp <$> parse_digits 0 false r
  | r => parse_digits 0 false r
  end.

Definition is_Some_b {A} (o : option A) : bool :=
  match o with Some _ => true | None => false end.

(** [int(v)] *)
Definition int (v : pyval) : result Z :=
  match v with
  | PyInt z => Ok z
  | PyBool b => Ok (if b then 1 else 0)
  | PyStr s => match int_of_str s with Some z => Ok z | None => Raise ValueError end
  | PyNone | PyList _ | PyDict _ => Raise TypeError
  end.

End Py.

Import Py.

Notation "x <-! r ; k" := (Py.bind r (fun x => k))
(at level 100, r at next level, right associativity, only parsing).

(** ** Guild settings and their file *)

Module Config.

(** One guild's settings dict. *)
Abbreviation cfg := (gmap string pyval).

(** [cfg.get(key)] *)
Definition get (c : cfg) (key : string) : pyval := default PyNone (c !! key).

(** [cfg.get(key, dflt)] *)
Definition get_or (c : cfg) (key : string) (dflt : pyval) : pyval :=
  default dflt (c !! key).

(** [guild_settings]: a dict keyed by guild id, in insertion order. *)
Abbreviation settings := (list (Z * cfg)).

Fixpoint lookup (guild_id : Z) (gs : settings) : option cfg :=
  match gs with
  | [] => None
  | (g, c) :: rest => if g =? guild_id then Some c else lookup guild_id rest
  end.

(** [guild_settings[guild_id] = c]: replaces in place, appends a new key. *)
Fixpoint set_item (guild_id : Z) (c : cfg) (gs : settings) : settings :=
  match gs with
  | [] => [(guild_id, c)]
  | (g, c0) :: rest =>
      if g =? guild_id then (g, c) :: rest else (g, c0) :: set_item guild_id c rest
  end.

Definition keys (gs : settings) : list Z := fst <$> gs.

Definition default_cfg : cfg :=
  <["channel_id" := PyNone]>
  (<["post_hour" := PyInt 8]>
  (<["post_minute" := PyInt 0]>
  (<["gemini_api_key" := PyStr EmptyString]>
  (<["last_post_date" := PyNone]>
  (<["mention_mode" := PyStr "none"]>
  (<["mention_role_id" := PyNone]> ∅)))))).

(** [get_or_create_guild_settings]: the settings after the call and the
    dict it returns. *)
Definition get_or_create_guild_settings (guild_id : Z) (gs : settings)
  : settings * cfg :=
  match lookup guild_id gs with
  | Some c => (gs, c)
  | None => (set_item guild_id default_cfg gs, default_cfg)
  end.

(** Content of [guild_config.json]: no file, a JSON object whose values are
    objects (what [save_guild_config] writes), or text that [json.load]
    rejects.  Files that hold another JSON value are not covered. *)
Inductive file_state : Type :=
| FileAbsent
| FileJson (raw : list (string * cfg))
| FileTorn.

(** What the operating system does with one attempt to write the file. *)
Inductive io_outcome : Type :=
| IoOk
| IoOpenFails
| IoDumpFails.

(** [{str(gid): cfg for gid, cfg in guild_settings.items()}] *)
Definition dump (gs : settings) : list (string * cfg) :=
  (fun e : Z * cfg => (pretty (fst e), snd e)) <$> gs.

(** [save_guild_config]: the file afterwards and whether an error was
    logged.  The function has no return value and its [except] clause
    catches every exception of the write. *)
Definition save_guild_config (gs : settings) (io : io_outcome) (f : file_state)
  : file_state * bool :=
  match io with
  | IoOk => (FileJson (dump gs), false)
  | IoOpenFails => (f, true)
  | IoDumpFails => (FileTorn, true)
  end.

Fixpoint load_entries (raw : list (string * cfg)) (acc : settings) : result settings :=
  match raw with
  | [] => Ok acc
  | (gid, c) :: rest =>
      g <-! Py.int (PyStr gid);
      load_entries rest (set_item g c acc)
  end.

(** [load_guild_config] *)
Definition load_guild_config (f : file_state) : result settings :=
  match f with
  | FileAbsent => Ok []
  | FileTorn => Ok []
  | FileJson raw => load_entries raw []
  end.

End Config.

(** ** [translate_text]: the Gemini call and its retries *)

Module Translate.

(** The body of an answer: reading it raises (the connection breaks under
    [resp.json()] or [resp.text()]); it is read but is not the expected JSON
    ([resp.json()], the indexing down to the text part or [json.loads]
    raises); or it decodes to a value. *)
Inductive body : Type :=
| BodyUnreadable
| BodyMalformed
| BodyJson (v : pyval).

(** What one pass through the [try] block meets.  [PostRaised]: opening the
    session or [session.post] raised.  [Response status b]: the endpoint
    answered with [status] and body [b]. *)
Inductive attempt_outcome : Type :=
| PostRaised
| Response (status : Z) (b : body).

(** The endpoint as the call sees it: the outcome of the request sent in
    loop iteration [attempt]. *)
Definition endpoint : Type := Z -> attempt_outcome.

Inductive effect : Type :=
| EPost (attempt : Z) (text : string) (key : pyval)
| ESleep (seconds : Z).

(** The tail shared by the 5xx branch and the [except] clause:
    [if attempt < max_retries - 1: sleep(1 + attempt); continue] else
    [return None].  [next] is the rest of the loop. *)
Definition retry_or_fail (max_retries attempt : Z) (next : pyval * list effect)
  : pyval * list effect :=
  if attempt <? max_retries - 1
  then (fst next, ESleep (1 + attempt) :: snd next)
  else (PyNone, []).

(** The loop [for attempt in range(max_retries)] from iteration [attempt]
    on, with [fuel] iterations left; falling out of the loop returns
    [None]. *)
Fixpoint attempts (ep : endpoint) (text : string) (key : pyval)
    (max_retries attempt : Z) (fuel : nat) : pyval * list effect :=
  match fuel with
  | O => (PyNone, [])
  | S fuel' =>
      let next := attempts ep text key max_retries (attempt + 1) fuel' in
      let '(r, es) :=
        match ep attempt with
        | Response status b =>
            if status =? 200 then
              match b with
              | BodyJson v => (v, [])
              | BodyUnreadable | BodyMalformed => retry_or_fail max_retries attempt next
              end
            else if (500 <=? status) && (status <? 600) then
              retry_or_fail max_retries attempt next
            else
              match b with
              | BodyUnreadable => retry_or_fail max_retries attempt next
              | BodyMalformed | BodyJson _ => (PyNone, [])
              end
        | PostRaised => retry_or_fail max_retries attempt next
        end in
      (r, EPost attempt text key :: es)
  end.

(** [translate_text(japanese_json_text, gemini_api_key, max_retries)]:
    the returned value ([PyNone] is Python's [None]) and what the call did. *)
Definition translate_text (ep : endpoint) (japanese_json_text : string)
    (gemini_api_key : pyval) (max_retries : Z) : pyval * list effect :=
  if negb (truthy gemini_api_key) then (PyNone, [])
  else attempts ep japanese_json_text gemini_api_key max_retries 0 (Z.to_nat max_retries).

(** The default of the [max_retries] parameter. *)
Definition default_max_retries : Z := 3.

Definition is_post (e : effect) : bool :=
  match e with EPost _ _ _ => true | ESleep _ => false end.

(** Number of requests sent. *)
Definition posts (es : list effect) : nat := length (List.filter is_post es).

(** The waits, in order. *)
Definition sleeps (es : list effect) : list Z :=
  omap (fun e => match e with ESleep s => Some s | _ => None end) es.

(** An endpoint answering with the listed outcomes, then with [dflt]. *)
Definition scripted (outs : list attempt_outcome) (dflt : attempt_outcome) : endpoint :=
  fun attempt => nth (Z.to_nat attempt) outs dflt.

(** The endpoint reported a 5xx status. *)
Definition server_fault (o : attempt_outcome) : bool :=
  match o with
  | Response status _ => (500 <=? status) && (status <? 600)
  | PostRaised => false
  end.

(** The transport failed: the request raised, or reading the answer did. *)
Definition transport_error (o : attempt_outcome) : bool :=
  match o with
  | PostRaised => true
  | Response _ BodyUnreadable => true
  | Response _ _ => false
  end.

(** A 200 answer whose body was read but is not the expected JSON. *)
Definition malformed_200 (o : attempt_outcome) : bool :=
  match o with
  | Response status BodyMalformed => status =? 200
  | _ => false
  end.

(** The attempt sends the loop into another iteration, if one is left: the
    5xx branch, or the [except Exception] clause. *)
Definition retryable (o : attempt_outcome) : bool :=
  server_fault o || transport_error o || malformed_200 o.

(** What the call returns when the loop ends with outcome [o]. *)
Definition outcome_value (o : attempt_outcome) : pyval :=
  match o with
  | Response status (BodyJson v) => if status =? 200 then v else PyNone
  | _ => PyNone
  end.

(** The requests and waits of a call whose loop runs from iteration
    [attempt] through [k] retries: a request, then [k] times a wait of one
    second more than the last and the next request. *)
Fixpoint retry_trace (text : string) (key : pyval) (attempt : Z) (k : nat) : list effect :=
  match k with
  | O => [EPost attempt text key]
  | S k' => EPost attempt text key :: ESleep (1 + attempt) :: retry_trace text key (attempt + 1) k'
  end.

End Translate.

(** ** [get_today_horoscope_for_guild]: the per-guild daily cache *)

Module Cache.

(** A value of [horoscope_cache]: [{"date": ..., "data": ...}]. *)
Record cache_entry : Type := CacheEntry { date : string; data : pyval }.

(** [horoscope_cache] *)
Abbreviation cache := (gmap Z cache_entry).

(** What one call meets outside the process: the local date when it starts,
    what [fetch_horoscope_data_sync] returns, how the endpoint answers. *)
Record call_env : Type := CallEnv {
  today : string;
  fetched : option string;
  gemini : Translate.endpoint
}.

Inductive effect : Type :=
| EFetch
| ETranslate (e : Translate.effect).

(** The test of the fast path:
    [cached and cached.get("date") == today and cached.get("data")]. *)
Definition cache_hit (c : cache) (guild_id : Z) (today : string) : option pyval :=
  match c !! guild_id with
  | Some e => if String.eqb (date e) today && truthy (data e) then Some (data e) else None
  | None => None
  end.

(** Negation of [not japanese_json_data or japanese_json_data == "[]"]. *)
Definition usable (j : option string) : option string :=
  match j with
  | Some s => if String.eqb s EmptyString || String.eqb s "[]" then None else Some s
  | None => None
  end.

(** The slow path from the translation on: the returned value, the cache
    afterwards, what was done. *)
Definition translate_and_store (env : call_env) (guild_id : Z) (gemini_api_key : pyval)
    (json : string) (c : cache) : pyval * cache * list effect :=
  let '(translated_data, tes) :=
    Translate.translate_text (gemini env) json gemini_api_key Translate.default_max_retries in
  if negb (truthy translated_data) then (PyNone, c, ETranslate <$> tes)
  else (translated_data,
        <[guild_id := CacheEntry (today env) translated_data]> c,
        ETranslate <$> tes).

(** The slow path (steps 2 and 3 of the function): fetch, translate, store. *)
Definition pipeline (env : call_env) (guild_id : Z)
    (gemini_api_key : pyval) (c : cache) : pyval * cache * list effect :=
  match usable (fetched env) with
  | None => (PyNone, c, [EFetch])
  | Some json =>
      let '(r, c', es) := translate_and_store env guild_id gemini_api_key json c in
      (r, c', EFetch :: es)
  end.

(** The slow path fails: the fetch gave nothing usable, or [translate_text]
    returned [None] or another empty value. *)
Definition pipeline_fails (env : call_env) (gemini_api_key : pyval) : bool :=
  match usable (fetched env) with
  | None => true
  | Some json =>
      negb (truthy (fst (Translate.translate_text (gemini env) json gemini_api_key
                           Translate.default_max_retries)))
  end.

(** [get_today_horoscope_for_guild(guild_id, gemini_api_key)] run without
    another task in between. *)
Definition get_today_horoscope_for_guild (env : call_env) (guild_id : Z)
    (gemini_api_key : pyval) (c : cache) : pyval * cache * list effect :=
  match cache_hit c guild_id (today env) with
  | Some d => (d, c, [])
  | None => pipeline env guild_id gemini_api_key c
  end.

(** *** The same coroutine cut at its suspension points

    The coroutine gives up control at [await asyncio.to_thread(...)] and
    inside [await translate_text(...)]; [cache_lock] is only held over code
    without an [await], so each locked block runs undisturbed.
    [translate_text] does not touch the cache, hence its requests and
    sleeps are kept in one step together with the store that follows its
    return without suspension. *)
Inductive pc : Type :=
| Start
| AwaitFetch
| AwaitTranslate (json : string)
| Done (r : pyval).

Record call : Type := Call {
  env : call_env;
  guild_id : Z;
  gemini_api_key : pyval;
  at_pc : pc
}.

Definition at_ (k : call) (p : pc) : call :=
  Call (env k) (guild_id k) (gemini_api_key k) p.

Definition step_call (k : call) (c : cache) : call * cache * list effect :=
  match at_pc k with
  | Start =>
      match cache_hit c (guild_id k) (today (env k)) with
      | Some d => (at_ k (Done d), c, [])
      | None => (at_ k AwaitFetch, c, [EFetch])
      end
  | AwaitFetch =>
      match usable (fetched (env k)) with
      | None => (at_ k (Done PyNone), c, [])
      | Some json => (at_ k (AwaitTranslate json), c, [])
      end
  | AwaitTranslate json =>
      let '(r, c', es) := translate_and_store (env k) (guild_id k) (gemini_api_key k) json c in
      (at_ k (Done r), c', es)
  | Done r => (k, c, [])
  end.

(** The tasks of the event loop that are inside the function, the cache they
    share and what each has done so far (tagged with the task's index). *)
Record system : Type := System {
  shared : cache;
  calls : list call;
  log : list (nat * effect)
}.

(** The event loop resumes task [i] up to its next suspension point. *)
Definition resume (i : nat) (s : system) : system :=
  match calls s !! i with
  | None => s
  | Some k =>
      let '(k', c', es) := step_call k (shared s) in
      System c' (<[i := k']> (calls s)) (log s ++ ((fun e => (i, e)) <$> es))
  end.

Definition run_schedule (sched : list nat) (s : system) : system :=
  foldl (fun s i => resume i s) s sched.

Definition is_request (e : effect) : bool :=
  match e with ETranslate (Translate.EPost _ _ _) => true | _ => false end.

(** What task [i] has done, in order. *)
Definition trace_of (i : nat) (l : list (nat * effect)) : list effect :=
  omap (fun p : nat * effect => if Nat.eqb (fst p) i then Some (snd p) else None) l.

(** Number of translation requests task [i] has sent. *)
Definition requests_of (i : nat) (l : list (nat * effect)) : nat :=
  length (List.filter is_request (trace_of i l)).

(** *** Calls for one guild [T] and one day [D] among the tasks *)

(** A call that cannot put an entry of another day under [T]. *)
Definition same_day_for_guild (T : Z) (D : string) (k : call) : Prop :=
  guild_id k <> T \/ today (env k) = D.

(** The cache holds a non-empty entry of day [D] for [T], and no task can
    replace it with one of another day. *)
Definition entry_fresh (T : Z) (D : string) (s : system) : Prop :=
  is_Some (cache_hit (shared s) T D) /\ Forall (same_day_for_guild T D) (calls s).

(** Task [i] is a call for [(T, D)] that has not started or has returned a
    payload, and [n] is what it has done. *)
Definition served (T : Z) (D : string) (i : nat) (n : list effect) (s : system) : Prop :=
  exists k, calls s !! i = Some k /\ guild_id k = T /\ today (env k) = D /\
            (at_pc k = Start \/ exists d, at_pc k = Done d /\ truthy d = true) /\
            trace_of i (log s) = n.

End Cache.

(** ** [scheduler_loop] and the [/ohaasa] commands *)

Module Bot.

Import Config.

(** A channel object returned by [client.get_channel]. *)
Inductive channel : Type := Channel (id : Z).

(** The arguments of one [fetch_and_post_horoscope] call. *)
Record dispatch : Type := Dispatch {
  d_channel : channel;
  d_key : pyval;
  d_mention : option string;
  d_guild : Z
}.

(** What the scheduler reads of [dt.datetime.now()]:
    [now.strftime("%Y%m%d")], [now.hour], [now.minute]. *)
Record clock : Type := Clock { today_str : string; now_hour : Z; now_minute : Z }.

(** The surroundings at one moment: the clock and the channels the client
    can see. *)
Record world : Type := World { now : clock; get_channel : Z -> option channel }.

Inductive response : Type :=
| RGuildOnly | RChannelSet | RKeySaved | RTimeSet | RMentionSet | RRoleRequired
| RConfigShown | RNoChannel | RNoKey | RChannelNotFound | RTestPosting.

Inductive effect : Type :=
| ECreateTask (d : dispatch)
| ESetMarker (guild : Z) (day : string)
| ESave (io : io_outcome)
| ELogMissingChannel (guild : Z)
| ESleep (seconds : Z)
| ERespond (r : response)
| EAwaitDispatch (d : dispatch).

(** The mutable globals and the file behind them.  [io_tape] lists what the
    coming writes of the file will meet (writes beyond the tape succeed). *)
Record store : Type := Store {
  guild_settings : settings;
  config_file : file_state;
  io_tape : list io_outcome
}.

Definition next_io (tape : list io_outcome) : io_outcome * list io_outcome :=
  match tape with
  | [] => (IoOk, [])
  | io :: rest => (io, rest)
  end.

(** The mention text, built the same way by the scheduler and by [/ohaasa test]. *)
Definition mention_text (c : cfg) : result (option string) :=
  let mode := get_or c "mention_mode" (PyStr "none") in
  let role_id := get c "mention_role_id" in
  if eq_str mode "everyone" then Ok (Some "@everyone")
  else if eq_str mode "role" && truthy role_id then
    r <-! Py.int role_id;
    Ok (Some ("<@&" +:+ pretty r +:+ ">"))
  else Ok None.

(** What the loop body decides for one guild before it changes anything. *)
Inductive verdict : Type :=
| Skip
| MissingChannel
| Fire (d : dispatch).

Definition evaluate (w : world) (guild_id : Z) (c : cfg) : result verdict :=
  let channel_id := get c "channel_id" in
  let hour := get c "post_hour" in
  let minute := get c "post_minute" in
  let gemini_key := get c "gemini_api_key" in
  let last_post_date := get c "last_post_date" in
  if is_none channel_id || is_none gemini_key then Ok Skip
  else if eq_str last_post_date (today_str (now w)) then Ok Skip
  else
    h <-! Py.int hour;
    if negb (now_hour (now w) =? h) then Ok Skip
    else
      m <-! Py.int minute;
      if negb (now_minute (now w) =? m) then Ok Skip
      else
        ch <-! Py.int channel_id;
        match get_channel w ch with
        | None => Ok MissingChannel
        | Some chan =>
            mt <-! mention_text c;
            Ok (Fire (Dispatch chan gemini_key mt guild_id))
        end.

Record tick_result : Type := TickResult {
  after : store;
  effects : list effect;
  raised : option exn
}.

Definition emit (es : list effect) (r : tick_result) : tick_result :=
  TickResult (after r) (es ++ effects r) (raised r).

(** [cfg["last_post_date"] = today_str] *)
Definition mark (day : string) (c : cfg) : cfg := <["last_post_date" := PyStr day]> c.

(** [for guild_id, cfg in guild_settings.items()]: [done] are the entries
    already visited (as they are now), [todo] the ones still to visit. *)
Fixpoint for_guilds (w : world) (done todo : settings)
    (f : file_state) (tape : list io_outcome) : tick_result :=
  match todo with
  | [] => TickResult (Store done f tape) [] None
  | (guild_id, c) :: rest =>
      match evaluate w guild_id c with
      | Raise e => TickResult (Store (done ++ todo) f tape) [] (Some e)
      | Ok Skip => for_guilds w (done ++ [(guild_id, c)]) rest f tape
      | Ok MissingChannel =>
          emit [ELogMissingChannel guild_id]
            (for_guilds w (done ++ [(guild_id, c)]) rest f tape)
      | Ok (Fire d) =>
          let today := today_str (now w) in
          let c' := mark today c in
          let '(io, tape') := next_io tape in
          let f' := fst (save_guild_config (done ++ (guild_id, c') :: rest) io f) in
          emit [ECreateTask d; ESetMarker guild_id today; ESave io]
            (for_guilds w (done ++ [(guild_id, c')]) rest f' tape')
      end
  end.

(** One iteration of [while not client.is_closed()]: the [for] loop, then
    [await asyncio.sleep(30)] unless an exception left the loop. *)
Definition scheduler_tick (w : world) (s : store) : tick_result :=
  let r := for_guilds w [] (guild_settings s) (config_file s) (io_tape s) in
  match raised r with
  | None => TickResult (after r) (effects r ++ [ESleep 30]) None
  | Some e => r
  end.

(** [scheduler_loop] once the client is ready: one iteration per element of
    [ticks] (what the iteration finds around it) until the client is closed
    or an exception ends the coroutine. *)
Fixpoint scheduler_loop (ticks : list world) (s : store) : tick_result :=
  match ticks with
  | [] => TickResult s [] None
  | w :: rest =>
      let r := scheduler_tick w s in
      match raised r with
      | Some _ => r
      | None => emit (effects r) (scheduler_loop rest (after r))
      end
  end.

(** *** Commands *)

Inductive mention_choice : Type := ChoiceNone | ChoiceEveryone | ChoiceRole.

Inductive command : Type :=
| CmdChannel (target : Z)
| CmdApikey (api_key : string)
| CmdTime (hour minute : Z)
| CmdMention (mode : mention_choice) (role : option Z)
| CmdConfig
| CmdTest.

(** [save_guild_config()] on the current globals. *)
Definition save (s : store) : store * effect :=
  let '(io, tape') := next_io (io_tape s) in
  (Store (guild_settings s)
         (fst (save_guild_config (guild_settings s) io (config_file s))) tape',
   ESave io).

(** [cfg = get_or_create_guild_settings(gid)] followed by the item
    assignments [cfg[k] = v] of [updates], on the dict held by the store. *)
Definition assign (guild_id : Z) (updates : list (string * pyval)) (s : store) : store :=
  let '(gs, c) := get_or_create_guild_settings guild_id (guild_settings s) in
  let c' := foldl (fun c kv => <[fst kv := snd kv]> c) c updates in
  Store (set_item guild_id c' gs) (config_file s) (io_tape s).

Definition assign_and_save (guild_id : Z) (updates : list (string * pyval))
    (r : response) (s : store) : tick_result :=
  let '(s', e) := save (assign guild_id updates s) in
  TickResult s' [e; ERespond r] None.

Definition run_test (w : world) (guild_id : Z) (s : store) : tick_result :=
  let '(gs, c) := get_or_create_guild_settings guild_id (guild_settings s) in
  let s' := Store gs (config_file s) (io_tape s) in
  let ch_id := get c "channel_id" in
  let gemini_key := get c "gemini_api_key" in
  if negb (truthy ch_id) then TickResult s' [ERespond RNoChannel] None
  else if negb (truthy gemini_key) then TickResult s' [ERespond RNoKey] None
  else
    match Py.int ch_id with
    | Raise e => TickResult s' [] (Some e)
    | Ok ch =>
        match get_channel w ch with
        | None => TickResult s' [ERespond RChannelNotFound] None
        | Some chan =>
            match mention_text c with
            | Raise e => TickResult s' [] (Some e)
            | Ok mt =>
                TickResult s'
                  [ERespond RTestPosting; EAwaitDispatch (Dispatch chan gemini_key mt guild_id)]
                  None
            end
        end
    end.

(** The time [/ohaasa config] shows:
    [f"{int(hour):02d}:{int(minute):02d}"] unless one of them is [None]. *)
Definition time_str (c : cfg) : result (option (Z * Z)) :=
  let hour := get c "post_hour" in
  let minute := get c "post_minute" in
  if negb (is_none hour) && negb (is_none minute) then
    h <-! Py.int hour;
    m <-! Py.int minute;
    Ok (Some (h, m))
  else Ok None.

(** [/ohaasa config]: the embed is sent unless a conversion of the body
    raises. *)
Definition run_config (guild_id : Z) (s : store) : tick_result :=
  let c := snd (get_or_create_guild_settings guild_id (guild_settings s)) in
  let s' := assign guild_id [] s in
  match time_str c with
  | Raise e => TickResult s' [] (Some e)
  | Ok _ =>
      match mention_text c with
      | Raise e => TickResult s' [] (Some e)
      | Ok _ => TickResult s' [ERespond RConfigShown] None
      end
  end.

(** A command handler of the [Ohaasa] group, run once the permission check
    of the command has passed; [guild] is [interaction.guild].  The check of
    [test], [is_guild_owner], fails without a guild, so that the body of
    [test] is not run there at all. *)
Definition run_command (w : world) (guild : option Z) (cmd : command) (s : store)
  : tick_result :=
  match guild with
  | None =>
      match cmd with
      | CmdTest => TickResult s [] None
      | _ => TickResult s [ERespond RGuildOnly] None
      end
  | Some guild_id =>
      match cmd with
      | CmdChannel target =>
          assign_and_save guild_id [("channel_id", PyInt target)] RChannelSet s
      | CmdApikey api_key =>
          assign_and_save guild_id [("gemini_api_key", PyStr (Py.strip api_key))] RKeySaved s
      | CmdTime hour minute =>
          assign_and_save guild_id
            [("post_hour", PyInt hour); ("post_minute", PyInt minute)] RTimeSet s
      | CmdMention ChoiceRole None =>
          TickResult (assign guild_id [] s) [ERespond RRoleRequired] None
      | CmdMention ChoiceRole (Some role) =>
          assign_and_save guild_id
            [("mention_mode", PyStr "role"); ("mention_role_id", PyInt role)] RMentionSet s
      | CmdMention ChoiceEveryone _ =>
          assign_and_save guild_id
            [("mention_mode", PyStr "everyone"); ("mention_role_id", PyNone)] RMentionSet s
      | CmdMention ChoiceNone _ =>
          assign_and_save guild_id
            [("mention_mode", PyStr "none"); ("mention_role_id", PyNone)] RMentionSet s
      | CmdConfig => run_config guild_id s
      | CmdTest => run_test w guild_id s
      end
  end.

(** *** The process: scheduler iterations with commands in between *)

Inductive action : Type :=
| Tick
| Command (guild : option Z) (cmd : command).

Record event : Type := Event { ev_world : world; ev_action : action }.

(** The globals and whether the [scheduler_loop] task is still running. *)
Record bot : Type := BotState { globals : store; scheduler_alive : bool }.

Definition step (ev : event) (b : bot) : bot * list effect :=
  match ev_action ev with
  | Tick =>
      if scheduler_alive b then
        let r := scheduler_tick (ev_world ev) (globals b) in
        (BotState (after r) (negb (is_Some_b (raised r))), effects r)
      else (b, [])
  | Command guild cmd =>
      let r := run_command (ev_world ev) guild cmd (globals b) in
      (BotState (after r) (scheduler_alive b), effects r)
  end.

(** The run of a sequence of events, with what each one did. *)
Fixpoint run (evs : list event) (b : bot) : bot * list (event * list effect) :=
  match evs with
  | [] => (b, [])
  | ev :: rest =>
      let '(b', es) := step ev b in
      let '(b'', log) := run rest b' in
      (b'', (ev, es) :: log)
  end.

Definition is_task_for (guild : Z) (e : effect) : bool :=
  match e with ECreateTask d => d_guild d =? guild | _ => false end.

(** Tasks the scheduler created for [guild] in one list of effects. *)
Definition tasks_for (guild : Z) (es : list effect) : nat :=
  length (List.filter (is_task_for guild) es).

Definition is_tick_on (day : string) (ev : event) : bool :=
  match ev_action ev with
  | Tick => String.eqb (today_str (now (ev_world ev))) day
  | Command _ _ => false
  end.

(** Scheduled dispatches for [(guild, day)] in the log of a run. *)
Fixpoint scheduled (guild : Z) (day : string) (log : list (event * list effect)) : nat :=
  match log with
  | [] => O
  | (ev, es) :: rest =>
      ((if is_tick_on day ev then tasks_for guild es else O) + scheduled guild day rest)%nat
  end.

(** Where the ticks of a run stand with respect to a day: none on it yet,
    the latest one on it, or a later day reached. *)
Inductive phase : Type := Before | During | After.

(** The clock does not come back to [day] once a tick has seen another day
    after it (which holds of every clock that does not run backwards). *)
Fixpoint day_not_revisited (day : string) (p : phase) (evs : list event) : bool :=
  match evs with
  | [] => true
  | ev :: rest =>
      match ev_action ev with
      | Command _ _ => day_not_revisited day p rest
      | Tick =>
          if String.eqb (today_str (now (ev_world ev))) day then
            match p with
            | After => false
            | Before | During => day_not_revisited day During rest
            end
          else
            match p with
            | Before => day_not_revisited day Before rest
            | During | After => day_not_revisited day After rest
            end
      end
  end.

(** *** The [for] loop seen from outside

    What one pass over the guilds amounts to for the settings, for the tasks
    created and for the exception that leaves it; [for_guilds] is shown below
    to agree with them. *)

(** The entries after the pass: marked where a task was created, untouched
    from the entry whose evaluation raises on. *)
Fixpoint advance (w : world) (todo : settings) : settings :=
  match todo with
  | [] => []
  | (g, c) :: rest =>
      match evaluate w g c with
      | Raise _ => todo
      | Ok (Fire _) => (g, mark (today_str (now w)) c) :: advance w rest
      | Ok _ => (g, c) :: advance w rest
      end
  end.

(** The tasks created by the pass, in order. *)
Fixpoint fired (w : world) (todo : settings) : list dispatch :=
  match todo with
  | [] => []
  | (g, c) :: rest =>
      match evaluate w g c with
      | Raise _ => []
      | Ok (Fire d) => d :: fired w rest
      | Ok _ => fired w rest
      end
  end.

(** The exception that ends the pass, if any. *)
Fixpoint first_raise (w : world) (todo : settings) : option exn :=
  match todo with
  | [] => None
  | (g, c) :: rest =>
      match evaluate w g c with
      | Raise e => Some e
      | Ok _ => first_raise w rest
      end
  end.

Definition created (es : list effect) : list dispatch :=
  omap (fun e => match e with ECreateTask d => Some d | _ => None end) es.

(** Tasks for [guild] among [ds]. *)
Definition count_for (guild : Z) (ds : list dispatch) : nat :=
  length (List.filter (fun d => d_guild d =? guild) ds).

(** The order of effects inside the pass: every [create_task] is followed at
    once by the marker assignment for the same guild and by the save; a
    marker assignment or a save never stands alone; the pass contains no
    suspension point. *)
Fixpoint spawn_mark_save (day : string) (es : list effect) : bool :=
  match es with
  | [] => true
  | ECreateTask d :: ESetMarker g day' :: ESave _ :: rest =>
      (d_guild d =? g) && String.eqb day' day && spawn_mark_save day rest
  | ELogMissingChannel _ :: rest => spawn_mark_save day rest
  | _ => false
  end.

(** The guild's entry carries the marker of [day]. *)
Definition marked (guild : Z) (day : string) (gs : settings) : Prop :=
  exists c, lookup guild gs = Some c /\ eq_str (get c "last_post_date") day = true.

(** Commands that assign to a settings dict. *)
Definition mutating (cmd : command) : bool :=
  match cmd with
  | CmdChannel _ | CmdApikey _ | CmdTime _ _ => true
  | CmdMention ChoiceRole None => false
  | CmdMention _ _ => true
  | CmdConfig | CmdTest => false
  end.

End Bot.

(** ** Strings as bytes *)

Module Text.

(** The rest of [l] after the white-space character at its head, if there
    is one: what one round of [lstrip] removes. *)
Definition space_head (ascii_space : ascii -> bool) (backwards : bool) (l : list ascii)
  : option (list ascii) :=
  match l with
  | a :: r =>
      if ascii_space a then Some r
      else
        match r with
        | b :: r' =>
            if (if backwards then is_space2 b a else is_space2 a b) then Some r'
            else
              match r' with
              | c :: r'' =>
                  if (if backwards then is_space3 c b a else is_space3 a b c)
                  then Some r''
                  else None
              | [] => None
              end
        | [] => None
        end
  | [] => None
  end.

(** An ASCII character that is not white space. *)
Definition plain (ascii_space : ascii -> bool) (a : ascii) : bool :=
  (nat_of_ascii a <? 128)%nat && negb (ascii_space a).

(** An ASCII character that no integer literal of base 10 contains: not a
    digit, a sign or an underscore, and not white space around it. *)
Definition not_in_literal (a : ascii) : bool :=
  plain is_space_int a
  && negb (is_Some_b (digit_of a))
  && negb (Ascii.eqb a "+"%char || Ascii.eqb a "-"%char || Ascii.eqb a "_"%char).

(** A key of the settings file that [int] rejects for such a character. *)
Definition bad_key (k : string) : Prop :=
  Exists (fun a => not_in_literal a = true) (list_ascii_of_string k).

End Text.

(** ** Settings as the bot itself writes them *)

Module Typed.

Import Config.

Definition is_int (v : pyval) : bool :=
  match v with PyInt _ => true | _ => false end.

(** The shape the creation defaults and the commands give to a settings
    dict: the channel and the role are [None] or an [int], the post hour and
    the post minute are [int]s. *)
Definition well_typed (c : cfg) : bool :=
  (is_none (get c "channel_id") || is_int (get c "channel_id"))
  && is_int (get c "post_hour")
  && is_int (get c "post_minute")
  && (is_none (get c "mention_role_id") || is_int (get c "mention_role_id")).

Definition all_well_typed (gs : settings) : Prop :=
  Forall (fun e : Z * cfg => well_typed (snd e) = true) gs.

End Typed.

(** ** The process from start to restart *)

Module Process.

Import Config Bot.

(** The entry point: [load_guild_config()], then [client.run], whose
    [on_ready] starts [scheduler_loop].  [None]: loading raised and the
    process ended. *)
Definition start (f : file_state) (tape : list io_outcome) : option bot :=
  match load_guild_config f with
  | Ok gs => Some (BotState (Store gs f tape) true)
  | Raise _ => None
  end.

(** What happens to the process: an event while it runs, or a restart from
    the file as it is. *)
Inductive life_event : Type :=
| Live (ev : event)
| Restart.

(** The log of a life of the process.  A process that could not load its
    file does nothing, and restarting it meets the same file. *)
Fixpoint run_lives (evs : list life_event) (b : option bot) : list (event * list effect) :=
  match evs, b with
  | [], _ => []
  | _ :: rest, None => run_lives rest None
  | Live ev :: rest, Some b0 =>
      let '(b', es) := step ev b0 in
      (ev, es) :: run_lives rest (Some b')
  | Restart :: rest, Some b0 =>
      run_lives rest (start (config_file (globals b0)) (io_tape (globals b0)))
  end.

Definition live_events (evs : list life_event) : list event :=
  omap (fun e => match e with Live ev => Some ev | Restart => None end) evs.

(** The guild ids are distinct, no write is going to fail, and the marker of
    [T] for [D], if it is in memory, is also in what the file would load. *)
Definition durable (T : Z) (D : string) (b : bot) : Prop :=
  NoDup (keys (guild_settings (globals b))) /\
  io_tape (globals b) = [] /\
  (marked T D (guild_settings (globals b)) ->
   exists gs, load_guild_config (config_file (globals b)) = Ok gs /\ marked T D gs).

End Process.

(** ** Tasks inside [get_today_horoscope_for_guild] *)

Module Tasks.

Import Cache.

(** Every entry of the cache holds a non-empty payload. *)
Definition all_nonempty (c : cache) : Prop :=
  forall g e, c !! g = Some e -> truthy (data e) = true.

End Tasks.

(** ** [fetch_horoscope_data_sync]: the source data *)

Module Source.

(** A dict is the list of its items, each key once; [d.get(key)] is the
    value of the item with that key, if any. *)
Fixpoint dict_find (entries : list (string * pyval)) (key : string) : option pyval :=
  match entries with
  | [] => None
  | (k, v) :: rest => if String.eqb k key then Some v else dict_find rest key
  end.

Definition dict_get (entries : list (string * pyval)) (key : string) : pyval :=
  default PyNone (dict_find entries key).

Definition SIGN_CODE_TO_JP : list (string * string) :=
  [("01", "牡羊座"); ("02", "牡牛座"); ("03", "双子座"); ("04", "蟹座");
   ("05", "獅子座"); ("06", "乙女座"); ("07", "天秤座"); ("08", "蠍座");
   ("09", "射手座"); ("10", "山羊座"); ("11", "水瓶座"); ("12", "魚座")].

Fixpoint sign_name (table : list (string * string)) (code : string) : option string :=
  match table with
  | [] => None
  | (k, v) :: rest => if String.eqb k code then Some v else sign_name rest code
  end.

(** [text.replace("\t", " ")] *)
Definition replace_tab (s : string) : string :=
  string_of_list_ascii
    (map (fun a => if Ascii.eqb a "009"%char then " "%char else a) (list_ascii_of_string s)).

(** Values that can be a dict key. *)
Definition hashable (v : pyval) : bool :=
  match v with
  | PyList _ | PyDict _ => false
  | _ => true
  end.

(** One element of [result]. *)
Record item : Type := Item { rank : string; sign_jp : string; description_jp : string }.

(** What iterating over [details] yields; [None] where [len(details)]
    raises.  A [str] yields its characters and a dict its keys, all of them
    [str]s. *)
Definition iterate (details : pyval) : option (list pyval) :=
  match details with
  | PyList l => Some l
  | PyStr s => Some (map (fun a => PyStr (String a EmptyString)) (list_ascii_of_string s))
  | PyDict entries => Some (map (fun e : string * pyval => PyStr (fst e)) entries)
  | PyNone | PyBool _ | PyInt _ => None
  end.

Section WithStr.

(** [str(v)] as the f-strings apply it. *)
Variable str_of : pyval -> string.

(** [f"不明な星座({sign_code})"] *)
Definition unknown_sign (sign_code : pyval) : string :=
  "不明な星座(" +:+ str_of sign_code +:+ ")".

(** The body of the loop over [details] for one element: the item it
    appends, or [None] when it goes on without appending (a field is
    missing or empty, or an exception is caught). *)
Definition convert (d : pyval) : option item :=
  match d with
  | PyDict entries =>
      let rank_str := dict_get entries "ranking_no" in
      let sign_code := dict_get entries "horoscope_st" in
      let text := dict_get entries "horoscope_text" in
      if negb (truthy rank_str && truthy sign_code && truthy text) then None
      else
        let rank := str_of rank_str +:+ "位" in
        if negb (hashable sign_code) then None
        else
          let sign_jp :=
            match sign_code with
            | PyStr code => default (unknown_sign sign_code) (sign_name SIGN_CODE_TO_JP code)
            | _ => unknown_sign sign_code
            end in
          match text with
          | PyStr t => Some (Item rank sign_jp (Py.strip (replace_tab t)))
          | _ => None
          end
  | _ => None
  end.

(** The list [result] the function serialises; [resp] is the decoded answer
    of the request, [None] when the request, [raise_for_status] or
    [resp.json()] raises.  [None]: the function returns [None]. *)
Definition collect (resp : option pyval) : option (list item) :=
  match resp with
  | Some (PyList (PyDict root :: _)) =>
      match iterate (default (PyList []) (dict_find root "detail")) with
      | Some ds =>
          match omap convert ds with
          | [] => None
          | result => Some result
          end
      | None => None
      end
  | _ => None
  end.

End WithStr.

(** *** [json.dumps(result, ensure_ascii=False, indent=2)] *)

Definition quote : ascii := "034"%char.
Definition newline : ascii := "010"%char.

Definition hex_digit (n : nat) : ascii :=
  nth n (list_ascii_of_string "0123456789abcdef") "0"%char.

(** The escapes of the JSON encoder when [ensure_ascii] is off. *)
Definition escape_char (a : ascii) : list ascii :=
  let n := nat_of_ascii a in
  if Ascii.eqb a quote then ["\"%char; quote]
  else if Ascii.eqb a "\"%char then ["\"%char; "\"%char]
  else if (n =? 10)%nat then ["\"%char; "n"%char]
  else if (n =? 13)%nat then ["\"%char; "r"%char]
  else if (n =? 9)%nat then ["\"%char; "t"%char]
  else if (n =? 8)%nat then ["\"%char; "b"%char]
  else if (n =? 12)%nat then ["\"%char; "f"%char]
  else if (n <? 32)%nat then
    ["\"%char; "u"%char; "0"%char; "0"%char; hex_digit (n / 16); hex_digit (n mod 16)]
  else [a].

Definition json_string (s : string) : list ascii :=
  quote :: concat (map escape_char (list_ascii_of_string s)) ++ [quote].

Definition json_field (indent : string) (key value : string) : list ascii :=
  list_ascii_of_string indent ++ json_string key
    ++ list_ascii_of_string ": " ++ json_string value.

Definition json_item (x : item) : list ascii :=
  list_ascii_of_string "  {" ++ [newline]
    ++ json_field "    " "rank" (rank x) ++ [","%char; newline]
    ++ json_field "    " "sign_jp" (sign_jp x) ++ [","%char; newline]
    ++ json_field "    " "description_jp" (description_jp x) ++ [newline]
    ++ list_ascii_of_string "  }".

Fixpoint json_items (xs : list item) : list ascii :=
  match xs with
  | [] => []
  | [x] => json_item x ++ [newline]
  | x :: rest => json_item x ++ [","%char; newline] ++ json_items rest
  end.

Definition dumps (xs : list item) : string :=
  match xs with
  | [] => "[]"
  | _ => string_of_list_ascii ("["%char :: newline :: json_items xs ++ ["]"%char])
  end.

(** [str(v)] where it is plain: a [str] is itself, an [int] its decimal
    digits (used to run the function on examples). *)
Definition str_scalar (v : pyval) : string :=
  match v with
  | PyStr s => s
  | PyInt z => pretty z
  | _ => EmptyString
  end.

(** [fetch_horoscope_data_sync()] *)
Definition fetch_horoscope_data_sync (str_of : pyval -> string) (resp : option pyval)
  : option string :=
  dumps <$> collect str_of resp.

End Source.

(** ** Posting the ranking: [fetch_and_post_horoscope] *)

Module Publish.

(** What the [except Exception] of the posting block catches. *)
Inductive error : Type :=
| DataError   (* reading the translated data raised: a [TypeError] or a [KeyError] *)
| ApiError.   (* a call of the Discord API raised *)

(** Where the detail texts go: the new thread, or the channel itself. *)
Inductive target : Type := ToThread | ToChannel.

Inductive effect : Type :=
| ECache (e : Cache.effect)
| ESend (content : string)                  (* [channel.send(loading_content)] *)
| EEdit (content : string)                  (* [loading_message.edit(content=...)] *)
| EEditEmbed (title top bottom : string)    (* [loading_message.edit(content=None, embed=embed)] *)
| ECreateThread (name : string)
| ESendDetails (to : target) (text : string)
| ESendError (e : error).                   (* [channel.send(f"... {e}")] *)

(** What one call meets outside the process: the surroundings of the cached
    lookup, [time.strftime("%Y년 %m월 %d일", ...)] and [channel.guild.id]
    where the channel has a guild. *)
Record env : Type := Env {
  cache_env : Cache.call_env;
  date_str : string;
  channel_guild : option Z
}.

Record outcome : Type := Outcome {
  cache_after : Cache.cache;
  effects : list effect;      (* the calls that went through, in order *)
  raised : option error       (* the exception that leaves the function *)
}.

(** Whether the coming calls of the Discord API go through, one entry per
    call (calls beyond the tape go through). *)
Definition next_api (tape : list bool) : bool * list bool :=
  match tape with
  | [] => (true, [])
  | ok :: rest => (ok, rest)
  end.

Definition all_ok (tape : list bool) : bool := forallb (fun ok : bool => ok) tape.

Definition nl : string := String Source.newline EmptyString.

Definition loading : string := "✨ **[오하아사 별자리 운세]** 데이터를 가져오는 중입니다...".
Definition no_guild : string := "❌ 길드 정보를 찾을 수 없어 운세를 불러오지 못했습니다.".
Definition load_failed : string :=
  "❌ 오늘자 운세 데이터를 불러오지 못했습니다. (JSON 또는 Gemini 오류)".
Definition no_data : string := "데이터 없음".
Definition top_header : string := "**🥇 1위 ~ 6위 상세 운세**" +:+ nl.
Definition bottom_header : string := "**⬇️ 7위 ~ 12위 상세 운세**" +:+ nl.

Definition title (date_str : string) : string :=
  "📅 " +:+ date_str +:+ " 오늘의 오하아사 별자리 랭킹".

Definition thread_name (date_str : string) : string :=
  date_str +:+ " 별자리 운세 상세 내용".

Definition loading_content (mention_text : option string) : string :=
  match mention_text with
  | Some m => if String.eqb m EmptyString then loading else m +:+ " " +:+ loading
  | None => loading
  end.

(** [value or "데이터 없음"] *)
Definition or_no_data (value : string) : string :=
  if String.eqb value EmptyString then no_data else value.

(** [item[key]] for a [str] key; [None] where it raises ([KeyError] on a
    dict without the key, [TypeError] on anything else). *)
Definition subscript (item : pyval) (key : string) : option pyval :=
  match item with
  | PyDict entries => Source.dict_find entries key
  | _ => None
  end.

(** The elements of [translated_data[:6]] and of [translated_data[6:]];
    [None] where the slice raises.  A [str] gives its characters, which are
    [str]s again. *)
Definition halves (translated_data : pyval) : option (list pyval * list pyval) :=
  match translated_data with
  | PyList l => Some (firstn 6 l, skipn 6 l)
  | PyStr s =>
      let l := map (fun a => PyStr (String a EmptyString)) (list_ascii_of_string s) in
      Some (firstn 6 l, skipn 6 l)
  | _ => None
  end.

Section WithStr.

(** [str(v)] as the f-strings apply it. *)
Variable str_of : pyval -> string.

(** [f"**{item['rank']}** — {item['sign_ko']}"] *)
Definition ranking_line (item : pyval) : option string :=
  match subscript item "rank", subscript item "sign_ko" with
  | Some rank, Some sign_ko => Some ("**" +:+ str_of rank +:+ "** — " +:+ str_of sign_ko)
  | _, _ => None
  end.

(** ["\n".join(... for item in rankings)] *)
Definition ranking_list (rankings : list pyval) : option string :=
  String.concat nl <$> mapM ranking_line rankings.

(** What the loop adds to the detail text for one item. *)
Definition detail_block (item : pyval) : option string :=
  match subscript item "rank", subscript item "sign_ko", subscript item "description_ko" with
  | Some rank, Some sign_ko, Some description_ko =>
      Some (nl +:+ "**" +:+ str_of rank +:+ " " +:+ str_of sign_ko +:+ "**" +:+ nl
              +:+ "> " +:+ str_of description_ko +:+ nl)
  | _, _, _ => None
  end.

Definition details_text (header : string) (rankings : list pyval) : option string :=
  (fun blocks => header +:+ String.concat EmptyString blocks) <$> mapM detail_block rankings.

(** The [try] block of step 3: what was posted, the rest of the tape and
    the exception the block ends with, if any. *)
Definition post_ranking (date_str : string) (translated_data : pyval) (tape : list bool)
  : list effect * list bool * option error :=
  match halves translated_data with
  | None => ([], tape, Some DataError)
  | Some (top_rankings, bottom_rankings) =>
      match ranking_list top_rankings with
      | None => ([], tape, Some DataError)
      | Some top_list =>
          match ranking_list bottom_rankings with
          | None => ([], tape, Some DataError)
          | Some bottom_list =>
              let '(edited, tape) := next_api tape in
              if negb edited then ([], tape, Some ApiError)
              else
                let embed :=
                  EEditEmbed (title date_str) (or_no_data top_list) (or_no_data bottom_list) in
                let '(created, tape) := next_api tape in
                let thread := if created then ToThread else ToChannel in
                let posted :=
                  if created then [embed; ECreateThread (thread_name date_str)] else [embed] in
                match details_text top_header top_rankings with
                | None => (posted, tape, Some DataError)
                | Some top_details_text =>
                    match details_text bottom_header bottom_rankings with
                    | None => (posted, tape, Some DataError)
                    | Some bottom_details_text =>
                        let '(sent, tape) := next_api tape in
                        if negb sent then (posted, tape, Some ApiError)
                        else
                          let posted := posted ++ [ESendDetails thread top_details_text] in
                          let '(sent, tape) := next_api tape in
                          if negb sent then (posted, tape, Some ApiError)
                          else (posted ++ [ESendDetails thread bottom_details_text], tape, None)
                    end
                end
          end
      end
  end.

(** [fetch_and_post_horoscope(channel, gemini_api_key, mention_text, guild_id)],
    the cached lookup run without another task in between. *)
Definition fetch_and_post_horoscope (e : env) (gemini_api_key : pyval)
    (mention_text : option string) (guild_id : option Z)
    (c : Cache.cache) (tape : list bool) : outcome :=
  let '(sent, tape) := next_api tape in
  if negb sent then Outcome c [] (Some ApiError)
  else
    let posted := [ESend (loading_content mention_text)] in
    let guild_id :=
      match guild_id with
      | Some g => Some g
      | None => channel_guild e
      end in
    match guild_id with
    | None =>
        let '(edited, _) := next_api tape in
        if edited then Outcome c (posted ++ [EEdit no_guild]) None
        else Outcome c posted (Some ApiError)
    | Some g =>
        let '(translated_data, c', ces) :=
          Cache.get_today_horoscope_for_guild (cache_env e) g gemini_api_key c in
        let posted := posted ++ (ECache <$> ces) in
        if negb (truthy translated_data) then
          let '(edited, _) := next_api tape in
          if edited then Outcome c' (posted ++ [EEdit load_failed]) None
          else Outcome c' posted (Some ApiError)
        else
          let '(es, tape, failure) := post_ranking (date_str e) translated_data tape in
          match failure with
          | None => Outcome c' (posted ++ es) None
          | Some err =>
              let '(sent, _) := next_api tape in
              if sent then Outcome c' (posted ++ es ++ [ESendError err]) None
              else Outcome c' (posted ++ es) (Some ApiError)
          end
    end.

(** The call a task of the scheduler or [/ohaasa test] makes. *)
Definition run_dispatch (e : env) (d : Bot.dispatch) (c : Cache.cache) (tape : list bool)
  : outcome :=
  fetch_and_post_horoscope e (Bot.d_key d) (Bot.d_mention d) (Some (Bot.d_guild d)) c tape.

End WithStr.

(** The effects that conclude a call for its readers. *)
Definition concludes (e : effect) : bool :=
  match e with
  | EEdit _ | ESendDetails _ _ | ESendError _ => true
  | _ => false
  end.

End Publish.

(** ** The session: [on_ready] and the scheduler tasks it starts *)

Module Session.

(** What happens in the event loop: [on_ready] is called (with
    [client.guilds], and whether the command tree could be synchronised), the
    [loop]-th [scheduler_loop] task (in the order of creation) makes one pass,
    or a command of the group is handled. *)
Inductive event : Type :=
| Ready (sync_ok : bool) (guilds : list Z)
| LoopTick (loop : nat) (w : Bot.world)
| Command (w : Bot.world) (guild : option Z) (cmd : Bot.command).

Inductive effect : Type :=
| EStartLoop                             (* [create_task(scheduler_loop())] *)
| EPrewarm (guild : Z) (key : pyval)     (* [create_task(get_today_horoscope_for_guild(...))] *)
| EBot (e : Bot.effect).

(** The globals and, for every [scheduler_loop] task created so far, whether
    it is still running. *)
Record state : Type := State { globals : Bot.store; loops : list bool }.

(** Truth value of a settings dict. *)
Definition dict_truthy (c : Config.cfg) : bool :=
  match map_to_list c with
  | [] => false
  | _ => true
  end.

(** The loop over [client.guilds] at the end of [on_ready]. *)
Definition prewarm (gs : Config.settings) (guilds : list Z) : list effect :=
  omap (fun g =>
          match Config.lookup g gs with
          | Some c =>
              if dict_truthy c && truthy (Config.get c "gemini_api_key")
              then Some (EPrewarm g (Config.get c "gemini_api_key"))
              else None
          | None => None
          end) guilds.

(** [on_ready]: when the synchronisation raises, the [except] clause is
    reached before the scheduler task is created. *)
Definition on_ready (sync_ok : bool) (guilds : list Z) (s : state) : state * list effect :=
  (State (globals s) (if sync_ok then loops s ++ [true] else loops s),
   (if sync_ok then [EStartLoop] else [])
     ++ prewarm (Bot.guild_settings (globals s)) guilds).

Definition step (ev : event) (s : state) : state * list effect :=
  match ev with
  | Ready sync_ok guilds => on_ready sync_ok guilds s
  | LoopTick loop w =>
      let '(b, es) :=
        Bot.step (Bot.Event w Bot.Tick)
          (Bot.BotState (globals s) (default false (loops s !! loop))) in
      (State (Bot.globals b) (<[loop := Bot.scheduler_alive b]> (loops s)), EBot <$> es)
  | Command w guild cmd =>
      let '(b, es) :=
        Bot.step (Bot.Event w (Bot.Command guild cmd)) (Bot.BotState (globals s) true) in
      (State (Bot.globals b) (loops s), EBot <$> es)
  end.

Fixpoint run (evs : list event) (s : state) : state * list (event * list effect) :=
  match evs with
  | [] => (s, [])
  | ev :: rest =>
      let '(s', es) := step ev s in
      let '(s'', log) := run rest s' in
      (s'', (ev, es) :: log)
  end.

(** The calls of [on_ready] among [evs] that get as far as creating the
    scheduler task. *)
Definition started (evs : list event) : nat :=
  length (List.filter (fun ev => match ev with Ready true _ => true | _ => false end) evs).

(** The pass or command behind an event, and the log of a run read as a log
    of passes and commands. *)
Definition bot_event (ev : event) : option Bot.event :=
  match ev with
  | Ready _ _ => None
  | LoopTick _ w => Some (Bot.Event w Bot.Tick)
  | Command w guild cmd => Some (Bot.Event w (Bot.Command guild cmd))
  end.

Definition bot_effects (es : list effect) : list Bot.effect :=
  omap (fun e => match e with EBot e => Some e | _ => None end) es.

Definition bot_log (log : list (event * list effect)) : list (Bot.event * list Bot.effect) :=
  omap (fun entry => (fun ev => (ev, bot_effects (snd entry))) <$> bot_event (fst entry)) log.

End Session.

(** * Properties *)

(** ** The Python primitives on examples *)

Example int_of_str_plain : Py.int (PyStr "8") = Ok 8.
Proof. reflexivity. Qed.

Example int_of_str_padded : Py.int (PyStr " -1_000 ") = Ok (-1000).
Proof. reflexivity. Qed.

Example int_of_str_bad : Py.int (PyStr "8h") = Raise ValueError.
Proof. reflexivity. Qed.

Example int_of_none : Py.int PyNone = Raise TypeError.
Proof. reflexivity. Qed.

Example strip_example : Py.strip "  key 1 " = "key 1".
Proof. reflexivity. Qed.

(** White space beyond ASCII: an ideographic space (U+3000) in front, a
    no-break space (U+00A0) behind. *)
Example strip_unicode : Py.strip "　key 1 " = "key 1".
Proof. reflexivity. Qed.

Example int_of_str_unicode_space : Py.int (PyStr "　8 ") = Ok 8.
Proof. reflexivity. Qed.

(** The separators U+001C to U+001F are white space for [str.strip] and not
    for [int]. *)
Example strip_separator : Py.strip (String "028"%char "key") = "key".
Proof. reflexivity. Qed.

Example int_of_str_separator : Py.int (PyStr (String "028"%char "8")) = Raise ValueError.
Proof. reflexivity. Qed.

Example default_has_empty_key : Config.get Config.default_cfg "gemini_api_key" = PyStr EmptyString.
Proof. reflexivity. Qed.

(** ** [translate_text] *)

Section TranslateProps.

Import Translate.

Variables (ep : endpoint) (text : string) (key : pyval).

Lemma posts_retry_trace (a : Z) (k : nat) :
  posts (retry_trace text key a k) = S k.
Proof.
  revert a. induction k as [|k IH]; intros a; [reflexivity|].
  cbn [retry_trace]. unfold posts in *. cbn. now rewrite IH.
Qed.

Lemma sleeps_retry_trace (a : Z) (k : nat) :
  sleeps (retry_trace text key a k) = (fun i : nat => 1 + a + Z.of_nat i) <$> seq 0 k.
Proof.
  revert a. induction k as [|k IH]; intros a; [reflexivity|].
  cbn [retry_trace]. unfold sleeps in *. cbn [omap list_omap]. rewrite IH.
  cbn [seq fmap list_fmap]. f_equal; [lia|].
  rewrite <- seq_shift, <- list_fmap_compose.
  apply list_fmap_ext. intros _ i _. cbn. lia.
Qed.

(** One iteration of the loop. *)
Lemma attempts_step (n : Z) (fuel : nat) (a : Z) :
  attempts ep text key n a (S fuel) =
    if retryable (ep a) then
      let r := retry_or_fail n a (attempts ep text key n (a + 1) fuel) in
      (fst r, EPost a text key :: snd r)
    else (outcome_value (ep a), [EPost a text key]).
Proof.
  cbn [attempts]. unfold retryable, server_fault, transport_error, malformed_200, outcome_value.
  destruct (ep a) as [|status b]; cbn [orb].
  { now destruct (retry_or_fail _ _ _). }
  destruct (status =? 200) eqn:E200.
  - apply Z.eqb_eq in E200. subst status. cbn.
    destruct b; cbn; try reflexivity; now destruct (retry_or_fail _ _ _).
  - destruct ((500 <=? status) && (status <? 600)); cbn [orb].
    + now destruct (retry_or_fail _ _ _).
    + destruct b; cbn; try reflexivity. now destruct (retry_or_fail _ _ _).
Qed.

(** The loop, from any iteration on: it stops at the first outcome that is
    not retryable or at the last iteration, whichever comes first. *)
Lemma attempts_spec (n : Z) (fuel : nat) (a : Z) :
  a + Z.of_nat fuel = n -> (0 < fuel)%nat ->
  exists k : nat,
    (k < fuel)%nat /\
    snd (attempts ep text key n a fuel) = retry_trace text key a k /\
    (forall i : nat, (i < k)%nat -> retryable (ep (a + Z.of_nat i)) = true) /\
    (S k = fuel \/ retryable (ep (a + Z.of_nat k)) = false) /\
    fst (attempts ep text key n a fuel) = outcome_value (ep (a + Z.of_nat k)).
Proof.
  revert a. induction fuel as [|fuel IH]; intros a Hn Hpos; [lia|].
  rewrite attempts_step. destruct (retryable (ep a)) eqn:Hr.
  - cbn zeta. unfold retry_or_fail.
    destruct fuel as [|fuel'].
    + (* last iteration *)
      replace (a <? n - 1) with false by (symmetry; apply Z.ltb_ge; lia).
      exists O. cbn [fst snd retry_trace]. rewrite Z.add_0_r.
      repeat split; [lia|intros; lia|now left|].
      unfold retryable, server_fault, transport_error, malformed_200 in Hr.
      unfold outcome_value.
      destruct (ep a) as [|status [| |v]]; try reflexivity.
      destruct (status =? 200) eqn:E200; [|reflexivity].
      apply Z.eqb_eq in E200. subst. discriminate.
    + replace (a <? n - 1) with true by (symmetry; apply Z.ltb_lt; lia).
      destruct (IH (a + 1)) as (k & Hk & Hes & Hall & Hend & Hres); [lia|lia|].
      exists (S k). cbn [fst snd retry_trace]. rewrite Hes.
      repeat split.
      * lia.
      * intros [|i] Hi; [now rewrite Z.add_0_r|].
        replace (a + Z.of_nat (S i)) with (a + 1 + Z.of_nat i) by lia.
        apply Hall. lia.
      * replace (a + Z.of_nat (S k)) with (a + 1 + Z.of_nat k) by lia.
        destruct Hend; [left; lia|now right].
      * replace (a + Z.of_nat (S k)) with (a + 1 + Z.of_nat k) by lia. exact Hres.
  - exists O. cbn [fst snd retry_trace]. rewrite Z.add_0_r.
    repeat split; [lia|intros; lia|now right].
Qed.

End TranslateProps.

Lemma translate_text_spec (ep : Translate.endpoint) (text : string) (key : pyval) :
  truthy key = true ->
  exists k : nat,
    (k < 3)%nat /\
    snd (Translate.translate_text ep text key Translate.default_max_retries)
      = Translate.retry_trace text key 0 k /\
    (forall i : nat, (i < k)%nat -> Translate.retryable (ep (Z.of_nat i)) = true) /\
    (k = 2%nat \/ Translate.retryable (ep (Z.of_nat k)) = false) /\
    fst (Translate.translate_text ep text key Translate.default_max_retries)
      = Translate.outcome_value (ep (Z.of_nat k)).
Proof.
  intros Hkey. unfold Translate.translate_text. rewrite Hkey. cbn [negb].
  destruct (attempts_spec ep text key Translate.default_max_retries 3 0)
    as (k & Hk & Hes & Hall & Hend & Hres); [reflexivity|lia|].
  exists k. repeat split; try assumption.
  destruct Hend as [Hend|Hend]; [left; lia|now right].
Qed.

Lemma translate_text_no_key (ep : Translate.endpoint) (text : string) (key : pyval) (n : Z) :
  truthy key = false -> Translate.translate_text ep text key n = (PyNone, []).
Proof. intros H. unfold Translate.translate_text. now rewrite H. Qed.

(** The three ways a call with a credential can go: one, two or three
    requests. *)
Lemma translate_text_cases (ep : Translate.endpoint) (text : string) (key : pyval) :
  truthy key = true ->
  let r := Translate.translate_text ep text key Translate.default_max_retries in
  Translate.posts (snd r) = 1%nat /\ Translate.sleeps (snd r) = []
    /\ Translate.retryable (ep 0) = false /\ fst r = Translate.outcome_value (ep 0)
  \/ Translate.posts (snd r) = 2%nat /\ Translate.sleeps (snd r) = [1]
    /\ Translate.retryable (ep 0) = true /\ Translate.retryable (ep 1) = false
    /\ fst r = Translate.outcome_value (ep 1)
  \/ Translate.posts (snd r) = 3%nat /\ Translate.sleeps (snd r) = [1; 2]
    /\ Translate.retryable (ep 0) = true /\ Translate.retryable (ep 1) = true
    /\ fst r = Translate.outcome_value (ep 2).
Proof.
  intros Hkey r. subst r.
  destruct (translate_text_spec ep text key Hkey) as (k & Hk & Hes & Hall & Hend & Hres).
  rewrite Hes, Hres.
  destruct k as [|[|[|k]]]; [| | |lia].
  - left. destruct Hend as [|Hend]; [discriminate|]. now repeat split.
  - right; left. destruct Hend as [|Hend]; [discriminate|].
    repeat split; try assumption. apply (Hall 0%nat). lia.
  - right; right. repeat split.
    + apply (Hall 0%nat). lia.
    + apply (Hall 1%nat). lia.
Qed.

Example three_server_faults :
  Translate.translate_text
    (Translate.scripted [] (Translate.Response 503 Translate.BodyMalformed))
    "[]" (PyStr "key") Translate.default_max_retries
  = (PyNone, [Translate.EPost 0 "[]" (PyStr "key"); Translate.ESleep 1;
              Translate.EPost 1 "[]" (PyStr "key"); Translate.ESleep 2;
              Translate.EPost 2 "[]" (PyStr "key")]).
Proof. reflexivity. Qed.

Example client_fault_is_final :
  Translate.translate_text
    (Translate.scripted [Translate.Response 403 Translate.BodyMalformed]
       (Translate.Response 200 (Translate.BodyJson (PyList [PyStr "x"]))))
    "[]" (PyStr "key") Translate.default_max_retries
  = (PyNone, [Translate.EPost 0 "[]" (PyStr "key")]).
Proof. reflexivity. Qed.

(** C5, as stated, fails: the claim lets the call retry only after a 5xx
    status or a transport-level exception, but the [except Exception] clause
    also catches what decoding a 200 answer raises.  Here the first answer
    has status 200 and a body that is read but is not the expected JSON:
    the call waits one second and sends a second request, which succeeds. *)
Lemma translate_text_retries_malformed_200 :
  let items := PyList [PyDict [("rank", PyStr "1"); ("sign_ko", PyStr "a");
                               ("description_ko", PyStr "b")]] in
  let ep := Translate.scripted
              [Translate.Response 200 Translate.BodyMalformed;
               Translate.Response 200 (Translate.BodyJson items)]
              Translate.PostRaised in
  Translate.server_fault (ep 0) = false /\
  Translate.transport_error (ep 0) = false /\
  Translate.translate_text ep "[]" (PyStr "key") Translate.default_max_retries
    = (items, [Translate.EPost 0 "[]" (PyStr "key"); Translate.ESleep 1;
               Translate.EPost 1 "[]" (PyStr "key")]).
Proof. repeat split. Qed.

(** C5 (amended): with a credential, [translate_text] sends at most 3
    requests; it goes on to another request only after a 5xx status or an
    exception raised inside the attempt (a transport failure, or a 200
    answer whose body is not the expected JSON), and only while fewer than 3
    requests were sent; it waits 1s before the second request and 2s before
    the third; it returns the decoded body of a 200 answer and [None] in
    every other case.  In particular: a 5xx answer followed by a decodable
    200 gives that body after exactly 2 requests; three 5xx answers give
    [None] after exactly 3 requests; any other non-200 status whose body
    can be read gives [None] after that single request. *)
Theorem translate_text_retry_policy
    (ep : Translate.endpoint) (text : string) (key : pyval) :
  truthy key = true ->
  let r := Translate.translate_text ep text key Translate.default_max_retries in
  (exists k : nat,
     (k < 3)%nat /\
     snd r = Translate.retry_trace text key 0 k /\
     Translate.posts (snd r) = S k /\
     Translate.sleeps (snd r) = take k [1; 2] /\
     (forall i : nat, (i < k)%nat -> Translate.retryable (ep (Z.of_nat i)) = true) /\
     (k = 2%nat \/ Translate.retryable (ep (Z.of_nat k)) = false) /\
     fst r = Translate.outcome_value (ep (Z.of_nat k))) /\
  (forall v, Translate.server_fault (ep 0) = true ->
             ep 1 = Translate.Response 200 (Translate.BodyJson v) ->
             fst r = v /\ Translate.posts (snd r) = 2%nat /\ Translate.sleeps (snd r) = [1]) /\
  (Translate.server_fault (ep 0) = true -> Translate.server_fault (ep 1) = true ->
   Translate.server_fault (ep 2) = true ->
   fst r = PyNone /\ Translate.posts (snd r) = 3%nat /\ Translate.sleeps (snd r) = [1; 2]) /\
  (forall status b,
     ep 0 = Translate.Response status b -> status <> 200 ->
     Translate.server_fault (ep 0) = false -> b <> Translate.BodyUnreadable ->
     fst r = PyNone /\ Translate.posts (snd r) = 1%nat /\ Translate.sleeps (snd r) = []).
Proof.
  intros Hkey r.
  pose proof (translate_text_cases ep text key Hkey) as Hcases. fold r in Hcases.
  split; [|split; [|split]].
  - destruct (translate_text_spec ep text key Hkey) as (k & Hk & Hes & Hall & Hend & Hres).
    fold r in Hes, Hres. exists k. rewrite Hes.
    repeat split; try assumption.
    + apply posts_retry_trace.
    + rewrite sleeps_retry_trace. destruct k as [|[|[|k]]]; [reflexivity..|lia].
  - intros v H0 H1.
    assert (R0 : Translate.retryable (ep 0) = true)
      by (unfold Translate.retryable; now rewrite H0).
    assert (R1 : Translate.retryable (ep 1) = false) by now rewrite H1.
    destruct Hcases as [(_ & _ & C & _)|[(P & S & _ & _ & V)|(_ & _ & _ & C & _)]];
      [congruence| |congruence].
    rewrite V, H1. now repeat split.
  - intros H0 H1 H2.
    assert (R0 : Translate.retryable (ep 0) = true)
      by (unfold Translate.retryable; now rewrite H0).
    assert (R1 : Translate.retryable (ep 1) = true)
      by (unfold Translate.retryable; now rewrite H1).
    destruct Hcases as [(_ & _ & C & _)|[(_ & _ & _ & C & _)|(P & S & _ & _ & V)]];
      [congruence..|].
    repeat split; try assumption. rewrite V.
    unfold Translate.server_fault in H2. unfold Translate.outcome_value.
    destruct (ep 2) as [|status [| |v]]; try reflexivity.
    destruct (status =? 200) eqn:E; [|reflexivity].
    apply Z.eqb_eq in E. subst. discriminate.
  - intros status b H0 Hne Hsf Hb.
    assert (R0 : Translate.retryable (ep 0) = false).
    { unfold Translate.retryable. rewrite Hsf, H0. cbn.
      apply Z.eqb_neq in Hne. destruct b; [contradiction|assumption|reflexivity]. }
    destruct Hcases as [(P & S & _ & V)|[(_ & _ & C & _)|(_ & _ & C & _)]];
      [|congruence..].
    repeat split; try assumption. rewrite V, H0. cbn.
    apply Z.eqb_neq in Hne. rewrite Hne. now destruct b.
Qed.

Lemma translate_text_retry_policy_witness :
  let ep := Translate.scripted
              [Translate.Response 500 Translate.BodyMalformed;
               Translate.Response 200 (Translate.BodyJson (PyList [PyStr "x"]))]
              Translate.PostRaised in
  truthy (PyStr "key") = true /\
  fst (Translate.translate_text ep "[]" (PyStr "key") Translate.default_max_retries)
    = PyList [PyStr "x"] /\
  Translate.posts (snd (Translate.translate_text ep "[]" (PyStr "key")
                          Translate.default_max_retries)) = 2%nat.
Proof.
  intros ep.
  pose proof (translate_text_retry_policy ep "[]" (PyStr "key") eq_refl) as H.
  destruct H as (_ & H & _).
  destruct (H (PyList [PyStr "x"]) eq_refl eq_refl) as (Hv & Hp & _).
  split; [reflexivity|]. split; [exact Hv|exact Hp].
Defined.

(** ** [get_today_horoscope_for_guild] *)

Section CacheProps.

Import Cache.

Lemma cache_hit_truthy (c : cache) (g : Z) (day : string) (d : pyval) :
  cache_hit c g day = Some d -> truthy d = true.
Proof.
  unfold cache_hit. destruct (c !! g) as [e|]; [|discriminate].
  destruct (String.eqb (date e) day && truthy (data e)) eqn:E; [|discriminate].
  intros [= <-]. now apply andb_true_iff in E.
Qed.

Lemma truthy_not_none (v : pyval) : truthy v = true -> v <> PyNone.
Proof. now destruct v. Qed.

Lemma truthy_not_empty_list (v : pyval) : truthy v = true -> v <> PyList [].
Proof. now destruct v as [| | | |[|]|]. Qed.

Lemma cache_hit_insert (c : cache) (g : Z) (day : string) (v : pyval) :
  truthy v = true -> cache_hit (<[g := CacheEntry day v]> c) g day = Some v.
Proof.
  intros Hv. unfold cache_hit. rewrite lookup_insert_eq. cbn.
  now rewrite String.eqb_refl, Hv.
Qed.

Lemma cache_hit_insert_ne (c : cache) (g g' : Z) (day : string) (e : cache_entry) :
  g' <> g -> cache_hit (<[g' := e]> c) g day = cache_hit c g day.
Proof. intros Hne. unfold cache_hit. now rewrite lookup_insert_ne. Qed.

(** What the slow path from the translation on can do: fail and leave the
    cache alone, or return a non-empty value and store exactly it. *)
Lemma translate_and_store_cases (env : call_env) (g : Z) (key : pyval)
    (json : string) (c : cache) :
  let '(r, c', _) := translate_and_store env g key json c in
  (r = PyNone /\ c' = c) \/
  (truthy r = true /\ c' = <[g := CacheEntry (today env) r]> c).
Proof.
  unfold translate_and_store.
  destruct (Translate.translate_text _ _ _ _) as [v tes].
  destruct (truthy v) eqn:Hv; cbn [negb]; [right|left]; now split.
Qed.

Lemma pipeline_cases (env : call_env) (g : Z) (key : pyval) (c : cache) :
  let '(r, c', es) := pipeline env g key c in
  ((r = PyNone /\ c' = c) \/
   (truthy r = true /\ c' = <[g := CacheEntry (today env) r]> c)) /\
  exists es', es = EFetch :: es'.
Proof.
  unfold pipeline. destruct (usable (fetched env)) as [json|].
  - pose proof (translate_and_store_cases env g key json c) as H.
    destruct (translate_and_store env g key json c) as [[r c'] es].
    split; [exact H|eauto].
  - split; [now left|eauto].
Qed.

End CacheProps.

(** C6: when a call for a guild on a day returns a payload, the next call
    for the same guild on the same day returns the same payload from the
    cache, leaves the cache as it is and performs neither a fetch nor a
    translation request, whatever the source and the endpoint would answer. *)
Theorem second_call_served_from_cache
    (env1 env2 : Cache.call_env) (guild_id : Z) (key1 key2 : pyval) (c : Cache.cache) :
  Cache.today env2 = Cache.today env1 ->
  fst (fst (Cache.get_today_horoscope_for_guild env1 guild_id key1 c)) <> PyNone ->
  let '(r1, c1, _) := Cache.get_today_horoscope_for_guild env1 guild_id key1 c in
  Cache.get_today_horoscope_for_guild env2 guild_id key2 c1 = (r1, c1, []).
Proof.
  intros Hday. unfold Cache.get_today_horoscope_for_guild at 1 2.
  destruct (Cache.cache_hit c guild_id (Cache.today env1)) as [d|] eqn:Hhit.
  - intros _. unfold Cache.get_today_horoscope_for_guild. now rewrite Hday, Hhit.
  - pose proof (pipeline_cases env1 guild_id key1 c) as H.
    destruct (Cache.pipeline env1 guild_id key1 c) as [[r1 c1] es]. cbn [fst].
    destruct H as [[[-> _]|[Hr ->]] _]; [congruence|]. intros _.
    unfold Cache.get_today_horoscope_for_guild.
    now rewrite Hday, cache_hit_insert.
Qed.

Lemma second_call_served_from_cache_witness :
  let items := PyList [PyStr "x"] in
  let env1 := Cache.CallEnv "20250101" (Some "[1]")
                (Translate.scripted [Translate.Response 200 (Translate.BodyJson items)] Translate.PostRaised) in
  let env2 := Cache.CallEnv "20250101" None (Translate.scripted [] Translate.PostRaised) in
  fst (fst (Cache.get_today_horoscope_for_guild env1 7 (PyStr "k") ∅)) = items /\
  let '(r1, c1, _) := Cache.get_today_horoscope_for_guild env1 7 (PyStr "k") ∅ in
  Cache.get_today_horoscope_for_guild env2 7 (PyStr EmptyString) c1 = (r1, c1, []).
Proof.
  intros items env1 env2. split; [reflexivity|].
  apply (second_call_served_from_cache env1 env2 7 (PyStr "k") (PyStr EmptyString) ∅);
    [reflexivity|discriminate].
Defined.

Lemma failed_call_unchanged
    (env env' : Cache.call_env) (guild_id : Z) (key key' : pyval) (c : Cache.cache) :
  Cache.today env' = Cache.today env ->
  fst (fst (Cache.get_today_horoscope_for_guild env guild_id key c)) = PyNone ->
  snd (fst (Cache.get_today_horoscope_for_guild env guild_id key c)) = c /\
  Cache.get_today_horoscope_for_guild env' guild_id key' c
    = Cache.pipeline env' guild_id key' c /\
  exists es, snd (Cache.get_today_horoscope_for_guild env' guild_id key' c)
             = Cache.EFetch :: es.
Proof.
  intros Hday. unfold Cache.get_today_horoscope_for_guild. rewrite Hday.
  destruct (Cache.cache_hit c guild_id (Cache.today env)) as [d|] eqn:Hhit.
  - cbn [fst]. intros ->. apply cache_hit_truthy in Hhit. discriminate.
  - pose proof (pipeline_cases env guild_id key c) as H.
    pose proof (pipeline_cases env' guild_id key' c) as H'.
    destruct (Cache.pipeline env guild_id key c) as [[r c1] es].
    destruct (Cache.pipeline env' guild_id key' c) as [[r' c1'] es'].
    cbn [fst snd]. intros ->.
    destruct H as [[[_ ->]|[Hr _]] _]; [|discriminate].
    destruct H' as [_ Hes]. now repeat split.
Qed.

Lemma pipeline_fails_none (env : Cache.call_env) (guild_id : Z) (key : pyval) (c : Cache.cache) :
  Cache.pipeline_fails env key = true ->
  fst (fst (Cache.pipeline env guild_id key c)) = PyNone.
Proof.
  unfold Cache.pipeline_fails, Cache.pipeline, Cache.translate_and_store.
  destruct (Cache.usable (Cache.fetched env)) as [json|]; [|reflexivity].
  destruct (Translate.translate_text _ _ _ _) as [v tes]. cbn [fst].
  now intros ->.
Qed.

(** C7: when a call misses the cache and its pipeline fails (the fetch gave
    nothing usable, or the translation returned a failure), the call returns
    [None] and leaves the cache exactly as it was; the next call for the same
    guild on the same day, started from that cache, runs the whole pipeline
    again, beginning with a fetch. *)
Theorem failed_call_caches_nothing
    (env env' : Cache.call_env) (guild_id : Z) (key key' : pyval) (c : Cache.cache) :
  Cache.today env' = Cache.today env ->
  Cache.cache_hit c guild_id (Cache.today env) = None ->
  Cache.pipeline_fails env key = true ->
  fst (fst (Cache.get_today_horoscope_for_guild env guild_id key c)) = PyNone /\
  snd (fst (Cache.get_today_horoscope_for_guild env guild_id key c)) = c /\
  Cache.get_today_horoscope_for_guild env' guild_id key' c
    = Cache.pipeline env' guild_id key' c /\
  exists es, snd (Cache.get_today_horoscope_for_guild env' guild_id key' c)
             = Cache.EFetch :: es.
Proof.
  intros Hday Hmiss Hfail.
  assert (Hnone : fst (fst (Cache.get_today_horoscope_for_guild env guild_id key c)) = PyNone).
  { unfold Cache.get_today_horoscope_for_guild. rewrite Hmiss.
    now apply pipeline_fails_none. }
  split; [exact Hnone|].
  exact (failed_call_unchanged env env' guild_id key key' c Hday Hnone).
Qed.

Lemma failed_call_caches_nothing_witness :
  let env := Cache.CallEnv "20250101" (Some "[1]")
               (Translate.scripted [Translate.Response 403 Translate.BodyMalformed] Translate.PostRaised) in
  let c : Cache.cache := <[7 := Cache.CacheEntry "20241231" (PyList [PyStr "old"])]> ∅ in
  Cache.cache_hit c 7 "20250101" = None /\
  Cache.pipeline_fails env (PyStr "k") = true /\
  snd (fst (Cache.get_today_horoscope_for_guild env 7 (PyStr "k") c)) = c.
Proof.
  intros env c. split; [reflexivity|]. split; [reflexivity|].
  apply (failed_call_caches_nothing env env 7 (PyStr "k") (PyStr "k") c);
    reflexivity.
Defined.

(** C10: the lookup returns [None] or a value that is not empty (so never
    an empty list), and a cache entry whose payload is empty is a miss even
    when it is stamped with today's date: the call runs the pipeline. *)
Theorem lookup_never_serves_empty
    (env : Cache.call_env) (guild_id : Z) (key : pyval) (c : Cache.cache) :
  let r := fst (fst (Cache.get_today_horoscope_for_guild env guild_id key c)) in
  (r = PyNone \/ (truthy r = true /\ r <> PyList [])) /\
  (forall e, c !! guild_id = Some e -> truthy (Cache.data e) = false ->
     Cache.get_today_horoscope_for_guild env guild_id key c
       = Cache.pipeline env guild_id key c).
Proof.
  cbn zeta. split.
  - unfold Cache.get_today_horoscope_for_guild.
    destruct (Cache.cache_hit c guild_id (Cache.today env)) as [d|] eqn:Hhit.
    + right. apply cache_hit_truthy in Hhit. cbn [fst].
      split; [assumption|now apply truthy_not_empty_list].
    + pose proof (pipeline_cases env guild_id key c) as H.
      destruct (Cache.pipeline env guild_id key c) as [[r c1] es]. cbn [fst].
      destruct H as [[[-> _]|[Hr _]] _]; [now left|right].
      split; [assumption|now apply truthy_not_empty_list].
  - intros e He Hempty. unfold Cache.get_today_horoscope_for_guild, Cache.cache_hit.
    now rewrite He, Hempty, andb_false_r.
Qed.

Lemma lookup_never_serves_empty_witness :
  let env := Cache.CallEnv "20250101" None (Translate.scripted [] Translate.PostRaised) in
  let e := Cache.CacheEntry "20250101" (PyList []) in
  let c : Cache.cache := <[7 := e]> ∅ in
  c !! 7 = Some e /\ truthy (Cache.data e) = false /\
  Cache.get_today_horoscope_for_guild env 7 (PyStr "k") c = Cache.pipeline env 7 (PyStr "k") c.
Proof.
  intros env e c. split; [reflexivity|]. split; [reflexivity|].
  apply (proj2 (lookup_never_serves_empty env 7 (PyStr "k") c) e); reflexivity.
Defined.

(** *** Calls that overlap *)

(** A call resumed three times in a row, with no other task in between, is
    the function run as a whole. *)
Lemma run_alone (env : Cache.call_env) (g : Z) (key : pyval) (c : Cache.cache) :
  let s := Cache.run_schedule [0; 0; 0]%nat
             (Cache.System c [Cache.Call env g key Cache.Start] []) in
  exists r, Cache.calls s = [Cache.Call env g key (Cache.Done r)] /\
            (r, Cache.shared s, Cache.trace_of 0 (Cache.log s))
              = Cache.get_today_horoscope_for_guild env g key c.
Proof.
  cbn zeta. unfold Cache.run_schedule, Cache.get_today_horoscope_for_guild, Cache.pipeline.
  cbn [foldl]. unfold Cache.resume at 3. cbn. unfold Cache.at_. cbn.
  destruct (Cache.cache_hit c g (Cache.today env)) as [d|]; cbn.
  { eexists; split; reflexivity. }
  destruct (Cache.usable (Cache.fetched env)) as [json|]; cbn.
  2: { eexists; split; reflexivity. }
  unfold Cache.at_. cbn.
  destruct (Cache.translate_and_store env g key json c) as [[r c'] es]. cbn.
  eexists; split; [reflexivity|]. f_equal.
  change (Cache.EFetch :: Cache.trace_of 0 ((fun e => (0%nat, e)) <$> es) = Cache.EFetch :: es).
  f_equal. clear. induction es as [|e es IH]; [reflexivity|].
  unfold Cache.trace_of in *. cbn. now rewrite IH.
Qed.


Section Overlap.

Import Cache.

(** The guild and the day in question. *)
Variables (T : Z) (D : string).

Local Abbreviation same_day_for_guild := (Cache.same_day_for_guild T D).
Local Abbreviation entry_fresh := (Cache.entry_fresh T D).
Local Abbreviation served := (Cache.served T D).

Lemma step_call_same (k : call) (c : cache) :
  guild_id (fst (fst (step_call k c))) = guild_id k /\
  env (fst (fst (step_call k c))) = env k.
Proof.
  unfold step_call.
  destruct (at_pc k) as [| |json|r]; cbn.
  - now destruct (cache_hit _ _ _).
  - now destruct (usable _).
  - now destruct (translate_and_store _ _ _ _ _) as [[? ?] ?].
  - easy.
Qed.

Lemma step_call_fresh (k : call) (c : cache) :
  same_day_for_guild k -> is_Some (cache_hit c T D) ->
  is_Some (cache_hit (snd (fst (step_call k c))) T D).
Proof.
  intros Hk Hc. unfold step_call.
  destruct (at_pc k) as [| |json|r]; cbn.
  - now destruct (cache_hit c (guild_id k) _).
  - now destruct (usable _).
  - pose proof (translate_and_store_cases (env k) (guild_id k) (gemini_api_key k) json c) as H.
    destruct (translate_and_store _ _ _ _ _) as [[r c'] es]. cbn.
    destruct H as [[_ ->]|[Hr ->]]; [assumption|].
    destruct (decide (guild_id k = T)) as [Heq|Hne].
    + destruct Hk as [Hk|Hk]; [contradiction|].
      rewrite Heq, Hk, cache_hit_insert by assumption. eauto.
    + now rewrite cache_hit_insert_ne.
  - assumption.
Qed.

Lemma resume_fresh (j : nat) (s : system) :
  entry_fresh s -> entry_fresh (resume j s).
Proof.
  intros [Hc Hall]. unfold resume.
  destruct (calls s !! j) as [k|] eqn:Hj; [|now split].
  assert (Hk : same_day_for_guild k).
  { rewrite Forall_lookup in Hall. exact (Hall j k Hj). }
  pose proof (step_call_fresh k (shared s) Hk Hc) as Hf.
  pose proof (step_call_same k (shared s)) as [Hg He].
  destruct (step_call k (shared s)) as [[k' c'] es]. cbn in *.
  split; [assumption|].
  apply Forall_insert; [assumption|].
  unfold same_day_for_guild in *. now rewrite Hg, He.
Qed.

Lemma trace_of_app (i : nat) (l1 l2 : list (nat * effect)) :
  trace_of i (l1 ++ l2) = trace_of i l1 ++ trace_of i l2.
Proof. apply omap_app. Qed.

Lemma trace_of_other (i j : nat) (es : list effect) :
  i <> j -> trace_of i ((fun e => (j, e)) <$> es) = [].
Proof.
  intros Hne. unfold trace_of. induction es as [|e es IH]; [reflexivity|].
  cbn. destruct (Nat.eqb_spec j i); [congruence|assumption].
Qed.

Lemma trace_of_own (i : nat) (es : list effect) :
  trace_of i ((fun e => (i, e)) <$> es) = es.
Proof.
  unfold trace_of. induction es as [|e es IH]; [reflexivity|].
  cbn. rewrite Nat.eqb_refl. cbn. now rewrite IH.
Qed.

Lemma resume_served (i j : nat) (n : list effect) (s : system) :
  entry_fresh s -> served i n s -> served i n (resume j s).
Proof.
  intros [Hc _] (k & Hi & Hg & Hd & Hpc & Hn). unfold resume.
  destruct (calls s !! j) as [kj|] eqn:Hj; [|exists k; now repeat split].
  destruct (decide (j = i)) as [->|Hne].
  - assert (kj = k) by congruence. subst kj.
    assert (Hlen : (i < length (calls s))%nat) by (eapply lookup_lt_Some; eassumption).
    unfold step_call. destruct Hpc as [Hpc|(d & Hpc & Hd')]; rewrite Hpc.
    + rewrite Hg, Hd. destruct Hc as [d Hhit]. rewrite Hhit. cbn.
      exists (at_ k (Done d)). cbn [calls log].
      rewrite list_lookup_insert_eq by assumption.
      repeat split; try assumption.
      * right. exists d. split; [reflexivity|]. eapply cache_hit_truthy; eassumption.
      * now rewrite app_nil_r.
    + exists k. cbn [calls log fmap list_fmap].
      rewrite list_lookup_insert_eq by assumption.
      repeat split; try assumption.
      * right. eauto.
      * now rewrite app_nil_r.
  - destruct (step_call kj (shared s)) as [[k' c'] es].
    exists k. cbn [calls log]. rewrite list_lookup_insert_ne by assumption.
    repeat split; try assumption.
    rewrite trace_of_app, trace_of_other by congruence. now rewrite app_nil_r.
Qed.

Lemma run_schedule_served (sched : list nat) (i : nat) (n : list effect) (s : system) :
  entry_fresh s -> served i n s -> served i n (run_schedule sched s).
Proof.
  revert s. induction sched as [|j sched IH]; intros s Hf Hs; [assumption|].
  cbn. apply IH; [now apply resume_fresh|now apply resume_served].
Qed.

End Overlap.



(** ** [scheduler_loop] *)

Section SchedulerProps.

Import Config Bot.

Variable w : world.

Lemma evaluate_fire (g : Z) (c : cfg) (d : dispatch) :
  evaluate w g c = Ok (Fire d) ->
  d_guild d = g /\
  d_key d = get c "gemini_api_key" /\
  is_none (get c "channel_id") = false /\
  is_none (get c "gemini_api_key") = false /\
  eq_str (get c "last_post_date") (today_str (now w)) = false /\
  Py.int (get c "post_hour") = Ok (now_hour (now w)) /\
  Py.int (get c "post_minute") = Ok (now_minute (now w)).
Proof.
  unfold evaluate, Py.bind. intros H.
  destruct (is_none (get c "channel_id")) eqn:E1; [discriminate|].
  destruct (is_none (get c "gemini_api_key")) eqn:E2; [discriminate|].
  cbn [orb] in H.
  destruct (eq_str (get c "last_post_date") (today_str (now w))) eqn:E3; [discriminate|].
  destruct (Py.int (get c "post_hour")) as [h|]; [|discriminate].
  destruct (now_hour (now w) =? h) eqn:E4; [|discriminate]. cbn [negb] in H.
  destruct (Py.int (get c "post_minute")) as [m|]; [|discriminate].
  destruct (now_minute (now w) =? m) eqn:E5; [|discriminate]. cbn [negb] in H.
  destruct (Py.int (get c "channel_id")) as [ch|]; [|discriminate].
  destruct (get_channel w ch) as [chan|]; [|discriminate].
  destruct (mention_text c) as [mt|]; [|discriminate].
  injection H as <-. cbn.
  apply Z.eqb_eq in E4, E5. subst. now repeat split.
Qed.

(** The first two tests of the loop body. *)
Lemma evaluate_skips_none (g : Z) (c : cfg) :
  is_none (get c "channel_id") = true \/ is_none (get c "gemini_api_key") = true ->
  evaluate w g c = Ok Skip.
Proof.
  intros H. unfold evaluate.
  destruct H as [-> | ->]; [reflexivity|now rewrite orb_true_r].
Qed.

Lemma evaluate_skips_marked (g : Z) (c : cfg) :
  eq_str (get c "last_post_date") (today_str (now w)) = true ->
  evaluate w g c = Ok Skip.
Proof.
  intros H. unfold evaluate. rewrite H. now destruct (_ || _).
Qed.

Lemma for_guilds_spec (todo done : settings) (f : file_state) (tape : list io_outcome) :
  let r := for_guilds w done todo f tape in
  guild_settings (after r) = done ++ advance w todo /\
  io_tape (after r) = drop (length (fired w todo)) tape /\
  created (effects r) = fired w todo /\
  raised r = first_raise w todo /\
  spawn_mark_save (today_str (now w)) (effects r) = true.
Proof.
  revert done f tape. induction todo as [|[g c] rest IH]; intros done f tape.
  { cbn. rewrite app_nil_r. now rewrite drop_0. }
  cbn [for_guilds advance fired first_raise].
  destruct (evaluate w g c) as [[| |d]|e] eqn:Hev.
  - specialize (IH (done ++ [(g, c)]) f tape). cbn zeta in IH.
    rewrite <- app_assoc in IH. exact IH.
  - specialize (IH (done ++ [(g, c)]) f tape). cbn zeta in IH.
    rewrite <- app_assoc in IH. destruct IH as (H1 & H2 & H3 & H4 & H5).
    unfold emit. cbn [after effects raised app spawn_mark_save].
    unfold created in *. cbn [omap list_omap]. now repeat split.
  - destruct (next_io tape) as [io tape'] eqn:Hio.
    specialize (IH (done ++ [(g, mark (today_str (now w)) c)])
                  (fst (save_guild_config
                          (done ++ (g, mark (today_str (now w)) c) :: rest) io f)) tape').
    cbn zeta in IH. rewrite <- app_assoc in IH.
    destruct IH as (H1 & H2 & H3 & H4 & H5).
    fold (mark (today_str (now w)) c). unfold emit.
    cbn [after effects raised app length drop].
    repeat split; try assumption.
    + rewrite H2. unfold next_io in Hio.
      destruct tape as [|io0 tape0]; injection Hio as <- <-; [|reflexivity].
      now rewrite !drop_nil.
    + unfold created in *. cbn [omap list_omap]. now rewrite H3.
    + cbn [spawn_mark_save]. apply evaluate_fire in Hev as [-> _].
      now rewrite Z.eqb_refl, String.eqb_refl, H5.
  - cbn. now repeat split.
Qed.

Lemma scheduler_tick_spec (s : store) :
  let r := scheduler_tick w s in
  guild_settings (after r) = advance w (guild_settings s) /\
  created (effects r) = fired w (guild_settings s) /\
  raised r = first_raise w (guild_settings s) /\
  exists es, spawn_mark_save (today_str (now w)) es = true /\
             effects r = es ++ match raised r with Some _ => [] | None => [ESleep 30] end.
Proof.
  cbn zeta. unfold scheduler_tick.
  pose proof (for_guilds_spec (guild_settings s) [] (config_file s) (io_tape s))
    as (H1 & _ & H3 & H4 & H5). cbn zeta in *.
  destruct (raised (for_guilds w [] (guild_settings s) (config_file s) (io_tape s)))
    as [e|] eqn:Hr.
  - rewrite Hr. repeat split; try assumption.
    eexists. split; [exact H5|]. now rewrite app_nil_r.
  - cbn [after effects raised]. repeat split; try assumption.
    + unfold created in *. now rewrite omap_app, H3, app_nil_r.
    + eexists. split; [exact H5|reflexivity].
Qed.

(** *** The pass, guild by guild *)

Lemma keys_advance (gs : settings) : keys (advance w gs) = keys gs.
Proof.
  induction gs as [|[g c] rest IH]; [reflexivity|].
  unfold keys in *. cbn [advance].
  destruct (evaluate w g c) as [[| |d]|e]; cbn; now rewrite ?IH.
Qed.

Lemma lookup_absent (g : Z) (gs : settings) : g ∉ keys gs -> lookup g gs = None.
Proof.
  induction gs as [|[g0 c0] rest IH]; [reflexivity|].
  cbn. intros Hn. apply not_elem_of_cons in Hn as [Hne Hn].
  destruct (Z.eqb_spec g0 g); [congruence|auto].
Qed.

Lemma tasks_for_created (guild : Z) (es : list effect) :
  tasks_for guild es = count_for guild (created es).
Proof.
  unfold tasks_for, count_for, created.
  induction es as [|e es IH]; [reflexivity|].
  destruct e; cbn; try assumption.
  destruct (d_guild d =? guild); cbn; now rewrite IH.
Qed.

Lemma fired_absent (guild : Z) (gs : settings) :
  guild ∉ keys gs -> count_for guild (fired w gs) = 0%nat.
Proof.
  induction gs as [|[g c] rest IH]; [reflexivity|].
  cbn [keys fmap list_fmap fst]. intros Hn. apply not_elem_of_cons in Hn as [Hne Hn].
  cbn [fired]. destruct (evaluate w g c) as [[| |d]|e] eqn:Hev; auto.
  apply evaluate_fire in Hev as [Hg _]. unfold count_for in *. cbn.
  rewrite Hg. destruct (Z.eqb_spec g guild); [congruence|]. now apply IH.
Qed.

Lemma get_mark (day : string) (c : cfg) :
  eq_str (get (mark day c) "last_post_date") day = true.
Proof.
  unfold get, mark. rewrite lookup_insert_eq. cbn. apply String.eqb_refl.
Qed.

Lemma marked_cons_ne (T g : Z) (day : string) (c : cfg) (gs : settings) :
  g <> T -> marked T day ((g, c) :: gs) <-> marked T day gs.
Proof.
  intros Hne. unfold marked. cbn [lookup].
  destruct (Z.eqb_spec g T); [contradiction|reflexivity].
Qed.

Lemma fired_once (T : Z) (gs : settings) :
  NoDup (keys gs) -> (count_for T (fired w gs) <= 1)%nat.
Proof.
  induction gs as [|[g c] rest IH]; [cbn; lia|].
  unfold keys. cbn [fmap list_fmap fst]. intros Hnd.
  apply NoDup_cons in Hnd as [Hn Hnd]. specialize (IH Hnd).
  cbn [fired]. destruct (evaluate w g c) as [[| |d]|e] eqn:Hev; try assumption; [|cbn; lia].
  apply evaluate_fire in Hev as [Hg _]. unfold count_for in *. cbn. rewrite Hg.
  destruct (Z.eqb_spec g T) as [->|Hne]; [|assumption].
  pose proof (fired_absent T rest Hn) as H0. unfold count_for in H0. cbn. lia.
Qed.

Lemma fired_marks (T : Z) (gs : settings) :
  NoDup (keys gs) ->
  count_for T (fired w gs) <> 0%nat -> marked T (today_str (now w)) (advance w gs).
Proof.
  induction gs as [|[g c] rest IH]; [cbn; congruence|].
  unfold keys. cbn [fmap list_fmap fst]. intros Hnd.
  apply NoDup_cons in Hnd as [Hn Hnd]. specialize (IH Hnd).
  cbn [fired advance]. intros H.
  destruct (Z.eq_dec g T) as [->|Hne].
  - destruct (evaluate w T c) as [[| |d]|e] eqn:Hev.
    1,2: now rewrite (fired_absent T rest Hn) in H.
    2: now cbn in H.
    exists (mark (today_str (now w)) c). cbn [lookup]. rewrite Z.eqb_refl.
    split; [reflexivity|apply get_mark].
  - destruct (evaluate w g c) as [[| |d]|e] eqn:Hev.
    1,2: apply marked_cons_ne; auto.
    2: now cbn in H.
    apply marked_cons_ne; [assumption|]. apply IH.
    apply evaluate_fire in Hev as [Hg _]. unfold count_for in *. cbn in H.
    rewrite Hg in H. destruct (Z.eqb_spec g T); [contradiction|assumption].
Qed.

Lemma marked_stays (T : Z) (gs : settings) :
  NoDup (keys gs) ->
  marked T (today_str (now w)) gs ->
  count_for T (fired w gs) = 0%nat /\ marked T (today_str (now w)) (advance w gs).
Proof.
  induction gs as [|[g c] rest IH].
  { intros _ (c & Hc & _). discriminate. }
  unfold keys. cbn [fmap list_fmap fst]. intros Hnd Hm.
  apply NoDup_cons in Hnd as [Hn Hnd]. specialize (IH Hnd).
  cbn [fired advance].
  destruct (Z.eq_dec g T) as [->|Hne].
  - destruct Hm as (c0 & Hc0 & Hmark). cbn [lookup] in Hc0.
    rewrite Z.eqb_refl in Hc0. injection Hc0 as <-.
    rewrite (evaluate_skips_marked T c Hmark).
    split; [now apply fired_absent|].
    exists c. cbn [lookup]. now rewrite Z.eqb_refl.
  - pose proof Hm as Hm'. apply marked_cons_ne in Hm'; [|assumption].
    destruct (IH Hm') as [H0 Hadv].
    destruct (evaluate w g c) as [[| |d]|e] eqn:Hev.
    1,2: split; [assumption|now apply marked_cons_ne].
    2: split; [reflexivity|assumption].
    split; [|now apply marked_cons_ne].
    apply evaluate_fire in Hev as [Hg _]. unfold count_for in *. cbn.
    rewrite Hg. destruct (Z.eqb_spec g T); [contradiction|assumption].
Qed.

End SchedulerProps.

(** *** Settings as a dict *)

Section SettingsProps.

Import Config Bot.

Lemma lookup_set_item_eq (g : Z) (c : cfg) (gs : settings) :
  lookup g (set_item g c gs) = Some c.
Proof.
  induction gs as [|[g0 c0] rest IH]; cbn; [now rewrite Z.eqb_refl|].
  destruct (Z.eqb_spec g0 g) as [->|Hne]; cbn.
  - now rewrite Z.eqb_refl.
  - destruct (Z.eqb_spec g0 g); [contradiction|assumption].
Qed.

Lemma lookup_set_item_ne (g g' : Z) (c : cfg) (gs : settings) :
  g <> g' -> lookup g' (set_item g c gs) = lookup g' gs.
Proof.
  intros Hne. induction gs as [|[g0 c0] rest IH]; cbn.
  - destruct (Z.eqb_spec g g'); [contradiction|reflexivity].
  - destruct (Z.eqb_spec g0 g) as [->|Hne0]; cbn.
    + destruct (Z.eqb_spec g g'); [contradiction|reflexivity].
    + now rewrite IH.
Qed.

Lemma set_item_lookup_id (g : Z) (c : cfg) (gs : settings) :
  lookup g gs = Some c -> set_item g c gs = gs.
Proof.
  induction gs as [|[g0 c0] rest IH]; cbn; [discriminate|].
  destruct (Z.eqb_spec g0 g) as [->|Hne].
  - now intros [= ->].
  - intros H. now rewrite IH.
Qed.

Lemma lookup_present (g : Z) (gs : settings) :
  g ∈ keys gs -> is_Some (lookup g gs).
Proof.
  induction gs as [|[g0 c0] rest IH]; cbn.
  - intros H. now apply elem_of_nil in H.
  - intros H. destruct (Z.eqb_spec g0 g); [eauto|].
    apply elem_of_cons in H as [H|H]; [congruence|auto].
Qed.

Lemma keys_set_item (g : Z) (c : cfg) (gs : settings) :
  keys (set_item g c gs) = match lookup g gs with Some _ => keys gs | None => keys gs ++ [g] end.
Proof.
  unfold keys. induction gs as [|[g0 c0] rest IH]; cbn; [reflexivity|].
  destruct (Z.eqb_spec g0 g) as [->|Hne]; cbn; [reflexivity|].
  rewrite IH. now destruct (lookup g rest).
Qed.

Lemma NoDup_set_item (g : Z) (c : cfg) (gs : settings) :
  NoDup (keys gs) -> NoDup (keys (set_item g c gs)).
Proof.
  intros Hnd. rewrite keys_set_item.
  destruct (lookup g gs) eqn:Hl; [assumption|].
  apply NoDup_app. repeat split; [assumption| |apply NoDup_singleton].
  intros x Hx Hx'. apply list_elem_of_singleton in Hx'. subst x.
  apply lookup_present in Hx as [? Hx]. congruence.
Qed.

Lemma get_foldl_insert (key : string) (updates : list (string * pyval)) (c : cfg) :
  Forall (fun kv => fst kv <> key) updates ->
  get (foldl (fun c kv => <[fst kv := snd kv]> c) c updates) key = get c key.
Proof.
  intros Hall. revert c. induction Hall as [|[k v] updates Hk _ IH]; intros c; [reflexivity|].
  cbn [foldl]. rewrite IH. unfold get. cbn [fst snd] in *. now rewrite lookup_insert_ne.
Qed.

Lemma assign_NoDup (g : Z) (updates : list (string * pyval)) (s : store) :
  NoDup (keys (guild_settings s)) -> NoDup (keys (guild_settings (assign g updates s))).
Proof.
  intros Hnd. unfold assign, get_or_create_guild_settings.
  destruct (lookup g (guild_settings s)); cbn; repeat apply NoDup_set_item; assumption.
Qed.

Lemma assign_marked (T g : Z) (day : string) (updates : list (string * pyval)) (s : store) :
  Forall (fun kv => fst kv <> "last_post_date") updates ->
  marked T day (guild_settings s) -> marked T day (guild_settings (assign g updates s)).
Proof.
  intros Hall (c0 & Hc0 & Hm). unfold assign, get_or_create_guild_settings, marked.
  destruct (Z.eq_dec g T) as [->|Hne].
  - rewrite Hc0. cbn. rewrite lookup_set_item_eq. eexists. split; [reflexivity|].
    now rewrite get_foldl_insert.
  - destruct (lookup g (guild_settings s)); cbn;
      rewrite ?lookup_set_item_ne by assumption; eauto.
Qed.

Lemma assign_nothing (g : Z) (s : store) :
  guild_settings (assign g [] s)
    = fst (get_or_create_guild_settings g (guild_settings s)).
Proof.
  unfold assign, get_or_create_guild_settings.
  destruct (lookup g (guild_settings s)) eqn:Hl; cbn.
  - now apply set_item_lookup_id.
  - apply set_item_lookup_id, lookup_set_item_eq.
Qed.

Lemma after_run_config (g : Z) (s : store) : after (run_config g s) = assign g [] s.
Proof. unfold run_config. cbn zeta. now repeat case_match. Qed.

(** What a command does to the settings in memory: nothing, or item
    assignments that leave ["last_post_date"] alone. *)
Lemma run_command_settings (w : world) (guild : option Z) (cmd : command) (s : store) :
  guild_settings (after (run_command w guild cmd s)) = guild_settings s \/
  exists g updates,
    Forall (fun kv => fst kv <> "last_post_date") updates /\
    guild_settings (after (run_command w guild cmd s)) = guild_settings (assign g updates s).
Proof.
  destruct guild as [g|]; [|left; now destruct cmd]. right. exists g.
  assert (Hsave : forall updates r,
    guild_settings (after (assign_and_save g updates r s))
      = guild_settings (assign g updates s)).
  { intros updates r. unfold assign_and_save, save.
    now destruct (next_io _) as [io tape']. }
  destruct cmd as [target|api_key|hour minute|[| |] [role|]| |]; cbn [run_command];
    rewrite ?after_run_config;
    try (eexists; split; [|apply Hsave]; repeat constructor; discriminate);
    try (exists []; split; [constructor|reflexivity]).
  exists []. split; [constructor|]. rewrite assign_nothing.
  unfold run_test. destruct (get_or_create_guild_settings g (guild_settings s)) as [gs c].
  cbn [fst]. repeat (case_match; try reflexivity).
Qed.

Lemma run_command_NoDup (w : world) (guild : option Z) (cmd : command) (s : store) :
  NoDup (keys (guild_settings s)) ->
  NoDup (keys (guild_settings (after (run_command w guild cmd s)))).
Proof.
  intros Hnd. destruct (run_command_settings w guild cmd s) as [->|(g & u & _ & ->)];
    [assumption|now apply assign_NoDup].
Qed.

Lemma run_command_marked (w : world) (guild : option Z) (cmd : command) (s : store)
    (T : Z) (day : string) :
  marked T day (guild_settings s) ->
  marked T day (guild_settings (after (run_command w guild cmd s))).
Proof.
  intros Hm. destruct (run_command_settings w guild cmd s) as [->|(g & u & Hu & ->)];
    [assumption|now apply assign_marked].
Qed.

End SettingsProps.

(** *** Runs *)

Section RunProps.

Import Config Bot.

Variables (T : Z) (D : string).

Lemma step_NoDup (ev : event) (b : bot) :
  NoDup (keys (guild_settings (globals b))) ->
  NoDup (keys (guild_settings (globals (fst (step ev b))))).
Proof.
  intros Hnd. unfold step. destruct (ev_action ev) as [|guild cmd].
  - destruct (scheduler_alive b); [|assumption]. cbn.
    destruct (scheduler_tick_spec (ev_world ev) (globals b)) as (-> & _).
    now rewrite keys_advance.
  - cbn. now apply run_command_NoDup.
Qed.

(** A tick on day [D]: at most one task for [T], none when [T] is already
    marked, and the marker is there afterwards as soon as one was created. *)
Lemma step_tick_on (ev : event) (b : bot) :
  ev_action ev = Tick -> today_str (now (ev_world ev)) = D ->
  NoDup (keys (guild_settings (globals b))) ->
  let n := tasks_for T (snd (step ev b)) in
  let gs' := guild_settings (globals (fst (step ev b))) in
  (n <= 1)%nat /\
  (n <> 0%nat -> marked T D gs') /\
  (marked T D (guild_settings (globals b)) -> n = 0%nat /\ marked T D gs').
Proof.
  intros Ha Hd Hnd. cbn zeta. unfold step. rewrite Ha.
  destruct (scheduler_alive b).
  2: { cbn. repeat split; auto; lia. }
  cbn [fst snd globals].
  destruct (scheduler_tick_spec (ev_world ev) (globals b)) as (-> & Hc & _).
  rewrite tasks_for_created, Hc. subst D.
  split; [now apply fired_once|]. split; [now apply fired_marks|now apply marked_stays].
Qed.

Lemma step_command_marked (ev : event) (b : bot) (guild : option Z) (cmd : command) :
  ev_action ev = Command guild cmd ->
  marked T D (guild_settings (globals b)) ->
  marked T D (guild_settings (globals (fst (step ev b)))).
Proof.
  intros Ha Hm. unfold step. rewrite Ha. cbn. now apply run_command_marked.
Qed.

Lemma run_cons (ev : event) (rest : list event) (b : bot) :
  scheduled T D (snd (run (ev :: rest) b))
  = ((if is_tick_on D ev then tasks_for T (snd (step ev b)) else 0)
     + scheduled T D (snd (run rest (fst (step ev b)))))%nat.
Proof.
  cbn [run]. destruct (step ev b) as [b' es]. cbn [fst snd].
  destruct (run rest b') as [b'' log]. reflexivity.
Qed.

Lemma run_after (evs : list event) (b : bot) :
  day_not_revisited D After evs = true -> scheduled T D (snd (run evs b)) = 0%nat.
Proof.
  revert b. induction evs as [|ev rest IH]; intros b H; [reflexivity|].
  rewrite run_cons. cbn [day_not_revisited] in H. unfold is_tick_on.
  destruct (ev_action ev) as [|guild cmd]; [|now apply IH].
  destruct (String.eqb (today_str (now (ev_world ev))) D); [discriminate|now apply IH].
Qed.

Lemma run_marked (evs : list event) (b : bot) :
  NoDup (keys (guild_settings (globals b))) ->
  marked T D (guild_settings (globals b)) ->
  day_not_revisited D During evs = true -> scheduled T D (snd (run evs b)) = 0%nat.
Proof.
  revert b. induction evs as [|ev rest IH]; intros b Hnd Hm H; [reflexivity|].
  rewrite run_cons. cbn [day_not_revisited] in H. unfold is_tick_on.
  pose proof (step_NoDup ev b Hnd) as Hnd'.
  destruct (ev_action ev) as [|guild cmd] eqn:Ha.
  - destruct (String.eqb_spec (today_str (now (ev_world ev))) D) as [Hd|Hd].
    + destruct (step_tick_on ev b Ha Hd Hnd) as (_ & _ & Hz).
      destruct (Hz Hm) as [-> Hm']. now apply IH.
    + now apply run_after.
  - apply IH; [assumption| |assumption]. eapply step_command_marked; eassumption.
Qed.

Lemma run_once (p : phase) (evs : list event) (b : bot) :
  p <> After ->
  NoDup (keys (guild_settings (globals b))) ->
  day_not_revisited D p evs = true -> (scheduled T D (snd (run evs b)) <= 1)%nat.
Proof.
  revert p b. induction evs as [|ev rest IH]; intros p b Hp Hnd H; [cbn; lia|].
  rewrite run_cons. cbn [day_not_revisited] in H. unfold is_tick_on.
  pose proof (step_NoDup ev b Hnd) as Hnd'.
  destruct (ev_action ev) as [|guild cmd] eqn:Ha.
  - destruct (String.eqb_spec (today_str (now (ev_world ev))) D) as [Hd|Hd].
    + assert (H' : day_not_revisited D During rest = true) by now destruct p.
      destruct (step_tick_on ev b Ha Hd Hnd) as (Hle & Hmk & _).
      destruct (Nat.eq_dec (tasks_for T (snd (step ev b))) 0%nat) as [Hz|Hnz].
      * rewrite Hz. now apply (IH During).
      * rewrite (run_marked rest _ Hnd' (Hmk Hnz) H'). lia.
    + destruct p; [now apply (IH Before)| |contradiction].
      rewrite run_after by assumption. cbn. lia.
  - now apply (IH p).
Qed.

End RunProps.

(** A run made of ticks only is [scheduler_loop]. *)
Lemma run_dead (ws : list Bot.world) (s : Bot.store) :
  let r := Bot.run ((fun w => Bot.Event w Bot.Tick) <$> ws) (Bot.BotState s false) in
  fst r = Bot.BotState s false /\ concat (snd <$> snd r) = [].
Proof.
  induction ws as [|w ws IH]; [now split|].
  cbn in *. destruct (Bot.run _ _) as [b log]. cbn in *. exact IH.
Qed.

Lemma run_ticks (ws : list Bot.world) (s : Bot.store) :
  let r := Bot.run ((fun w => Bot.Event w Bot.Tick) <$> ws) (Bot.BotState s true) in
  let l := Bot.scheduler_loop ws s in
  Bot.globals (fst r) = Bot.after l /\
  Bot.scheduler_alive (fst r) = negb (is_Some_b (Bot.raised l)) /\
  concat (snd <$> snd r) = Bot.effects l.
Proof.
  revert s. induction ws as [|w ws IH]; intros s; [now repeat split|].
  cbn [fmap list_fmap Bot.run Bot.scheduler_loop]. unfold Bot.step.
  cbn [Bot.ev_action Bot.ev_world Bot.scheduler_alive Bot.globals].
  destruct (Bot.raised (Bot.scheduler_tick w s)) as [e|] eqn:Hr; cbn [is_Some_b negb].
  - pose proof (run_dead ws (Bot.after (Bot.scheduler_tick w s))) as Hd. cbn zeta in Hd.
    destruct (Bot.run _ _) as [b log]. cbn [fst snd] in *.
    destruct Hd as [-> Hlog]. cbn [fmap list_fmap concat snd]. rewrite Hlog, app_nil_r, Hr.
    now repeat split.
  - specialize (IH (Bot.after (Bot.scheduler_tick w s))). cbn zeta in IH.
    destruct (Bot.run _ _) as [b log]. cbn [fst snd] in *.
    destruct IH as (H1 & H2 & H3). cbn [fmap list_fmap concat snd]. rewrite H3.
    now repeat split.
Qed.

(** C1 (amended): within one run of the process (ticks of the scheduler
    loop, however close together, with commands in between), the scheduler
    creates at most one dispatch task for a guild [T] on a day [D]: once a
    tick on [D] has created one, [last_post_date] of [T] is [D] and no later
    tick on [D] creates another.  The dispatch tasks themselves never touch
    the settings, so their duration does not matter.  The guild ids are
    distinct, as the keys of a dict are, and the clock does not return to
    [D] after a tick has seen a later day. *)
Theorem scheduled_dispatch_at_most_once
    (T : Z) (D : string) (evs : list Bot.event) (b : Bot.bot) :
  NoDup (Config.keys (Bot.guild_settings (Bot.globals b))) ->
  Bot.day_not_revisited D Bot.Before evs = true ->
  (Bot.scheduled T D (snd (Bot.run evs b)) <= 1)%nat.
Proof. intros Hnd Hd. now apply (run_once T D Bot.Before). Qed.

Lemma scheduled_dispatch_at_most_once_witness :
  let c := <["channel_id" := PyInt 10]> (<["gemini_api_key" := PyStr "k"]> Config.default_cfg) in
  let b := Bot.BotState (Bot.Store [(1, c); (2, c)] Config.FileAbsent []) true in
  let w := Bot.World (Bot.Clock "20250101" 8 0) (fun id => Some (Bot.Channel id)) in
  let evs := [Bot.Event w Bot.Tick; Bot.Event w (Bot.Command (Some 1) (Bot.CmdTime 8 0));
              Bot.Event w Bot.Tick] in
  Bot.scheduled 1 "20250101" (snd (Bot.run evs b)) = 1%nat /\
  (Bot.scheduled 1 "20250101" (snd (Bot.run evs b)) <= 1)%nat.
Proof.
  intros c b w evs. split; [reflexivity|].
  apply (scheduled_dispatch_at_most_once 1 "20250101" evs b); [|reflexivity].
  apply (bool_decide_unpack _). reflexivity.
Defined.

(** C1, as stated, fails across a restart: the marker lives in memory and in
    the file only, and a save that fails is swallowed.  The tick at 08:00
    creates the task for guild 1 and marks it, the file cannot be opened and
    keeps the old settings; the process is restarted from that file within
    the same minute, and its first tick creates a second task for the same
    guild and day. *)
Lemma restart_after_failed_save_repeats :
  let c := <["channel_id" := PyInt 10]> (<["gemini_api_key" := PyStr "k"]> Config.default_cfg) in
  let w := Bot.World (Bot.Clock "20250101" 8 0) (fun id => Some (Bot.Channel id)) in
  let evs := [Process.Live (Bot.Event w Bot.Tick); Process.Restart;
              Process.Live (Bot.Event w Bot.Tick)] in
  Bot.scheduled 1 "20250101"
    (Process.run_lives evs (Process.start (Config.FileJson [("1", c)]) [Config.IoOpenFails]))
  = 2%nat.
Proof. reflexivity. Qed.

(** A guild set to 08:00 is not served by the tick at 08:01. *)
Example tick_one_minute_late :
  let c := <["channel_id" := PyInt 10]> (<["gemini_api_key" := PyStr "k"]> Config.default_cfg) in
  let w := Bot.World (Bot.Clock "20250101" 8 1) (fun id => Some (Bot.Channel id)) in
  Bot.scheduler_tick w (Bot.Store [(1, c)] Config.FileAbsent [])
  = Bot.TickResult (Bot.Store [(1, c)] Config.FileAbsent []) [Bot.ESleep 30] None.
Proof. reflexivity. Qed.

(** C2, as stated, fails: the loop body calls [create_task] first and only
    then assigns [last_post_date] and saves.  A tick at 08:00 over one guild
    set to 08:00: the task is created before the marker is written. *)
Lemma task_created_before_marker :
  let c := <["channel_id" := PyInt 10]> (<["gemini_api_key" := PyStr "k"]> Config.default_cfg) in
  let w := Bot.World (Bot.Clock "20250101" 8 0) (fun id => Some (Bot.Channel id)) in
  Bot.effects (Bot.scheduler_tick w (Bot.Store [(1, c)] Config.FileAbsent []))
  = [Bot.ECreateTask (Bot.Dispatch (Bot.Channel 10) (PyStr "k") None 1);
     Bot.ESetMarker 1 "20250101";
     Bot.ESave Config.IoOk;
     Bot.ESleep 30].
Proof. reflexivity. Qed.

(** C2 (amended): in every tick, for each guild whose time matches, the
    scheduler first hands the dispatch to [create_task] and immediately
    afterwards, with no suspension point in between, assigns
    [last_post_date = today] for that guild and calls [save_guild_config];
    no marker is written at any other place.  The only suspension point of
    the tick is the sleep that ends it, so no created task can have begun to
    run when the marker is written and the save attempted; when the tick
    ends, every guild for which a task was created carries today's marker. *)
Theorem marker_written_before_task_runs (w : Bot.world) (s : Bot.store) :
  let r := Bot.scheduler_tick w s in
  (exists es,
     Bot.spawn_mark_save (Bot.today_str (Bot.now w)) es = true /\
     Bot.effects r = es ++ match Bot.raised r with Some _ => [] | None => [Bot.ESleep 30] end) /\
  (NoDup (Config.keys (Bot.guild_settings s)) ->
   forall d, d ∈ Bot.created (Bot.effects r) ->
     Bot.marked (Bot.d_guild d) (Bot.today_str (Bot.now w)) (Bot.guild_settings (Bot.after r))).
Proof.
  cbn zeta.
  destruct (scheduler_tick_spec w s) as (Hgs & Hc & _ & Hes).
  split; [exact Hes|].
  intros Hnd d Hd. rewrite Hgs. apply fired_marks; [assumption|].
  rewrite Hc in Hd. unfold Bot.count_for.
  apply list_elem_of_In in Hd.
  assert (Hin : In d (List.filter (fun d0 => Bot.d_guild d0 =? Bot.d_guild d)
                        (Bot.fired w (Bot.guild_settings s)))).
  { apply List.filter_In. split; [assumption|apply Z.eqb_refl]. }
  intros Hz. apply length_zero_iff_nil in Hz. rewrite Hz in Hin. destruct Hin.
Qed.

Lemma marker_written_before_task_runs_witness :
  let c := <["channel_id" := PyInt 10]> (<["gemini_api_key" := PyStr "k"]> Config.default_cfg) in
  let w := Bot.World (Bot.Clock "20250101" 8 0) (fun id => Some (Bot.Channel id)) in
  let s := Bot.Store [(1, c)] Config.FileAbsent [] in
  let d := Bot.Dispatch (Bot.Channel 10) (PyStr "k") None 1 in
  NoDup (Config.keys (Bot.guild_settings s)) /\
  d ∈ Bot.created (Bot.effects (Bot.scheduler_tick w s)) /\
  Bot.marked 1 "20250101" (Bot.guild_settings (Bot.after (Bot.scheduler_tick w s))).
Proof.
  intros c w s d.
  assert (Hnd : NoDup (Config.keys (Bot.guild_settings s)))
    by (apply (bool_decide_unpack _); reflexivity).
  assert (Hd : d ∈ Bot.created (Bot.effects (Bot.scheduler_tick w s)))
    by (apply list_elem_of_In; left; reflexivity).
  split; [exact Hnd|]. split; [exact Hd|].
  exact (proj2 (marker_written_before_task_runs w s) Hnd d Hd).
Defined.

(** The part of C3 that holds: a guild whose channel is [None] or whose key
    is [None] is skipped, and so is a guild still holding the creation
    defaults. *)
Lemma none_is_skipped (w : Bot.world) (g : Z) (c : Config.cfg) :
  is_none (Config.get c "channel_id") = true \/
  is_none (Config.get c "gemini_api_key") = true ->
  Bot.evaluate w g c = Ok Bot.Skip.
Proof. apply evaluate_skips_none. Qed.

Lemma defaults_are_skipped (w : Bot.world) (g : Z) :
  Bot.evaluate w g Config.default_cfg = Ok Bot.Skip.
Proof. apply evaluate_skips_none. now left. Qed.

(** C3 fails on the code for a guild without credential.  The creation
    default of ["gemini_api_key"] is the empty string, and the scheduler
    tests the key with [is None], which the empty string passes.  Guild 1
    sets its channel with [/ohaasa channel] and never sets a key; the tick at
    08:00 creates a dispatch task for it with the empty key and writes the
    day marker.  The sibling paths do treat the empty key as missing:
    [/ohaasa test] answers that no key is set, and [translate_text] returns
    [None] without sending a request. *)
Theorem empty_key_guild_is_dispatched :
  let w := Bot.World (Bot.Clock "20250101" 8 0) (fun id => Some (Bot.Channel id)) in
  let b0 := Bot.BotState (Bot.Store [] Config.FileAbsent []) true in
  let b1 := fst (Bot.step (Bot.Event w (Bot.Command (Some 1) (Bot.CmdChannel 10))) b0) in
  let c1 := <["channel_id" := PyInt 10]> Config.default_cfg in
  Bot.guild_settings (Bot.globals b1) = [(1, c1)] /\
  Config.get c1 "gemini_api_key" = PyStr EmptyString /\
  truthy (Config.get c1 "gemini_api_key") = false /\
  snd (Bot.step (Bot.Event w Bot.Tick) b1)
    = [Bot.ECreateTask (Bot.Dispatch (Bot.Channel 10) (PyStr EmptyString) None 1);
       Bot.ESetMarker 1 "20250101"; Bot.ESave Config.IoOk; Bot.ESleep 30] /\
  Bot.guild_settings (Bot.globals (fst (Bot.step (Bot.Event w Bot.Tick) b1)))
    = [(1, Bot.mark "20250101" c1)] /\
  Bot.effects (Bot.run_command w (Some 1) Bot.CmdTest (Bot.globals b1))
    = [Bot.ERespond Bot.RNoKey] /\
  forall ep text, Translate.translate_text ep text (PyStr EmptyString) Translate.default_max_retries
                  = (PyNone, []).
Proof. repeat split. Qed.

(** *** Exceptions in the loop body *)

Section RaiseProps.

Import Config Bot.

Variable w : world.

Lemma advance_app (pre rest : settings) :
  first_raise w pre = None -> advance w (pre ++ rest) = advance w pre ++ advance w rest.
Proof.
  induction pre as [|[g c] pre IH]; [reflexivity|].
  cbn [first_raise advance app].
  destruct (evaluate w g c) as [[| |d]|e]; [| | |discriminate];
    intros H; cbn; now rewrite IH.
Qed.

Lemma fired_app (pre rest : settings) :
  first_raise w pre = None -> fired w (pre ++ rest) = fired w pre ++ fired w rest.
Proof.
  induction pre as [|[g c] pre IH]; [reflexivity|].
  cbn [first_raise fired app].
  destruct (evaluate w g c) as [[| |d]|e]; [| | |discriminate];
    intros H; cbn; now rewrite IH.
Qed.

Lemma first_raise_app (pre rest : settings) :
  first_raise w pre = None -> first_raise w (pre ++ rest) = first_raise w rest.
Proof.
  induction pre as [|[g c] pre IH]; [reflexivity|].
  cbn [first_raise app].
  destruct (evaluate w g c) as [[| |d]|e]; [| | |discriminate]; exact IH.
Qed.

Lemma first_raise_none (gs : settings) :
  first_raise w gs = None <->
  forall g c, (g, c) ∈ gs -> exists v, evaluate w g c = Ok v.
Proof.
  induction gs as [|[g c] rest IH]; cbn [first_raise].
  - split; [|reflexivity]. intros _ g c H. now apply elem_of_nil in H.
  - destruct (evaluate w g c) as [v|e] eqn:Hev.
    + rewrite IH. split.
      * intros H g' c' Hin. apply elem_of_cons in Hin as [[= -> ->]|Hin]; eauto.
      * intros H g' c' Hin. apply H. now apply elem_of_cons; right.
    + split; [discriminate|]. intros H.
      destruct (H g c) as [v Hv]; [apply elem_of_cons; now left|congruence].
Qed.

Lemma fired_all (gs : settings) (g : Z) (c : cfg) (d : dispatch) :
  first_raise w gs = None -> (g, c) ∈ gs -> evaluate w g c = Ok (Fire d) ->
  d ∈ fired w gs.
Proof.
  induction gs as [|[g0 c0] rest IH]; intros Hr Hin Hev.
  - now apply elem_of_nil in Hin.
  - cbn [first_raise fired] in *. apply elem_of_cons in Hin as [[= <- <-]|Hin].
    + rewrite Hev. apply elem_of_cons. now left.
    + destruct (evaluate w g0 c0) as [[| |d0]|e]; [| | |discriminate]; auto.
      apply elem_of_cons. right. auto.
Qed.

End RaiseProps.

(** C4, as stated, fails: the loop body of [scheduler_loop] has no
    [try]/[except].  The settings file gives guild 1 a [null] post hour, so
    [int(hour)] raises [TypeError] when the tick reaches it; guild 2, which
    comes next and is due at this very minute, is not evaluated, and the
    scheduler task is gone: no later tick does anything. *)
Lemma exception_ends_tick_and_loop :
  let good := <["channel_id" := PyInt 10]> (<["gemini_api_key" := PyStr "k"]> Config.default_cfg) in
  let bad := <["post_hour" := PyNone]> good in
  let file := Config.FileJson [("1", bad); ("2", good)] in
  let w := Bot.World (Bot.Clock "20250101" 8 0) (fun id => Some (Bot.Channel id)) in
  let s := Bot.Store [(1, bad); (2, good)] file [] in
  Config.load_guild_config file = Ok [(1, bad); (2, good)] /\
  Bot.evaluate w 2 good = Ok (Bot.Fire (Bot.Dispatch (Bot.Channel 10) (PyStr "k") None 2)) /\
  Bot.scheduler_tick w s = Bot.TickResult s [] (Some TypeError) /\
  Bot.step (Bot.Event w Bot.Tick) (Bot.BotState s true) = (Bot.BotState s false, []) /\
  forall w', Bot.step (Bot.Event w' Bot.Tick) (Bot.BotState s false)
             = (Bot.BotState s false, []).
Proof. repeat split. Qed.

(** C4 (amended): a tick visits the guilds in order; skipping a guild, or
    not finding its channel, does not stop the pass.  While no guild's
    evaluation raises, every guild is evaluated (each one that is due gets
    its task), the pass ends in the sleep and the loop goes on.  The loop
    body catches nothing: when the evaluation of a guild raises ([int]
    applied to a post hour, post minute, channel id or role id it cannot
    convert), the guilds before it have been served, the guilds after it are
    not evaluated and stay as they were, and the scheduler task ends, so no
    later tick does anything. *)
Theorem exception_leaves_the_loop (w : Bot.world) (f : Config.file_state)
    (tape : list Config.io_outcome) :
  (forall gs,
     Bot.first_raise w gs = None ->
     let r := Bot.step (Bot.Event w Bot.Tick) (Bot.BotState (Bot.Store gs f tape) true) in
     Bot.scheduler_alive (fst r) = true /\
     (exists es, snd r = es ++ [Bot.ESleep 30]) /\
     forall g c d, (g, c) ∈ gs -> Bot.evaluate w g c = Ok (Bot.Fire d) ->
                   d ∈ Bot.created (snd r)) /\
  (forall pre g c post e,
     Bot.first_raise w pre = None -> Bot.evaluate w g c = Raise e ->
     let gs := pre ++ (g, c) :: post in
     let r := Bot.step (Bot.Event w Bot.Tick) (Bot.BotState (Bot.Store gs f tape) true) in
     Bot.raised (Bot.scheduler_tick w (Bot.Store gs f tape)) = Some e /\
     Bot.created (snd r) = Bot.fired w pre /\
     Bot.guild_settings (Bot.globals (fst r)) = Bot.advance w pre ++ (g, c) :: post /\
     Bot.scheduler_alive (fst r) = false /\
     forall w', Bot.step (Bot.Event w' Bot.Tick) (fst r) = (fst r, [])).
Proof.
  split.
  - intros gs Hnone. cbn zeta. unfold Bot.step. cbn [Bot.ev_action Bot.scheduler_alive
      Bot.ev_world Bot.globals fst snd].
    destruct (scheduler_tick_spec w (Bot.Store gs f tape)) as (_ & Hc & Hr & es & _ & Hes).
    cbn [Bot.guild_settings] in *. rewrite Hnone in Hr. rewrite Hr in *.
    split; [reflexivity|]. split; [eauto|].
    intros g c d Hin Hev. rewrite Hc. eapply fired_all; eassumption.
  - intros pre g c post e Hnone Hev. cbn zeta. unfold Bot.step. cbn [Bot.ev_action
      Bot.scheduler_alive Bot.ev_world Bot.globals fst snd].
    destruct (scheduler_tick_spec w (Bot.Store (pre ++ (g, c) :: post) f tape))
      as (Hgs & Hc & Hr & _).
    cbn [Bot.guild_settings] in *.
    rewrite first_raise_app in Hr by assumption. cbn [Bot.first_raise] in Hr.
    rewrite Hev in Hr. rewrite Hr. cbn [is_Some_b negb].
    rewrite fired_app in Hc by assumption. cbn [Bot.fired] in Hc.
    rewrite Hev, app_nil_r in Hc.
    rewrite advance_app in Hgs by assumption. cbn [Bot.advance] in Hgs.
    rewrite Hev in Hgs. now repeat split.
Qed.

Lemma exception_leaves_the_loop_witness :
  let good := <["channel_id" := PyInt 10]> (<["gemini_api_key" := PyStr "k"]> Config.default_cfg) in
  let bad := <["post_hour" := PyStr "eight"]> good in
  let w := Bot.World (Bot.Clock "20250101" 8 0) (fun id => Some (Bot.Channel id)) in
  let gs := [(1, good); (2, bad); (3, good)] in
  let r := Bot.step (Bot.Event w Bot.Tick)
             (Bot.BotState (Bot.Store gs Config.FileAbsent []) true) in
  Bot.first_raise w [(1, good)] = None /\
  Bot.evaluate w 2 bad = Raise ValueError /\
  Bot.created (snd r) = Bot.fired w [(1, good)] /\
  Bot.scheduler_alive (fst r) = false.
Proof.
  intros good bad w gs r.
  split; [reflexivity|]. split; [reflexivity|].
  destruct (proj2 (exception_leaves_the_loop w Config.FileAbsent [])
              [(1, good)] 2 bad [(3, good)] ValueError eq_refl eq_refl)
    as (_ & Hc & _ & Ha & _).
  split; [exact Hc|exact Ha].
Defined.

(** ** Saving the settings *)

Section SaveProps.

Import Config Bot.

Lemma assign_and_save_spec (g : Z) (updates : list (string * pyval)) (resp : response)
    (gs : settings) (f : file_state) (tape : list io_outcome) :
  let r := assign_and_save g updates resp (Store gs f tape) in
  let gs' := guild_settings (assign g updates (Store gs f [])) in
  let io := fst (next_io tape) in
  raised r = None /\
  effects r = [ESave io; ERespond resp] /\
  guild_settings (after r) = gs' /\
  config_file (after r)
    = match io with
      | IoOk => FileJson (dump gs')
      | IoOpenFails => f
      | IoDumpFails => FileTorn
      end.
Proof.
  cbn zeta. unfold assign_and_save, save, assign.
  destruct (get_or_create_guild_settings g gs) as [gs1 c] eqn:Hgc.
  cbn [guild_settings config_file io_tape]. rewrite Hgc.
  destruct tape as [|[| |] tape]; cbn; now repeat split.
Qed.

End SaveProps.

(** [/ohaasa config] on a guild without settings creates the defaults in
    memory and does not call [save_guild_config]. *)
Example config_creates_unsaved_defaults :
  let w := Bot.World (Bot.Clock "20250101" 8 0) (fun id => Some (Bot.Channel id)) in
  Bot.run_command w (Some 1) Bot.CmdConfig (Bot.Store [] Config.FileAbsent [])
    = Bot.TickResult (Bot.Store [(1, Config.default_cfg)] Config.FileAbsent [])
        [Bot.ERespond Bot.RConfigShown] None.
Proof. reflexivity. Qed.

(** [/ohaasa config] raises where its conversions do, after the settings
    were looked up, and sends nothing then. *)
Example config_raises_on_bad_hour :
  let w := Bot.World (Bot.Clock "20250101" 8 0) (fun id => Some (Bot.Channel id)) in
  let c := <["post_hour" := PyStr "eight"]> Config.default_cfg in
  Bot.run_command w (Some 1) Bot.CmdConfig (Bot.Store [(1, c)] Config.FileAbsent [])
    = Bot.TickResult (Bot.Store [(1, c)] Config.FileAbsent []) [] (Some ValueError).
Proof. reflexivity. Qed.

(** C8, as stated, fails: [save_guild_config] catches every exception of the
    write and only logs it.  When the file cannot be opened, [/ohaasa
    channel] still answers with its success message and raises nothing; the
    new channel is in memory and not in the file.  The same holds for the
    scheduler's marker. *)
Lemma failed_save_is_swallowed :
  let w := Bot.World (Bot.Clock "20250101" 8 0) (fun id => Some (Bot.Channel id)) in
  let c := <["channel_id" := PyInt 10]> Config.default_cfg in
  Bot.run_command w (Some 1) (Bot.CmdChannel 10) (Bot.Store [] Config.FileAbsent [Config.IoOpenFails])
    = Bot.TickResult (Bot.Store [(1, c)] Config.FileAbsent [])
        [Bot.ESave Config.IoOpenFails; Bot.ERespond Bot.RChannelSet] None /\
  let k := <["gemini_api_key" := PyStr "k"]> c in
  Bot.scheduler_tick w (Bot.Store [(1, k)] (Config.FileJson [("1", k)]) [Config.IoOpenFails])
    = Bot.TickResult
        (Bot.Store [(1, Bot.mark "20250101" k)] (Config.FileJson [("1", k)]) [])
        [Bot.ECreateTask (Bot.Dispatch (Bot.Channel 10) (PyStr "k") None 1);
         Bot.ESetMarker 1 "20250101"; Bot.ESave Config.IoOpenFails; Bot.ESleep 30]
        None.
Proof. split; reflexivity. Qed.

(** C8 (amended): every command that assigns to a guild's settings
    ([/ohaasa channel], [apikey], [time], [mention] with valid arguments)
    calls [save_guild_config] after the assignment and before it answers.
    The save never reports a failure: whatever the write meets, the command
    raises nothing, answers with the same message and leaves the same
    settings in memory; the file holds the new settings when the write
    succeeds, is unchanged when the file cannot be opened and is torn when
    the dump fails. *)
Theorem mutation_saved_failure_swallowed
    (w : Bot.world) (g : Z) (cmd : Bot.command) (gs : Config.settings) (f : Config.file_state) :
  Bot.mutating cmd = true ->
  exists resp gs',
    forall tape,
      let r := Bot.run_command w (Some g) cmd (Bot.Store gs f tape) in
      let io := fst (Bot.next_io tape) in
      Bot.raised r = None /\
      Bot.effects r = [Bot.ESave io; Bot.ERespond resp] /\
      Bot.guild_settings (Bot.after r) = gs' /\
      Bot.config_file (Bot.after r)
        = match io with
          | Config.IoOk => Config.FileJson (Config.dump gs')
          | Config.IoOpenFails => f
          | Config.IoDumpFails => Config.FileTorn
          end.
Proof.
  intros Hmut.
  destruct cmd as [target|api_key|hour minute|[| |] [role|]| |];
    try discriminate Hmut; cbn [Bot.run_command];
    do 2 eexists; intros tape; apply assign_and_save_spec.
Qed.

Lemma mutation_saved_failure_swallowed_witness :
  let w := Bot.World (Bot.Clock "20250101" 8 0) (fun id => Some (Bot.Channel id)) in
  Bot.mutating (Bot.CmdTime 9 30) = true /\
  exists resp gs',
    forall tape,
      let r := Bot.run_command w (Some 1) (Bot.CmdTime 9 30)
                 (Bot.Store [] Config.FileAbsent tape) in
      Bot.raised r = None /\
      Bot.effects r = [Bot.ESave (fst (Bot.next_io tape)); Bot.ERespond resp] /\
      Bot.guild_settings (Bot.after r) = gs' /\
      Bot.config_file (Bot.after r)
        = match fst (Bot.next_io tape) with
          | Config.IoOk => Config.FileJson (Config.dump gs')
          | Config.IoOpenFails => Config.FileAbsent
          | Config.IoDumpFails => Config.FileTorn
          end.
Proof.
  intros w. split; [reflexivity|].
  exact (mutation_saved_failure_swallowed w 1 (Bot.CmdTime 9 30) [] Config.FileAbsent eq_refl).
Defined.

(** * Further properties of the code *)

(** ** [str.strip] and the white space of [int] *)

Section StripProps.

Variable sp : ascii -> bool.

Lemma is_space2_high (a b : ascii) :
  is_space2 a b = true -> (128 <= nat_of_ascii a)%nat /\ (128 <= nat_of_ascii b)%nat.
Proof.
  unfold is_space2. rewrite andb_true_iff, orb_true_iff, !Nat.eqb_eq. lia.
Qed.

Lemma is_space3_high (a b c : ascii) :
  is_space3 a b c = true ->
  (128 <= nat_of_ascii a)%nat /\ (128 <= nat_of_ascii b)%nat /\ (128 <= nat_of_ascii c)%nat.
Proof.
  unfold is_space3. cbn zeta.
  rewrite !orb_true_iff, !andb_true_iff, !orb_true_iff, !andb_true_iff,
    !Nat.eqb_eq, !Nat.leb_le.
  lia.
Qed.

Lemma lstrip_step (bw : bool) (l : list ascii) :
  lstrip sp bw l
  = match Text.space_head sp bw l with
    | Some r => lstrip sp bw r
    | None => l
    end.
Proof.
  destruct l as [|a [|b [|c r]]]; cbn [lstrip Text.space_head]; [reflexivity|..];
    destruct (sp a); try reflexivity.
  - destruct (if bw then is_space2 b a else is_space2 a b); reflexivity.
  - destruct (if bw then is_space2 b a else is_space2 a b); [reflexivity|].
    destruct (if bw then is_space3 c b a else is_space3 a b c); reflexivity.
Qed.

(** What one round removes: ASCII white space or bytes beyond ASCII. *)
Lemma space_head_prefix (bw : bool) (l r : list ascii) :
  Text.space_head sp bw l = Some r ->
  exists p, l = p ++ r /\ p <> [] /\
            Forall (fun a => sp a = true \/ (128 <= nat_of_ascii a)%nat) p.
Proof.
  assert (H1 : forall a r0, sp a = true ->
    exists p, a :: r0 = p ++ r0 /\ p <> [] /\
              Forall (fun a => sp a = true \/ (128 <= nat_of_ascii a)%nat) p).
  { intros a r0 Ha. exists [a]. split; [reflexivity|]. split; [discriminate|].
    constructor; [now left|constructor]. }
  assert (H2 : forall a b r0, (if bw then is_space2 b a else is_space2 a b) = true ->
    exists p, a :: b :: r0 = p ++ r0 /\ p <> [] /\
              Forall (fun a => sp a = true \/ (128 <= nat_of_ascii a)%nat) p).
  { intros a b r0 H. exists [a; b]. split; [reflexivity|]. split; [discriminate|].
    assert ((128 <= nat_of_ascii a)%nat /\ (128 <= nat_of_ascii b)%nat) as [? ?]
      by (destruct bw; apply is_space2_high in H; tauto).
    constructor; [now right|]. constructor; [now right|constructor]. }
  assert (H3 : forall a b c r0, (if bw then is_space3 c b a else is_space3 a b c) = true ->
    exists p, a :: b :: c :: r0 = p ++ r0 /\ p <> [] /\
              Forall (fun a => sp a = true \/ (128 <= nat_of_ascii a)%nat) p).
  { intros a b c r0 H. exists [a; b; c]. split; [reflexivity|]. split; [discriminate|].
    assert ((128 <= nat_of_ascii a)%nat /\ (128 <= nat_of_ascii b)%nat
            /\ (128 <= nat_of_ascii c)%nat) as (? & ? & ?)
      by (destruct bw; apply is_space3_high in H; tauto).
    constructor; [now right|]. constructor; [now right|].
    constructor; [now right|constructor]. }
  destruct l as [|a [|b [|c l]]]; cbn [Text.space_head]; [discriminate|..].
  - destruct (sp a) eqn:Ha; [|discriminate]. intros [= <-]. now apply H1.
  - destruct (sp a) eqn:Ha; [intros [= <-]; now apply H1|].
    destruct (if bw then is_space2 b a else is_space2 a b) eqn:E2; [|discriminate].
    intros [= <-]. now apply H2.
  - destruct (sp a) eqn:Ha; [intros [= <-]; now apply H1|].
    destruct (if bw then is_space2 b a else is_space2 a b) eqn:E2;
      [intros [= <-]; now apply H2|].
    destruct (if bw then is_space3 c b a else is_space3 a b c) eqn:E3; [|discriminate].
    intros [= <-]. now apply H3.
Qed.

Lemma space_head_shorter (bw : bool) (l r : list ascii) :
  Text.space_head sp bw l = Some r -> (length r < length l)%nat.
Proof.
  intros H. destruct (space_head_prefix bw l r H) as (p & -> & Hp & _).
  rewrite length_app. destruct p; [contradiction|cbn; lia].
Qed.

(** [lstrip] removes a prefix of such bytes and leaves no white space at
    the head. *)
Lemma lstrip_spec (bw : bool) (l : list ascii) :
  Text.space_head sp bw (lstrip sp bw l) = None /\
  exists p, l = p ++ lstrip sp bw l /\
            Forall (fun a => sp a = true \/ (128 <= nat_of_ascii a)%nat) p.
Proof.
  remember (length l) as n eqn:Hn. revert l Hn.
  induction (lt_wf n) as [n _ IH]. intros l ->.
  rewrite lstrip_step. destruct (Text.space_head sp bw l) as [r|] eqn:E.
  - destruct (IH (length r) (space_head_shorter bw l r E) r eq_refl) as (H1 & q & Hq & Hall).
    split; [exact H1|].
    destruct (space_head_prefix bw l r E) as (p & -> & _ & Hp).
    exists (p ++ q). split; [now rewrite <- app_assoc, <- Hq|now apply Forall_app].
  - split; [exact E|]. now exists [].
Qed.

Lemma lstrip_fixed (bw : bool) (l : list ascii) :
  Text.space_head sp bw l = None -> lstrip sp bw l = l.
Proof. intros H. now rewrite lstrip_step, H. Qed.

Lemma space_head_app (bw : bool) (m q : list ascii) :
  Text.space_head sp bw (m ++ q) = None -> Text.space_head sp bw m = None.
Proof.
  destruct m as [|a [|b [|c m]]]; cbn [Text.space_head app]; [reflexivity|..];
    destruct (sp a); try discriminate; try reflexivity.
  - destruct (if bw then is_space2 b a else is_space2 a b); [discriminate|reflexivity].
  - destruct (if bw then is_space2 b a else is_space2 a b); [discriminate|].
    destruct (if bw then is_space3 c b a else is_space3 a b c); [discriminate|reflexivity].
Qed.

Lemma strip_chars_idem (l : list ascii) :
  strip_chars sp (strip_chars sp l) = strip_chars sp l.
Proof.
  unfold strip_chars.
  destruct (lstrip_spec false l) as (Hm & _).
  destruct (lstrip_spec true (rev (lstrip sp false l))) as (Hn & p & Hp & _).
  set (m := lstrip sp false l) in *. set (n := lstrip sp true (rev m)) in *.
  apply (f_equal (@rev _)) in Hp. rewrite rev_involutive, rev_app_distr in Hp.
  rewrite Hp in Hm. apply space_head_app in Hm.
  rewrite (lstrip_fixed false _ Hm), rev_involutive, (lstrip_fixed true _ Hn).
  reflexivity.
Qed.

Lemma lstrip_blank (bw : bool) (l : list ascii) :
  Forall (fun a => sp a = true) l -> lstrip sp bw l = [].
Proof. induction 1 as [|a r Ha _ IH]; [reflexivity|]. cbn [lstrip]. now rewrite Ha. Qed.

Lemma space_head_plain (bw : bool) (a : ascii) (r : list ascii) :
  Text.plain sp a = true -> Text.space_head sp bw (a :: r) = None.
Proof.
  unfold Text.plain. intros H. apply andb_true_iff in H as [Hlt Hsp].
  apply Nat.ltb_lt in Hlt. apply negb_true_iff in Hsp.
  cbn [Text.space_head]. rewrite Hsp.
  destruct r as [|b [|c r]]; [reflexivity| |].
  - destruct (if bw then is_space2 b a else is_space2 a b) eqn:H2; [|reflexivity].
    destruct bw; apply is_space2_high in H2; lia.
  - destruct (if bw then is_space2 b a else is_space2 a b) eqn:H2.
    { destruct bw; apply is_space2_high in H2; lia. }
    destruct (if bw then is_space3 c b a else is_space3 a b c) eqn:H3; [|reflexivity].
    destruct bw; apply is_space3_high in H3; lia.
Qed.

(** A string of ASCII characters other than white space is left alone. *)
Lemma strip_chars_plain (l : list ascii) :
  Forall (fun a => Text.plain sp a = true) l -> strip_chars sp l = l.
Proof.
  intros H. unfold strip_chars.
  assert (Hfix : forall bw l0, Forall (fun a => Text.plain sp a = true) l0 ->
                               lstrip sp bw l0 = l0).
  { intros bw [|a r] H0; [reflexivity|]. apply lstrip_fixed, space_head_plain.
    now apply Forall_cons in H0 as [Ha _]. }
  rewrite (Hfix false l H), (Hfix true (rev l)) by now apply Forall_rev.
  apply rev_involutive.
Qed.

(** Stripping keeps every ASCII character that is not white space. *)
Lemma strip_chars_keeps (P : ascii -> Prop) (l : list ascii) :
  (forall a, P a -> Text.plain sp a = true) ->
  Exists P l -> Exists P (strip_chars sp l).
Proof.
  intros HP.
  assert (Hl : forall bw l0, Exists P l0 -> Exists P (lstrip sp bw l0)).
  { intros bw l0 H. destruct (lstrip_spec bw l0) as (_ & p & Hp & Hall).
    rewrite Hp in H. apply Exists_app in H as [H|H]; [|exact H].
    exfalso. apply Exists_exists in H as (a & Hin & Ha).
    rewrite Forall_forall in Hall. specialize (Hall a Hin).
    apply HP in Ha. unfold Text.plain in Ha. apply andb_true_iff in Ha as [Hlt Hsp].
    apply Nat.ltb_lt in Hlt. apply negb_true_iff in Hsp.
    destruct Hall as [Hs|Hs]; [congruence|lia]. }
  intros H. unfold strip_chars. apply Exists_rev, Hl, Exists_rev, Hl, H.
Qed.

End StripProps.

Lemma strip_idem (s : string) : Py.strip (Py.strip s) = Py.strip s.
Proof.
  unfold Py.strip. now rewrite list_ascii_of_string_of_list_ascii, strip_chars_idem.
Qed.

Lemma strip_blank (s : string) :
  Forall (fun a => is_space a = true) (list_ascii_of_string s) -> Py.strip s = EmptyString.
Proof.
  intros H. unfold Py.strip, strip_chars. now rewrite (lstrip_blank _ _ _ H).
Qed.

(** ** The settings file *)

Section FileProps.

Import Config.

Local Abbreviation digit_char := (fun a : ascii => is_Some (digit_of a)).

Lemma digit_of_pretty_char (r : N) :
  (r < 10)%N ->
  digit_of (pretty_N_char r) = Some (Z.of_N r) /\
  Ascii.eqb (pretty_N_char r) "_"%char = false.
Proof.
  intros H.
  assert (r = 0 \/ r = 1 \/ r = 2 \/ r = 3 \/ r = 4 \/ r = 5 \/ r = 6 \/ r = 7 \/ r = 8 \/ r = 9)%N
    as Hc by lia.
  repeat (destruct Hc as [->|Hc]); try subst r; split; reflexivity.
Qed.

(** Reading back the digits [pretty_N_go] writes in front of [s]. *)
Lemma parse_digits_pretty_go (x : N) :
  (0 < x)%N ->
  exists k : Z, 0 <= k /\ forall acc b s,
    parse_digits acc b (list_ascii_of_string (pretty_N_go x s))
    = parse_digits (acc * 10 ^ k + Z.of_N x) true (list_ascii_of_string s).
Proof.
  induction (N.lt_wf_0 x) as [x _ IH]. intros Hx.
  destruct (digit_of_pretty_char (x mod 10)%N) as (Hd & Hu); [now apply N.mod_lt|].
  pose proof (N.div_mod x 10 ltac:(lia)) as Hdm.
  destruct (N.eq_0_gt_0_cases (x `div` 10)) as [H0|Hpos].
  - exists 1. split; [lia|]. intros acc b s.
    rewrite pretty_N_go_step, H0, pretty_N_go_0 by assumption.
    cbn [list_ascii_of_string parse_digits]. rewrite Hu, Hd. f_equal.
    rewrite H0 in Hdm. lia.
  - destruct (IH (x `div` 10)%N) as (k & Hk & Hparse); [now apply N.div_lt|assumption|].
    exists (k + 1). split; [lia|]. intros acc b s.
    rewrite pretty_N_go_step, Hparse by assumption.
    cbn [list_ascii_of_string parse_digits]. rewrite Hu, Hd. f_equal.
    rewrite Z.pow_add_r by lia.
    apply (f_equal Z.of_N) in Hdm. rewrite N2Z.inj_add, N2Z.inj_mul in Hdm. lia.
Qed.

Lemma digit_char_plain (a : ascii) :
  digit_char a ->
  Text.plain is_space_int a = true /\ a <> "+"%char /\ a <> "-"%char.
Proof.
  intros [d Hd]. unfold digit_of in Hd. unfold Text.plain, is_space_int.
  destruct ((48 <=? nat_of_ascii a)%nat && (nat_of_ascii a <=? 57)%nat) eqn:E; [|discriminate].
  apply andb_true_iff in E as [E1 E2]. apply Nat.leb_le in E1, E2. clear Hd.
  remember (nat_of_ascii a) as n eqn:Hn.
  repeat split.
  - apply andb_true_iff. split; [apply Nat.ltb_lt; clear Hn; lia|].
    apply negb_true_iff, orb_false_iff. split.
    + apply andb_false_iff. right. apply Nat.leb_gt. clear Hn. lia.
    + apply Nat.eqb_neq. clear Hn. lia.
  - intros ->. vm_compute in Hn. subst n. lia.
  - intros ->. vm_compute in Hn. subst n. lia.
Qed.

Lemma pretty_go_digits (x : N) (s : string) :
  Forall digit_char (list_ascii_of_string s) ->
  Forall digit_char (list_ascii_of_string (pretty_N_go x s)).
Proof.
  revert s. induction (N.lt_wf_0 x) as [x _ IH]. intros s Hs.
  destruct (N.eq_0_gt_0_cases x) as [->|Hx]; [now rewrite pretty_N_go_0|].
  rewrite pretty_N_go_step by assumption. apply IH; [now apply N.div_lt|].
  cbn. constructor; [|assumption].
  destruct (digit_of_pretty_char (x mod 10)%N) as (Hd & _); [now apply N.mod_lt|].
  rewrite Hd. eauto.
Qed.

Lemma strip_chars_digits (l : list ascii) :
  Forall digit_char l -> strip_chars is_space_int l = l.
Proof.
  intros H. apply strip_chars_plain. eapply Forall_impl; [exact H|].
  intros a Ha. now apply digit_char_plain.
Qed.

Lemma strip_chars_minus_digits (l : list ascii) :
  Forall digit_char l -> strip_chars is_space_int ("-"%char :: l) = "-"%char :: l.
Proof.
  intros H. apply strip_chars_plain. constructor; [reflexivity|].
  eapply Forall_impl; [exact H|]. intros a Ha. now apply digit_char_plain.
Qed.

Lemma int_of_str_digits (l : list ascii) :
  l <> [] -> Forall digit_char l ->
  int_of_str (string_of_list_ascii l) = parse_digits 0 false l.
Proof.
  intros Hne H. unfold int_of_str. rewrite list_ascii_of_string_of_list_ascii.
  rewrite strip_chars_digits by assumption.
  destruct l as [|a r]; [contradiction|].
  apply Forall_cons in H as [Ha _]. apply digit_char_plain in Ha as (_ & Hp & Hm).
  destruct a as [[] [] [] [] [] [] [] []]; try reflexivity; contradiction.
Qed.

Lemma pretty_go_nonempty (x : N) :
  (0 < x)%N -> list_ascii_of_string (pretty_N_go x EmptyString) <> [].
Proof.
  intros Hx Hnil. destruct (parse_digits_pretty_go x Hx) as (k & _ & H).
  specialize (H 0 false EmptyString). rewrite Hnil in H. discriminate.
Qed.

(** [int(str(z)) == z] *)
Lemma int_of_str_pretty (z : Z) : int_of_str (pretty z) = Some z.
Proof.
  destruct z as [|p|p]; [reflexivity| |].
  - change (pretty (Z.pos p)) with (pretty_N_go (N.pos p) EmptyString).
    rewrite <- (string_of_list_ascii_of_string (pretty_N_go (N.pos p) EmptyString)).
    rewrite int_of_str_digits;
      [|now apply pretty_go_nonempty|apply pretty_go_digits; constructor].
    destruct (parse_digits_pretty_go (N.pos p)) as (k & _ & H); [lia|].
    rewrite H. reflexivity.
  - change (pretty (Z.neg p)) with (String "-"%char (pretty_N_go (N.pos p) EmptyString)).
    unfold int_of_str. cbn [list_ascii_of_string].
    rewrite strip_chars_minus_digits by (apply pretty_go_digits; constructor).
    destruct (parse_digits_pretty_go (N.pos p)) as (k & _ & H); [lia|].
    rewrite H. reflexivity.
Qed.

Lemma set_item_absent (g : Z) (c : cfg) (gs : settings) :
  g ∉ keys gs -> set_item g c gs = gs ++ [(g, c)].
Proof.
  induction gs as [|[g0 c0] rest IH]; [reflexivity|].
  unfold keys. cbn [fmap list_fmap fst set_item]. intros Hn.
  apply not_elem_of_cons in Hn as [Hne Hn].
  destruct (Z.eqb_spec g0 g); [congruence|]. cbn. now rewrite IH.
Qed.

Lemma load_entries_dump (gs acc : settings) :
  NoDup (keys acc ++ keys gs) ->
  load_entries (dump gs) acc = Ok (acc ++ gs).
Proof.
  revert acc. induction gs as [|[g c] rest IH]; intros acc Hnd.
  { cbn. now rewrite app_nil_r. }
  cbn [dump fmap list_fmap load_entries fst snd]. unfold Py.int, Py.bind.
  rewrite int_of_str_pretty.
  assert (Hfresh : g ∉ keys acc).
  { apply NoDup_app in Hnd as (_ & Hdis & _). intros Hin.
    apply (Hdis g Hin). unfold keys. cbn. apply elem_of_cons. now left. }
  rewrite set_item_absent by assumption.
  change (list_fmap _ _ (fun e : Z * cfg => (pretty (fst e), snd e)) rest) with (dump rest).
  rewrite IH.
  - now rewrite <- app_assoc.
  - unfold keys in *. rewrite fmap_app, <- app_assoc. exact Hnd.
Qed.

Lemma parse_digits_bad (l : list ascii) :
  Exists (fun a => Text.not_in_literal a = true) l ->
  forall acc b, parse_digits acc b l = None.
Proof.
  induction 1 as [a r Ha|a r _ IH]; intros acc b; cbn [parse_digits].
  - unfold Text.not_in_literal in Ha.
    apply andb_true_iff in Ha as [Ha Hsign]. apply andb_true_iff in Ha as [_ Hd].
    apply negb_true_iff, orb_false_iff in Hsign as [_ ->].
    apply negb_true_iff in Hd. now destruct (digit_of a).
  - destruct (Ascii.eqb a "_"); [destruct b; [apply IH|reflexivity]|].
    destruct (digit_of a); [apply IH|reflexivity].
Qed.

Lemma int_of_str_bad_key (k : string) : Text.bad_key k -> int_of_str k = None.
Proof.
  unfold Text.bad_key, int_of_str. intros H.
  apply (strip_chars_keeps is_space_int) in H.
  2: { intros a Ha. unfold Text.not_in_literal in Ha.
       apply andb_true_iff in Ha as [Ha _]. now apply andb_true_iff in Ha as [Ha _]. }
  destruct (strip_chars is_space_int (list_ascii_of_string k)) as [|a r].
  { now apply Exists_nil in H. }
  assert (Hr : Text.not_in_literal a = false ->
               Exists (fun a => Text.not_in_literal a = true) r).
  { intros Ha. apply Exists_cons in H as [H|H]; [congruence|exact H]. }
  destruct a as [[] [] [] [] [] [] [] []];
    first [ exact (parse_digits_bad _ H 0 false)
          | exact (parse_digits_bad r (Hr eq_refl) 0 false)
          | rewrite (parse_digits_bad r (Hr eq_refl) 0 false); reflexivity ].
Qed.

Lemma load_entries_bad (raw : list (string * cfg)) :
  Exists (fun e => Text.bad_key (fst e)) raw ->
  forall acc, load_entries raw acc = Raise ValueError.
Proof.
  induction 1 as [[k c] rest Hk|[k c] rest _ IH]; intros acc;
    cbn [load_entries]; unfold Py.int, Py.bind.
  - cbn [fst] in Hk. now rewrite (int_of_str_bad_key k Hk).
  - destruct (int_of_str k); [apply IH|reflexivity].
Qed.

Lemma load_entries_NoDup (raw : list (string * cfg)) (acc gs : settings) :
  NoDup (keys acc) -> load_entries raw acc = Ok gs -> NoDup (keys gs).
Proof.
  revert acc. induction raw as [|[k c] rest IH]; intros acc Hnd.
  { cbn. now intros [= <-]. }
  cbn [load_entries]. unfold Py.bind.
  destruct (Py.int (PyStr k)) as [g|e]; [|discriminate].
  apply IH. now apply NoDup_set_item.
Qed.

End FileProps.

(** X1: what [save_guild_config] writes, [load_guild_config] reads back:
    after a successful save of settings with distinct guild ids, loading
    the file gives the same settings, guild by guild and in the same order.
    After a failed save the file loads as before when it could not be
    opened, and as no settings at all when the dump broke off. *)
Theorem save_then_load (gs : Config.settings) (f : Config.file_state) :
  NoDup (Config.keys gs) ->
  Config.load_guild_config (fst (Config.save_guild_config gs Config.IoOk f)) = Ok gs /\
  Config.load_guild_config (fst (Config.save_guild_config gs Config.IoOpenFails f))
    = Config.load_guild_config f /\
  Config.load_guild_config (fst (Config.save_guild_config gs Config.IoDumpFails f)) = Ok [].
Proof.
  intros Hnd. repeat split. cbn. now apply (load_entries_dump gs []).
Qed.

Lemma save_then_load_witness :
  let gs := [(12, Config.default_cfg); (-7, <["post_hour" := PyInt 9]> Config.default_cfg)] in
  NoDup (Config.keys gs) /\
  Config.load_guild_config (fst (Config.save_guild_config gs Config.IoOk Config.FileAbsent))
    = Ok gs.
Proof.
  intros gs.
  assert (Hnd : NoDup (Config.keys gs)) by (apply (bool_decide_unpack _); reflexivity).
  split; [exact Hnd|]. exact (proj1 (save_then_load gs Config.FileAbsent Hnd)).
Defined.

(** X2: for a settings file that is absent, cannot be decoded, or holds a
    JSON object whose values are objects: the settings [load_guild_config]
    returns have distinct guild ids; an absent or undecodable file gives no
    settings; and a key anywhere in the file that holds an ASCII character
    no integer literal contains (not a digit, a sign, an underscore or
    white space) makes the load raise [ValueError], the dict comprehension
    being outside the [try]. *)
Theorem load_gives_a_dict (f : Config.file_state) :
  (forall gs, Config.load_guild_config f = Ok gs -> NoDup (Config.keys gs)) /\
  (f = Config.FileAbsent \/ f = Config.FileTorn -> Config.load_guild_config f = Ok []) /\
  (forall raw, f = Config.FileJson raw ->
     Exists (fun e => Text.bad_key (fst e)) raw ->
     Config.load_guild_config f = Raise ValueError).
Proof.
  split; [|split].
  - intros gs. destruct f as [|raw|]; cbn; try (intros [= <-]; constructor).
    apply load_entries_NoDup. constructor.
  - now intros [-> | ->].
  - intros raw -> Hbad. cbn [Config.load_guild_config]. now apply load_entries_bad.
Qed.

Lemma load_gives_a_dict_witness :
  (Config.load_guild_config
     (Config.FileJson [("1", Config.default_cfg); ("01", ∅); ("2", ∅)])
     = Ok [(1, ∅); (2, ∅)] /\
   NoDup (Config.keys [(1, (∅ : Config.cfg)); (2, ∅)])) /\
  (Exists (fun e : string * Config.cfg => Text.bad_key (fst e)) [("1", ∅); ("7x", ∅)] /\
   Config.load_guild_config (Config.FileJson [("1", ∅); ("7x", ∅)]) = Raise ValueError).
Proof.
  split.
  - split; [reflexivity|].
    exact (proj1 (load_gives_a_dict
                    (Config.FileJson [("1", Config.default_cfg); ("01", ∅); ("2", ∅)]))
             [(1, ∅); (2, ∅)] eq_refl).
  - assert (Hbad : Exists (fun e : string * Config.cfg => Text.bad_key (fst e))
                     [("1", ∅); ("7x", ∅)]).
    { apply Exists_cons_tl, Exists_cons_hd. apply Exists_cons_tl, Exists_cons_hd.
      reflexivity. }
    split; [exact Hbad|].
    exact (proj2 (proj2 (load_gives_a_dict (Config.FileJson [("1", ∅); ("7x", ∅)])))
             _ eq_refl Hbad).
Defined.

(** ** Guild settings in memory *)

Section DictProps.

Import Config Bot.

Lemma lookup_get_or_create (g g' : Z) (gs : settings) :
  lookup g' (fst (get_or_create_guild_settings g gs))
  = if decide (g' = g) then Some (default default_cfg (lookup g gs)) else lookup g' gs.
Proof.
  unfold get_or_create_guild_settings.
  destruct (lookup g gs) as [c|] eqn:Hl; cbn [fst].
  - destruct (decide (g' = g)) as [->|]; [now rewrite Hl|reflexivity].
  - destruct (decide (g' = g)) as [->|Hne].
    + apply lookup_set_item_eq.
    + apply lookup_set_item_ne. congruence.
Qed.

Lemma lookup_assign (g g' : Z) (updates : list (string * pyval)) (s : store) :
  lookup g' (guild_settings (assign g updates s))
  = if decide (g' = g)
    then Some (foldl (fun c kv => <[fst kv := snd kv]> c)
                 (default default_cfg (lookup g (guild_settings s))) updates)
    else lookup g' (guild_settings s).
Proof.
  unfold assign.
  pose proof (lookup_get_or_create g g' (guild_settings s)) as Hl.
  assert (Hc : snd (get_or_create_guild_settings g (guild_settings s))
               = default default_cfg (lookup g (guild_settings s))).
  { unfold get_or_create_guild_settings. now destruct (lookup g (guild_settings s)). }
  destruct (get_or_create_guild_settings g (guild_settings s)) as [gs c].
  cbn [fst snd guild_settings] in *. subst c.
  destruct (decide (g' = g)) as [->|Hne].
  - apply lookup_set_item_eq.
  - rewrite lookup_set_item_ne by congruence. exact Hl.
Qed.

Lemma lookup_foldl_insert (key : string) (updates : list (string * pyval)) (c : cfg) :
  Forall (fun kv => fst kv <> key) updates ->
  foldl (fun c kv => <[fst kv := snd kv]> c) c updates !! key = c !! key.
Proof.
  intros Hall. revert c. induction Hall as [|[k v] updates Hk _ IH]; intros c; [reflexivity|].
  cbn [foldl fst snd] in *. rewrite IH. now apply lookup_insert_ne.
Qed.

Lemma keys_get_or_create (g : Z) (gs : settings) :
  keys (fst (get_or_create_guild_settings g gs))
  = match lookup g gs with Some _ => keys gs | None => keys gs ++ [g] end.
Proof.
  unfold get_or_create_guild_settings.
  destruct (lookup g gs) eqn:Hl; cbn [fst]; [reflexivity|].
  now rewrite keys_set_item, Hl.
Qed.

Lemma after_assign_and_save (g : Z) (updates : list (string * pyval)) (r : response)
    (s : store) :
  guild_settings (after (assign_and_save g updates r s)) = guild_settings (assign g updates s).
Proof. unfold assign_and_save, save. now destruct (next_io _). Qed.

Lemma after_run_test (w : world) (g : Z) (s : store) :
  after (run_test w g s)
  = Store (fst (get_or_create_guild_settings g (guild_settings s))) (config_file s) (io_tape s).
Proof.
  unfold run_test. destruct (get_or_create_guild_settings g (guild_settings s)) as [gs c].
  cbn [fst]. repeat (case_match; try reflexivity).
Qed.

End DictProps.

(** X3: [get_or_create_guild_settings] returns the guild's dict when there
    is one and otherwise the defaults, which it registers at the end of the
    settings; afterwards the guild is found with exactly the returned dict,
    every other guild is found as before, distinct guild ids stay distinct,
    and a second call changes nothing. *)
Theorem get_or_create_registers_once (g : Z) (gs : Config.settings) :
  let r := Config.get_or_create_guild_settings g gs in
  snd r = default Config.default_cfg (Config.lookup g gs) /\
  Config.lookup g (fst r) = Some (snd r) /\
  (forall g', g' <> g -> Config.lookup g' (fst r) = Config.lookup g' gs) /\
  (Config.lookup g gs = None -> fst r = gs ++ [(g, Config.default_cfg)]) /\
  (NoDup (Config.keys gs) -> NoDup (Config.keys (fst r))) /\
  Config.get_or_create_guild_settings g (fst r) = r.
Proof.
  cbn zeta.
  assert (Hc : snd (Config.get_or_create_guild_settings g gs)
               = default Config.default_cfg (Config.lookup g gs)).
  { unfold Config.get_or_create_guild_settings. now destruct (Config.lookup g gs). }
  assert (Hl : Config.lookup g (fst (Config.get_or_create_guild_settings g gs))
               = Some (snd (Config.get_or_create_guild_settings g gs))).
  { rewrite lookup_get_or_create, Hc. now destruct (decide (g = g)). }
  split; [exact Hc|]. split; [exact Hl|]. split; [|split; [|split]].
  - intros g' Hne. rewrite lookup_get_or_create. now destruct (decide (g' = g)).
  - intros Hnone. unfold Config.get_or_create_guild_settings. rewrite Hnone. cbn [fst].
    apply set_item_absent. intros Hin. apply lookup_present in Hin as [c Hin]. congruence.
  - intros Hnd. unfold Config.get_or_create_guild_settings.
    destruct (Config.lookup g gs); cbn [fst]; [assumption|now apply NoDup_set_item].
  - unfold Config.get_or_create_guild_settings at 1. rewrite Hl.
    now destruct (Config.get_or_create_guild_settings g gs).
Qed.

Lemma get_or_create_registers_once_witness :
  let gs := [(1, <["post_hour" := PyInt 9]> Config.default_cfg)] in
  Config.lookup 2 gs = None /\
  fst (Config.get_or_create_guild_settings 2 gs) = gs ++ [(2, Config.default_cfg)].
Proof.
  intros gs. split; [reflexivity|].
  now apply (get_or_create_registers_once 2 gs).
Defined.

(** X4: a command run in guild [g] leaves every other guild's settings as
    they were, and never touches the day marker of [g] itself; a command
    run outside a guild changes nothing at all. *)
Theorem command_stays_in_its_guild
    (w : Bot.world) (g : Z) (cmd : Bot.command) (s : Bot.store) :
  let s' := Bot.after (Bot.run_command w (Some g) cmd s) in
  (forall g', g' <> g ->
     Config.lookup g' (Bot.guild_settings s') = Config.lookup g' (Bot.guild_settings s)) /\
  (forall c, Config.lookup g (Bot.guild_settings s) = Some c ->
     exists c', Config.lookup g (Bot.guild_settings s') = Some c' /\
                c' !! "last_post_date" = c !! "last_post_date") /\
  Bot.after (Bot.run_command w None cmd s) = s.
Proof.
  cbn zeta.
  assert (H : exists updates,
    Forall (fun kv => fst kv <> "last_post_date") updates /\
    Bot.guild_settings (Bot.after (Bot.run_command w (Some g) cmd s))
      = Bot.guild_settings (Bot.assign g updates s)).
  { destruct cmd as [target|api_key|hour minute|[| |] [role|]| |]; cbn [Bot.run_command];
      rewrite ?after_run_config;
      try (eexists; split; [|apply after_assign_and_save]; repeat constructor; discriminate);
      try (exists []; split; [constructor|reflexivity]).
    exists []. split; [constructor|]. now rewrite after_run_test, assign_nothing. }
  destruct H as (updates & Hu & ->). split; [|split; [|now destruct cmd]].
  - intros g' Hne. rewrite lookup_assign. now destruct (decide (g' = g)).
  - intros c Hc. rewrite lookup_assign, Hc. destruct (decide (g = g)); [|contradiction].
    eexists. split; [reflexivity|]. now apply lookup_foldl_insert.
Qed.

Lemma command_stays_in_its_guild_witness :
  let w := Bot.World (Bot.Clock "20250101" 8 0) (fun id => Some (Bot.Channel id)) in
  let c := Bot.mark "20250101" Config.default_cfg in
  let s := Bot.Store [(1, c); (2, c)] Config.FileAbsent [] in
  Config.lookup 1 (Bot.guild_settings s) = Some c /\
  (2 <> 1 ->
   Config.lookup 2 (Bot.guild_settings (Bot.after (Bot.run_command w (Some 1) (Bot.CmdTime 9 30) s)))
   = Some c).
Proof.
  intros w c s. split; [reflexivity|]. intros Hne.
  exact (proj1 (command_stays_in_its_guild w 1 (Bot.CmdTime 9 30) s) 2 Hne).
Defined.

(** X5: each settings command overwrites exactly its own keys of the guild's
    dict, which is the existing one or, for a guild not seen before, the
    defaults: [channel] sets the channel id, [apikey] the key with white
    space stripped from both ends, [time] the hour and the minute,
    [mention] the mode and the role ([None] unless the mode is [role]);
    [config], [test] and a [mention] by role without a role assign
    nothing. *)
Theorem command_writes_its_keys (w : Bot.world) (g : Z) (s : Bot.store) :
  let c0 := default Config.default_cfg (Config.lookup g (Bot.guild_settings s)) in
  let after cmd :=
    Config.lookup g (Bot.guild_settings (Bot.after (Bot.run_command w (Some g) cmd s))) in
  (forall t, after (Bot.CmdChannel t) = Some (<["channel_id" := PyInt t]> c0)) /\
  (forall k, after (Bot.CmdApikey k) = Some (<["gemini_api_key" := PyStr (Py.strip k)]> c0)) /\
  (forall h m, after (Bot.CmdTime h m)
               = Some (<["post_minute" := PyInt m]> (<["post_hour" := PyInt h]> c0))) /\
  (forall r, after (Bot.CmdMention Bot.ChoiceRole (Some r))
             = Some (<["mention_role_id" := PyInt r]> (<["mention_mode" := PyStr "role"]> c0))) /\
  (forall r, after (Bot.CmdMention Bot.ChoiceEveryone r)
             = Some (<["mention_role_id" := PyNone]> (<["mention_mode" := PyStr "everyone"]> c0))) /\
  (forall r, after (Bot.CmdMention Bot.ChoiceNone r)
             = Some (<["mention_role_id" := PyNone]> (<["mention_mode" := PyStr "none"]> c0))) /\
  after (Bot.CmdMention Bot.ChoiceRole None) = Some c0 /\
  after Bot.CmdConfig = Some c0 /\
  after Bot.CmdTest = Some c0.
Proof.
  cbn zeta.
  assert (Hset : forall updates r,
    Config.lookup g (Bot.guild_settings (Bot.after (Bot.assign_and_save g updates r s)))
    = Some (foldl (fun c kv => <[fst kv := snd kv]> c)
              (default Config.default_cfg (Config.lookup g (Bot.guild_settings s))) updates)).
  { intros updates r. rewrite after_assign_and_save, lookup_assign.
    now destruct (decide (g = g)). }
  assert (Hnone : Config.lookup g (Bot.guild_settings (Bot.assign g [] s))
                  = Some (default Config.default_cfg (Config.lookup g (Bot.guild_settings s)))).
  { rewrite lookup_assign. now destruct (decide (g = g)). }
  repeat split; intros; cbn [Bot.run_command]; rewrite ?Hset, ?after_run_config;
    try reflexivity; try exact Hnone.
  rewrite after_run_test. cbn [Bot.guild_settings]. rewrite lookup_get_or_create.
  now destruct (decide (g = g)).
Qed.

(** ** Settings written by the bot never stop the scheduler *)

Section TypedProps.

Import Config Bot Typed.

Ltac gets :=
  unfold well_typed, mark, get in *;
  repeat (rewrite lookup_insert_eq || rewrite lookup_insert_ne by discriminate).

Ltac typed :=
  gets; cbn [default from_option id is_none is_int orb andb foldl fst snd] in *;
  repeat match goal with H : _ && _ = true |- _ => apply andb_true_iff in H as [? ?] end;
  repeat (apply andb_true_iff; split); try assumption; try reflexivity.

Lemma well_typed_mark (day : string) (c : cfg) : well_typed (mark day c) = well_typed c.
Proof. now gets. Qed.

Lemma well_typed_lookup (g : Z) (c : cfg) (gs : settings) :
  all_well_typed gs -> lookup g gs = Some c -> well_typed c = true.
Proof.
  unfold all_well_typed. induction 1 as [|[g0 c0] rest H0 _ IH]; cbn; [discriminate|].
  destruct (g0 =? g); [now intros [= <-]|assumption].
Qed.

Lemma all_well_typed_set_item (g : Z) (c : cfg) (gs : settings) :
  all_well_typed gs -> well_typed c = true -> all_well_typed (set_item g c gs).
Proof.
  unfold all_well_typed. intros Hall Hc.
  induction Hall as [|[g0 c0] rest H0 Hrest IH]; cbn.
  - now repeat constructor.
  - destruct (g0 =? g); constructor; assumption.
Qed.

Lemma all_well_typed_assign (g : Z) (updates : list (string * pyval)) (s : store) :
  all_well_typed (guild_settings s) ->
  (forall c, well_typed c = true ->
             well_typed (foldl (fun c kv => <[fst kv := snd kv]> c) c updates) = true) ->
  all_well_typed (guild_settings (assign g updates s)).
Proof.
  intros Hall Hup. unfold assign, get_or_create_guild_settings.
  destruct (lookup g (guild_settings s)) as [c|] eqn:Hl; cbn [guild_settings].
  - apply all_well_typed_set_item; [assumption|].
    apply Hup. eapply well_typed_lookup; eassumption.
  - repeat apply all_well_typed_set_item; try assumption; [reflexivity|now apply Hup].
Qed.

Lemma mention_text_typed (c : cfg) :
  well_typed c = true -> exists mt, mention_text c = Ok mt.
Proof.
  intros H. unfold mention_text.
  destruct (eq_str _ "everyone"); [eauto|].
  destruct (eq_str _ "role"); cbn [andb]; [|eauto].
  unfold well_typed in H. apply andb_true_iff in H as [_ H].
  destruct (get c "mention_role_id"); try discriminate; cbn; eauto.
  destruct (negb (z =? 0)); cbn; eauto.
Qed.

Lemma evaluate_typed (w : world) (g : Z) (c : cfg) :
  well_typed c = true -> exists v, evaluate w g c = Ok v.
Proof.
  intros H. destruct (mention_text_typed c H) as [mt Hmt].
  unfold evaluate. rewrite Hmt. unfold well_typed in H.
  apply andb_true_iff in H as [H _]. apply andb_true_iff in H as [H Hm].
  apply andb_true_iff in H as [Hc Hh].
  destruct (get c "channel_id") as [| | ch | | |]; try discriminate; cbn [is_none orb]; [eauto|].
  destruct (is_none (get c "gemini_api_key")); [eauto|].
  destruct (eq_str _ _); [eauto|].
  destruct (get c "post_hour") as [| | h | | |]; try discriminate. cbn.
  destruct (now_hour (now w) =? h); cbn; [|eauto].
  destruct (get c "post_minute") as [| | m | | |]; try discriminate. cbn.
  destruct (now_minute (now w) =? m); cbn; [|eauto].
  destruct (get_channel w ch); eauto.
Qed.

Lemma first_raise_typed (w : world) (gs : settings) :
  all_well_typed gs -> first_raise w gs = None.
Proof.
  intros Hall. apply first_raise_none. intros g c Hin.
  apply evaluate_typed. unfold all_well_typed in Hall. rewrite Forall_forall in Hall.
  exact (Hall (g, c) Hin).
Qed.

Lemma advance_typed (w : world) (gs : settings) :
  all_well_typed gs -> all_well_typed (advance w gs).
Proof.
  unfold all_well_typed. induction 1 as [|[g c] rest Hc Hrest IH]; [constructor|].
  cbn [advance]. destruct (evaluate w g c) as [[| |d]|e]; constructor; try assumption.
  cbn [snd] in *. now rewrite well_typed_mark.
Qed.

Lemma get_or_create_typed (g : Z) (gs : settings) :
  all_well_typed gs -> well_typed (snd (get_or_create_guild_settings g gs)) = true.
Proof.
  intros Hall. unfold get_or_create_guild_settings.
  destruct (lookup g gs) as [c|] eqn:E; [|reflexivity].
  exact (well_typed_lookup g c _ Hall E).
Qed.

Lemma time_str_typed (c : cfg) : well_typed c = true -> exists t, time_str c = Ok t.
Proof.
  intros H. unfold time_str. unfold well_typed in H.
  apply andb_true_iff in H as [H _]. apply andb_true_iff in H as [H Hm].
  apply andb_true_iff in H as [_ Hh].
  destruct (get c "post_hour"); try discriminate.
  destruct (get c "post_minute"); try discriminate. cbn. eauto.
Qed.

Lemma run_command_typed (w : world) (guild : option Z) (cmd : command) (s : store) :
  all_well_typed (guild_settings s) ->
  all_well_typed (guild_settings (after (run_command w guild cmd s))) /\
  raised (run_command w guild cmd s) = None.
Proof.
  intros Hall. destruct guild as [g|]; [|split; now destruct cmd].
  assert (Hnone : all_well_typed (guild_settings (assign g [] s))).
  { apply all_well_typed_assign; [assumption|]. now intros c Hc. }
  assert (Hsave : forall updates r,
    (forall c, well_typed c = true ->
       well_typed (foldl (fun c kv => <[fst kv := snd kv]> c) c updates) = true) ->
    all_well_typed (guild_settings (after (assign_and_save g updates r s))) /\
    raised (assign_and_save g updates r s) = None).
  { intros updates r Hup. rewrite after_assign_and_save.
    split; [now apply all_well_typed_assign|].
    unfold assign_and_save. now destruct (save _). }
  pose proof (get_or_create_typed g (guild_settings s) Hall) as Hwt.
  destruct cmd as [target|api_key|hour minute|[| |] [role|]| |]; cbn [run_command];
    try (apply Hsave; intros c Hc; cbn [foldl fst snd]; now typed);
    try (split; [exact Hnone|reflexivity]).
  - rewrite after_run_config. split; [exact Hnone|].
    unfold run_config. cbn zeta.
    destruct (time_str_typed _ Hwt) as [t ->].
    now destruct (mention_text_typed _ Hwt) as [mt ->].
  - rewrite after_run_test. cbn [guild_settings]. rewrite <- assign_nothing.
    split; [exact Hnone|].
    unfold run_test.
    destruct (get_or_create_guild_settings g (guild_settings s)) as [gs c].
    cbn [fst snd] in *.
    destruct (mention_text_typed c Hwt) as [mt Hmt]. rewrite Hmt.
    unfold well_typed in Hwt. apply andb_true_iff in Hwt as [Hwt _].
    apply andb_true_iff in Hwt as [Hwt _]. apply andb_true_iff in Hwt as [Hch _].
    destruct (get c "channel_id") as [| | ch | | |]; try discriminate; cbn;
      try reflexivity; repeat (case_match; try reflexivity).
Qed.

End TypedProps.

Lemma run_step (ev : Bot.event) (rest : list Bot.event) (b : Bot.bot) :
  fst (Bot.run (ev :: rest) b) = fst (Bot.run rest (fst (Bot.step ev b))) /\
  snd (Bot.run (ev :: rest) b)
    = (ev, snd (Bot.step ev b)) :: snd (Bot.run rest (fst (Bot.step ev b))).
Proof.
  cbn [Bot.run]. destruct (Bot.step ev b) as [b' es]. cbn [fst snd].
  now destruct (Bot.run rest b').
Qed.

Lemma step_typed (ev : Bot.event) (b : Bot.bot) :
  Typed.all_well_typed (Bot.guild_settings (Bot.globals b)) ->
  Bot.scheduler_alive b = true ->
  Bot.scheduler_alive (fst (Bot.step ev b)) = true /\
  Typed.all_well_typed (Bot.guild_settings (Bot.globals (fst (Bot.step ev b)))) /\
  (Bot.ev_action ev = Bot.Tick -> last (snd (Bot.step ev b)) = Some (Bot.ESleep 30)).
Proof.
  intros Hall Halive. unfold Bot.step.
  destruct (Bot.ev_action ev) as [|guild cmd] eqn:Ha.
  - rewrite Halive. cbn [fst snd Bot.globals Bot.scheduler_alive].
    destruct (scheduler_tick_spec (Bot.ev_world ev) (Bot.globals b))
      as (Hgs & _ & Hr & es & _ & Hes).
    rewrite (first_raise_typed _ _ Hall) in Hr. rewrite Hr in Hes.
    rewrite Hgs, Hr, Hes. repeat split.
    + now apply advance_typed.
    + intros _. apply last_snoc.
  - cbn [fst snd Bot.globals Bot.scheduler_alive].
    destruct (run_command_typed (Bot.ev_world ev) guild cmd (Bot.globals b) Hall) as [Hall' _].
    repeat split; try assumption. discriminate.
Qed.

(** X6: as long as the settings have the shape the bot itself gives them
    (which the creation defaults have and every command and every tick
    keeps), no evaluation in the scheduler raises: the scheduler task stays
    alive through every run, and every tick reaches its sleep. *)
Theorem scheduler_survives_own_settings (evs : list Bot.event) (b : Bot.bot) :
  Typed.all_well_typed (Bot.guild_settings (Bot.globals b)) ->
  Bot.scheduler_alive b = true ->
  let r := Bot.run evs b in
  Bot.scheduler_alive (fst r) = true /\
  Typed.all_well_typed (Bot.guild_settings (Bot.globals (fst r))) /\
  Forall (fun p : Bot.event * list Bot.effect =>
            Bot.ev_action (fst p) = Bot.Tick -> last (snd p) = Some (Bot.ESleep 30))
         (snd r).
Proof.
  cbn zeta. revert b. induction evs as [|ev rest IH]; intros b Hall Halive;
    [now repeat split|].
  destruct (run_step ev rest b) as [-> ->].
  destruct (step_typed ev b Hall Halive) as (Ha & Ht & Hs).
  destruct (IH _ Ht Ha) as (H1 & H2 & H3).
  repeat split; try assumption. now constructor.
Qed.

Lemma scheduler_survives_own_settings_witness :
  let w := Bot.World (Bot.Clock "20250101" 8 0) (fun id => Some (Bot.Channel id)) in
  let b := Bot.BotState (Bot.Store [] Config.FileAbsent []) true in
  let evs := [Bot.Event w (Bot.Command (Some 1) (Bot.CmdChannel 10));
              Bot.Event w (Bot.Command (Some 1) (Bot.CmdMention Bot.ChoiceRole (Some 5)));
              Bot.Event w Bot.Tick; Bot.Event w Bot.Tick] in
  Typed.all_well_typed (Bot.guild_settings (Bot.globals b)) /\
  Bot.scheduler_alive (fst (Bot.run evs b)) = true.
Proof.
  intros w b evs.
  assert (Hall : Typed.all_well_typed (Bot.guild_settings (Bot.globals b))) by constructor.
  split; [exact Hall|].
  exact (proj1 (scheduler_survives_own_settings evs b Hall eq_refl)).
Defined.

(** ** [/ohaasa test] and the day marker *)

Section TestProps.

Import Config Bot.

Lemma mention_text_marker (v : pyval) (c : cfg) :
  mention_text (<["last_post_date" := v]> c) = mention_text c.
Proof.
  unfold mention_text, get, get_or. now rewrite !lookup_insert_ne by discriminate.
Qed.

End TestProps.

(** X7: [/ohaasa test] is outside the once-a-day rule: what it answers and
    whether it dispatches does not depend on the guild's [last_post_date]
    (so it dispatches again on a day already served), and it leaves the
    settings of an existing guild, the file and the day marker exactly as
    they were. *)
Theorem test_ignores_day_marker
    (w : Bot.world) (g : Z) (gs : Config.settings) (f : Config.file_state)
    (tape : list Config.io_outcome) (c : Config.cfg) (v : pyval) :
  Config.lookup g gs = Some c ->
  let s := Bot.Store gs f tape in
  let s' := Bot.Store (Config.set_item g (<["last_post_date" := v]> c) gs) f tape in
  Bot.after (Bot.run_command w (Some g) Bot.CmdTest s) = s /\
  Bot.after (Bot.run_command w (Some g) Bot.CmdTest s') = s' /\
  Bot.effects (Bot.run_command w (Some g) Bot.CmdTest s')
    = Bot.effects (Bot.run_command w (Some g) Bot.CmdTest s) /\
  Bot.raised (Bot.run_command w (Some g) Bot.CmdTest s')
    = Bot.raised (Bot.run_command w (Some g) Bot.CmdTest s).
Proof.
  intros Hl. cbn zeta. cbn [Bot.run_command].
  rewrite !after_run_test. cbn [Bot.guild_settings Bot.config_file Bot.io_tape].
  unfold Bot.run_test, Config.get_or_create_guild_settings.
  cbn [Bot.guild_settings]. rewrite Hl, lookup_set_item_eq. cbn [fst].
  repeat split.
  all: unfold Config.get; rewrite ?mention_text_marker, ?lookup_insert_ne by discriminate.
  all: repeat (case_match; try reflexivity).
Qed.

Lemma test_ignores_day_marker_witness :
  let w := Bot.World (Bot.Clock "20250101" 8 0) (fun id => Some (Bot.Channel id)) in
  let c := <["channel_id" := PyInt 10]> (<["gemini_api_key" := PyStr "k"]> Config.default_cfg) in
  let gs := [(1, c)] in
  Config.lookup 1 gs = Some c /\
  Bot.effects (Bot.run_command w (Some 1) Bot.CmdTest
                 (Bot.Store (Config.set_item 1 (<["last_post_date" := PyStr "20250101"]> c) gs)
                    Config.FileAbsent []))
  = Bot.effects (Bot.run_command w (Some 1) Bot.CmdTest (Bot.Store gs Config.FileAbsent [])).
Proof.
  intros w c gs. split; [reflexivity|].
  exact (proj1 (proj2 (proj2 (test_ignores_day_marker w 1 gs Config.FileAbsent [] c
                                (PyStr "20250101") eq_refl)))).
Defined.

(** X8: a guild not seen before that sets its channel, its key and its
    post time with [/ohaasa channel], [apikey] and [time] is due exactly at
    that hour and minute: the loop body skips it at any other minute, and at
    that minute creates the dispatch for that channel with the stripped key
    and no mention when the client can see the channel, and only logs the
    missing channel when it cannot. *)
Theorem configured_guild_is_due_at_its_time
    (w : Bot.world) (g t h m : Z) (k : string)
    (gs : Config.settings) (f : Config.file_state) (tape : list Config.io_outcome) :
  Config.lookup g gs = None ->
  let s1 := Bot.after (Bot.run_command w (Some g) (Bot.CmdChannel t) (Bot.Store gs f tape)) in
  let s2 := Bot.after (Bot.run_command w (Some g) (Bot.CmdApikey k) s1) in
  let s3 := Bot.after (Bot.run_command w (Some g) (Bot.CmdTime h m) s2) in
  exists c,
    Config.lookup g (Bot.guild_settings s3) = Some c /\
    Bot.evaluate w g c =
      if (Bot.now_hour (Bot.now w) =? h) && (Bot.now_minute (Bot.now w) =? m) then
        match Bot.get_channel w t with
        | Some chan => Ok (Bot.Fire (Bot.Dispatch chan (PyStr (Py.strip k)) None g))
        | None => Ok Bot.MissingChannel
        end
      else Ok Bot.Skip.
Proof.
  intros Hl. cbn zeta. cbn [Bot.run_command].
  assert (Hset : forall updates r s,
    Config.lookup g (Bot.guild_settings (Bot.after (Bot.assign_and_save g updates r s)))
    = Some (foldl (fun c kv => <[fst kv := snd kv]> c)
              (default Config.default_cfg (Config.lookup g (Bot.guild_settings s))) updates)).
  { intros updates r s. rewrite after_assign_and_save, lookup_assign.
    now destruct (decide (g = g)). }
  eexists. split.
  { rewrite Hset, Hset, Hset. cbn [Bot.guild_settings]. rewrite Hl. reflexivity. }
  cbn [foldl fst snd default from_option id].
  unfold Bot.evaluate, Bot.mention_text, Config.get, Config.get_or.
  repeat (rewrite lookup_insert_eq || rewrite lookup_insert_ne by discriminate).
  cbn [default from_option id is_none orb eq_str Py.int Py.bind andb].
  change (Config.default_cfg !! "last_post_date") with (Some PyNone).
  change (Config.default_cfg !! "mention_mode") with (Some (PyStr "none")).
  change (Config.default_cfg !! "mention_role_id") with (Some PyNone).
  cbn [default from_option id is_none orb eq_str Py.int Py.bind andb String.eqb
       Ascii.eqb Bool.eqb truthy].
  destruct (Bot.now_hour (Bot.now w) =? h); cbn [negb andb]; [|reflexivity].
  destruct (Bot.now_minute (Bot.now w) =? m); cbn [negb andb]; [|reflexivity].
  now destruct (Bot.get_channel w t).
Qed.

Lemma configured_guild_is_due_at_its_time_witness :
  let w := Bot.World (Bot.Clock "20250101" 9 30) (fun id => Some (Bot.Channel id)) in
  Config.lookup 1 [] = None /\
  exists c,
    Config.lookup 1
      (Bot.guild_settings
         (Bot.after (Bot.run_command w (Some 1) (Bot.CmdTime 9 30)
            (Bot.after (Bot.run_command w (Some 1) (Bot.CmdApikey " key ")
               (Bot.after (Bot.run_command w (Some 1) (Bot.CmdChannel 10)
                  (Bot.Store [] Config.FileAbsent []))))))))
      = Some c /\
    Bot.evaluate w 1 c = Ok (Bot.Fire (Bot.Dispatch (Bot.Channel 10) (PyStr "key") None 1)).
Proof.
  intros w. split; [reflexivity|].
  exact (configured_guild_is_due_at_its_time w 1 10 9 30 " key " [] Config.FileAbsent []
           eq_refl).
Defined.

(** ** What a tick changes *)

Section TickFrame.

Import Config Bot.

Variable w : world.

Lemma advance_no_fire (gs : settings) : fired w gs = [] -> advance w gs = gs.
Proof.
  induction gs as [|[g c] rest IH]; [reflexivity|].
  cbn [fired advance]. destruct (evaluate w g c) as [[| |d]|e];
    try discriminate; try reflexivity; intros H; now rewrite IH.
Qed.

Lemma lookup_advance (g : Z) (gs : settings) :
  lookup g (advance w gs) = lookup g gs \/
  exists c d, lookup g gs = Some c /\
              lookup g (advance w gs) = Some (mark (today_str (now w)) c) /\
              d ∈ fired w gs /\ d_guild d = g.
Proof.
  induction gs as [|[g0 c0] rest IH]; [now left|].
  cbn [advance fired]. destruct (evaluate w g0 c0) as [[| |d]|e] eqn:Hev; cbn [lookup].
  1,2: destruct (g0 =? g); [now left|exact IH].
  2: now left.
  destruct (Z.eqb_spec g0 g) as [->|Hne].
  - right. exists c0, d. repeat split; [apply elem_of_cons; now left|].
    now apply evaluate_fire in Hev as [Hg _].
  - destruct IH as [IH|(c & d' & H1 & H2 & H3 & H4)]; [now left|].
    right. exists c, d'. repeat split; try assumption. apply elem_of_cons. now right.
Qed.

(** The store after the pass when nothing was due. *)
Lemma for_guilds_idle (todo done : settings) (f : file_state) (tape : list io_outcome) :
  fired w todo = [] ->
  after (for_guilds w done todo f tape) = Store (done ++ todo) f tape.
Proof.
  revert done. induction todo as [|[g c] rest IH]; intros done Hf.
  { cbn. now rewrite app_nil_r. }
  cbn [for_guilds fired] in *.
  destruct (evaluate w g c) as [[| |d]|e]; try discriminate; try reflexivity.
  - rewrite (IH (done ++ [(g, c)]) Hf). now rewrite <- app_assoc.
  - unfold emit. cbn [after]. rewrite (IH (done ++ [(g, c)]) Hf). now rewrite <- app_assoc.
Qed.

(** The file after the pass when every write succeeds: untouched when
    nothing was due, and otherwise the settings as the pass leaves them. *)
Lemma for_guilds_file (todo done : settings) (f : file_state) :
  let r := for_guilds w done todo f [] in
  io_tape (after r) = [] /\
  config_file (after r)
    = match fired w todo with
      | [] => f
      | _ :: _ => FileJson (dump (done ++ advance w todo))
      end.
Proof.
  cbn zeta. revert done f. induction todo as [|[g c] rest IH]; intros done f; [now split|].
  cbn [for_guilds fired advance].
  destruct (evaluate w g c) as [[| |d]|e] eqn:Hev; try (now split).
  - destruct (IH (done ++ [(g, c)]) f) as [H1 H2]. rewrite <- app_assoc in H2. now split.
  - unfold emit. cbn [after].
    destruct (IH (done ++ [(g, c)]) f) as [H1 H2]. rewrite <- app_assoc in H2. now split.
  - cbn [next_io save_guild_config fst]. unfold emit. cbn [after].
    destruct (IH (done ++ [(g, mark (today_str (now w)) c)])
                (FileJson (dump (done ++ (g, mark (today_str (now w)) c) :: rest))))
      as [H1 H2].
    split; [assumption|]. rewrite H2, <- app_assoc. cbn [app].
    destruct (fired w rest) eqn:Hf; [|reflexivity].
    now rewrite (advance_no_fire rest Hf).
Qed.

End TickFrame.

(** X9: one scheduler iteration keeps the guilds and their order and changes
    a guild's dict, if at all, only by setting its [last_post_date] to today,
    which it does only for a guild it created a task for; when it creates no
    task it leaves settings, file and pending write outcomes exactly as they
    were. *)
Theorem tick_changes_only_markers (w : Bot.world) (s : Bot.store) :
  let r := Bot.scheduler_tick w s in
  Config.keys (Bot.guild_settings (Bot.after r)) = Config.keys (Bot.guild_settings s) /\
  (forall g,
     Config.lookup g (Bot.guild_settings (Bot.after r)) = Config.lookup g (Bot.guild_settings s) \/
     exists c d,
       Config.lookup g (Bot.guild_settings s) = Some c /\
       Config.lookup g (Bot.guild_settings (Bot.after r))
         = Some (Bot.mark (Bot.today_str (Bot.now w)) c) /\
       d ∈ Bot.created (Bot.effects r) /\ Bot.d_guild d = g) /\
  (Bot.created (Bot.effects r) = [] -> Bot.after r = s).
Proof.
  cbn zeta. destruct (scheduler_tick_spec w s) as (Hgs & Hc & _).
  rewrite Hgs, Hc. split; [apply keys_advance|]. split; [intros g; apply lookup_advance|].
  intros Hf. unfold Bot.scheduler_tick.
  assert (Ha : Bot.after (Bot.for_guilds w [] (Bot.guild_settings s) (Bot.config_file s)
                            (Bot.io_tape s)) = s).
  { rewrite (for_guilds_idle w (Bot.guild_settings s) [] (Bot.config_file s)
               (Bot.io_tape s) Hf). now destruct s. }
  now destruct (Bot.raised _).
Qed.

Lemma tick_changes_only_markers_witness :
  let c := <["channel_id" := PyInt 10]> (<["gemini_api_key" := PyStr "k"]> Config.default_cfg) in
  let w := Bot.World (Bot.Clock "20250101" 8 1) (fun id => Some (Bot.Channel id)) in
  let s := Bot.Store [(1, c)] (Config.FileJson []) [Config.IoDumpFails] in
  Bot.created (Bot.effects (Bot.scheduler_tick w s)) = [] /\
  Bot.after (Bot.scheduler_tick w s) = s.
Proof.
  intros c w s. split; [reflexivity|].
  exact (proj2 (proj2 (tick_changes_only_markers w s)) eq_refl).
Defined.

(** ** Restarts *)

Section RestartProps.

Import Config Bot Process.

Variables (T : Z) (D : string).

Local Abbreviation durable := (Process.durable T D).

Lemma load_dump (gs : settings) :
  NoDup (keys gs) -> load_guild_config (FileJson (dump gs)) = Ok gs.
Proof. intros Hnd. cbn. now apply (load_entries_dump gs []). Qed.

Lemma marked_get_or_create_inv (g : Z) (gs : settings) :
  marked T D (fst (get_or_create_guild_settings g gs)) -> marked T D gs.
Proof.
  intros (c & Hc & Hm). rewrite lookup_get_or_create in Hc.
  destruct (decide (T = g)) as [->|Hne]; [|now exists c].
  destruct (lookup g gs) as [c0|] eqn:Hl.
  - injection Hc as <-. now exists c0.
  - injection Hc as <-. discriminate.
Qed.

Lemma step_durable (ev : event) (b : bot) : durable b -> durable (fst (step ev b)).
Proof.
  intros (Hnd & Htape & Hfile).
  pose proof (step_NoDup ev b Hnd) as Hnd'.
  split; [exact Hnd'|]. revert Hnd'. unfold step.
  destruct (ev_action ev) as [|guild cmd].
  - destruct (scheduler_alive b); [|now split].
    cbn [fst globals]. intros Hnd'.
    destruct (scheduler_tick_spec (ev_world ev) (globals b)) as (Hgs & _).
    assert (Hafter : after (scheduler_tick (ev_world ev) (globals b))
                     = after (for_guilds (ev_world ev) [] (guild_settings (globals b))
                                (config_file (globals b)) (io_tape (globals b)))).
    { unfold scheduler_tick. now destruct (raised _). }
    rewrite Hafter in *. rewrite Htape in *.
    destruct (for_guilds_file (ev_world ev) (guild_settings (globals b)) []
                (config_file (globals b))) as [Ht Hf].
    split; [exact Ht|]. rewrite Hf, Hgs. cbn [app].
    destruct (fired (ev_world ev) (guild_settings (globals b))) eqn:Hfired.
    + rewrite (advance_no_fire _ _ Hfired). exact Hfile.
    + intros Hm. exists (advance (ev_world ev) (guild_settings (globals b))).
      split; [|exact Hm]. apply load_dump. now rewrite <- Hgs.
  - cbn [fst globals]. intros Hnd'.
    destruct guild as [g|].
    2: { assert (E : after (run_command (ev_world ev) None cmd (globals b)) = globals b)
           by now destruct cmd.
         rewrite E in *. now split. }
    assert (Hsave : forall updates r,
      durable (BotState (after (assign_and_save g updates r (globals b))) (scheduler_alive b))).
    { intros updates r. unfold assign_and_save, save.
      replace (io_tape (assign g updates (globals b))) with (@nil io_outcome)
        by (unfold assign; now destruct (get_or_create_guild_settings _ _)).
      cbn [next_io save_guild_config fst after globals guild_settings config_file io_tape].
      assert (Hn : NoDup (keys (guild_settings (assign g updates (globals b)))))
        by now apply assign_NoDup.
      split; [exact Hn|]. split; [reflexivity|].
      intros Hm. eexists. split; [now apply load_dump|exact Hm]. }
    assert (Hkeep : durable (BotState (Store (fst (get_or_create_guild_settings g
                                                     (guild_settings (globals b))))
                                         (config_file (globals b)) (io_tape (globals b)))
                               (scheduler_alive b))).
    { split; [|split; [exact Htape|]]; cbn [globals guild_settings config_file].
      - unfold get_or_create_guild_settings.
        destruct (lookup g _); cbn [fst]; [assumption|now apply NoDup_set_item].
      - intros Hm. apply Hfile. eapply marked_get_or_create_inv; eassumption. }
    assert (Hnone : after (TickResult (assign g [] (globals b)) [ERespond RRoleRequired] None)
                    = Store (fst (get_or_create_guild_settings g (guild_settings (globals b))))
                        (config_file (globals b)) (io_tape (globals b))).
    { cbn [after]. pose proof (assign_nothing g (globals b)) as Ha.
      unfold assign in *. destruct (get_or_create_guild_settings _ _) as [gs0 c0].
      cbn [guild_settings foldl fst] in *. now rewrite Ha. }
    destruct cmd as [target|api_key|hour minute|[| |] [role|]| |]; cbn [run_command];
      try (apply Hsave).
    + cbn [after] in *. rewrite Hnone. apply Hkeep.
    + rewrite after_run_config. cbn [after] in Hnone. rewrite Hnone. apply Hkeep.
    + rewrite after_run_test. apply Hkeep.
Qed.

Lemma start_durable (f : file_state) (b : bot) :
  start f [] = Some b ->
  durable b /\ load_guild_config f = Ok (guild_settings (globals b)).
Proof.
  unfold start. destruct (load_guild_config f) as [gs|e] eqn:Hload; [|discriminate].
  intros [= <-]. cbn [globals guild_settings config_file io_tape]. split; [|reflexivity].
  split; [|split; [reflexivity|]].
  - destruct f as [|raw|]; cbn in Hload; try (injection Hload as <-; constructor).
    eapply load_entries_NoDup; [|exact Hload]. constructor.
  - cbn [globals guild_settings config_file]. eauto.
Qed.

Lemma restart_durable (b : bot) :
  durable b ->
  match start (config_file (globals b)) (io_tape (globals b)) with
  | Some b' => durable b' /\
               (marked T D (guild_settings (globals b)) -> marked T D (guild_settings (globals b')))
  | None => ~ marked T D (guild_settings (globals b))
  end.
Proof.
  intros (Hnd & Htape & Hfile). rewrite Htape.
  destruct (start (config_file (globals b)) []) as [b'|] eqn:Hs.
  - destruct (start_durable _ _ Hs) as [Hd Hl]. split; [exact Hd|].
    intros Hm. destruct (Hfile Hm) as (gs & Hgs & Hmg). congruence.
  - intros Hm. destruct (Hfile Hm) as (gs & Hgs & _).
    unfold start in Hs. now rewrite Hgs in Hs.
Qed.

Lemma run_lives_none (evs : list life_event) : run_lives evs None = [].
Proof. induction evs as [|[ev|] rest IH]; cbn; auto. Qed.

Lemma run_lives_live (ev : event) (rest : list life_event) (b : bot) :
  run_lives (Live ev :: rest) (Some b)
  = (ev, snd (step ev b)) :: run_lives rest (Some (fst (step ev b))).
Proof. cbn [run_lives]. now destruct (step ev b). Qed.

Lemma lives_after (evs : list life_event) (ob : option bot) :
  day_not_revisited D After (live_events evs) = true ->
  scheduled T D (run_lives evs ob) = 0%nat.
Proof.
  revert ob. induction evs as [|[ev|] rest IH]; intros ob H; [now destruct ob| |].
  - destruct ob as [b|]; [|now rewrite run_lives_none].
    rewrite run_lives_live. cbn [live_events omap list_omap day_not_revisited] in H.
    fold (live_events rest) in H. cbn [scheduled]. unfold is_tick_on.
    destruct (ev_action ev); [|now rewrite IH].
    destruct (String.eqb _ D); [discriminate|now rewrite IH].
  - destruct ob as [b|]; [|now rewrite run_lives_none]. cbn [run_lives]. now apply IH.
Qed.

Lemma lives_marked (evs : list life_event) (b : bot) :
  durable b -> marked T D (guild_settings (globals b)) ->
  day_not_revisited D During (live_events evs) = true ->
  scheduled T D (run_lives evs (Some b)) = 0%nat.
Proof.
  revert b. induction evs as [|[ev|] rest IH]; intros b Hd Hm H; [reflexivity| |].
  - rewrite run_lives_live. cbn [live_events omap list_omap day_not_revisited] in H.
    fold (live_events rest) in H. cbn [scheduled]. unfold is_tick_on.
    pose proof (step_durable ev b Hd) as Hd'. destruct Hd as (Hnd & _).
    destruct (ev_action ev) as [|guild cmd] eqn:Ha.
    + destruct (String.eqb_spec (today_str (now (ev_world ev))) D) as [Hday|Hday].
      * destruct (step_tick_on T D ev b Ha Hday Hnd) as (_ & _ & Hz).
        destruct (Hz Hm) as [-> Hm']. now apply IH.
      * now apply lives_after.
    + apply IH; [assumption| |assumption].
      eapply step_command_marked; eassumption.
  - cbn [run_lives]. cbn [live_events omap list_omap] in H. fold (live_events rest) in H.
    pose proof (restart_durable b Hd) as Hr.
    destruct (start _ _) as [b'|]; [|now rewrite run_lives_none].
    destruct Hr as [Hd' Hm']. now apply IH; [|apply Hm'|].
Qed.

Lemma lives_once (p : phase) (evs : list life_event) (b : bot) :
  p <> After -> durable b ->
  day_not_revisited D p (live_events evs) = true ->
  (scheduled T D (run_lives evs (Some b)) <= 1)%nat.
Proof.
  revert p b. induction evs as [|[ev|] rest IH]; intros p b Hp Hd H; [cbn; lia| |].
  - rewrite run_lives_live. cbn [live_events omap list_omap day_not_revisited] in H.
    fold (live_events rest) in H. cbn [scheduled]. unfold is_tick_on.
    pose proof (step_durable ev b Hd) as Hd'. pose proof Hd as (Hnd & _).
    destruct (ev_action ev) as [|guild cmd] eqn:Ha.
    + destruct (String.eqb_spec (today_str (now (ev_world ev))) D) as [Hday|Hday].
      * assert (H' : day_not_revisited D During (live_events rest) = true) by now destruct p.
        destruct (step_tick_on T D ev b Ha Hday Hnd) as (Hle & Hmk & _).
        destruct (Nat.eq_dec (tasks_for T (snd (step ev b))) 0%nat) as [Hz|Hnz].
        -- rewrite Hz. now apply (IH During).
        -- rewrite (lives_marked rest _ Hd' (Hmk Hnz) H'). lia.
      * destruct p; [now apply (IH Before)| |contradiction].
        rewrite lives_after by assumption. cbn. lia.
    + now apply (IH p).
  - cbn [run_lives]. cbn [live_events omap list_omap] in H. fold (live_events rest) in H.
    pose proof (restart_durable b Hd) as Hr.
    destruct (start _ _) as [b'|]; [|rewrite run_lives_none; cbn; lia].
    destruct Hr as [Hd' _]. now apply (IH p).
Qed.

End RestartProps.

(** X10: the once-a-day rule survives restarts as long as no write of the
    settings file fails.  Start the process from any file, let it run
    through ticks and commands, restart it from its file any number of
    times: the scheduler creates at most one dispatch task for a guild and a
    day (the clock not returning to that day after a later one). *)
Theorem at_most_once_across_restarts
    (T : Z) (D : string) (f : Config.file_state) (evs : list Process.life_event) :
  Bot.day_not_revisited D Bot.Before (Process.live_events evs) = true ->
  (Bot.scheduled T D (Process.run_lives evs (Process.start f [])) <= 1)%nat.
Proof.
  intros H. destruct (Process.start f []) as [b|] eqn:Hs.
  - destruct (start_durable T D f b Hs) as [Hd _]. now apply (lives_once T D Bot.Before).
  - rewrite run_lives_none. cbn. lia.
Qed.

Lemma at_most_once_across_restarts_witness :
  let c := <["channel_id" := PyInt 10]> (<["gemini_api_key" := PyStr "k"]> Config.default_cfg) in
  let w := Bot.World (Bot.Clock "20250101" 8 0) (fun id => Some (Bot.Channel id)) in
  let evs := [Process.Live (Bot.Event w Bot.Tick); Process.Restart;
              Process.Live (Bot.Event w Bot.Tick)] in
  let f := Config.FileJson [("1", c)] in
  Bot.scheduled 1 "20250101" (Process.run_lives evs (Process.start f [])) = 1%nat /\
  (Bot.scheduled 1 "20250101" (Process.run_lives evs (Process.start f [])) <= 1)%nat.
Proof.
  intros c w evs f. split; [reflexivity|].
  exact (at_most_once_across_restarts 1 "20250101" f evs eq_refl).
Defined.


(** ** [translate_text] for any bound *)

(** X11: for every value of [max_retries]: without a credential, or with a
    bound that is not positive, [translate_text] returns [None] without
    sending anything; otherwise it sends at least one and at most
    [max_retries] requests, goes on after a request exactly while the
    outcome is retryable and requests are left, waits 1, 2, 3, ... seconds
    between them, and returns a value other than [None] only when the last
    request was answered with status 200 and a body that decodes to that
    value. *)
Theorem translate_text_bounded
    (ep : Translate.endpoint) (text : string) (key : pyval) (n : Z) :
  let r := Translate.translate_text ep text key n in
  (truthy key = false \/ n <= 0 -> r = (PyNone, [])) /\
  (truthy key = true -> 0 < n ->
   exists k : nat,
     Z.of_nat k < n /\
     snd r = Translate.retry_trace text key 0 k /\
     Translate.posts (snd r) = S k /\
     Translate.sleeps (snd r) = (fun i : nat => 1 + Z.of_nat i) <$> seq 0 k /\
     (forall i : nat, (i < k)%nat -> Translate.retryable (ep (Z.of_nat i)) = true) /\
     (Z.of_nat k = n - 1 \/ Translate.retryable (ep (Z.of_nat k)) = false) /\
     fst r = Translate.outcome_value (ep (Z.of_nat k)) /\
     (fst r <> PyNone ->
      ep (Z.of_nat k) = Translate.Response 200 (Translate.BodyJson (fst r)))).
Proof.
  cbn zeta. split.
  - intros [Hk|Hn]; unfold Translate.translate_text.
    + now rewrite Hk.
    + destruct (negb (truthy key)); [reflexivity|].
      now replace (Z.to_nat n) with 0%nat by lia.
  - intros Hk Hn. unfold Translate.translate_text. rewrite Hk. cbn [negb].
    destruct (attempts_spec ep text key n (Z.to_nat n) 0)
      as (k & Hlt & Hes & Hall & Hend & Hres); [lia|lia|].
    change (0 + Z.of_nat k) with (Z.of_nat k) in *.
    exists k. rewrite Hes, Hres. repeat split; try assumption.
    + lia.
    + apply posts_retry_trace.
    + rewrite sleeps_retry_trace. apply list_fmap_ext. intros _ i _. lia.
    + destruct Hend as [Hend|Hend]; [left; lia|now right].
    + unfold Translate.outcome_value. intros Hne.
      destruct (ep (Z.of_nat k)) as [|status [| |v]]; try congruence.
      destruct (Z.eqb_spec status 200); [now subst|congruence].
Qed.

Lemma translate_text_bounded_witness :
  let ep := Translate.scripted [] (Translate.Response 502 Translate.BodyUnreadable) in
  truthy (PyStr "key") = true /\ 0 < 5 /\
  exists k : nat,
    Z.of_nat k < 5 /\
    Translate.posts (snd (Translate.translate_text ep "[]" (PyStr "key") 5)) = S k.
Proof.
  intros ep. split; [reflexivity|]. split; [lia|].
  destruct (proj2 (translate_text_bounded ep "[]" (PyStr "key") 5) eq_refl ltac:(lia))
    as (k & Hk & _ & Hp & _).
  exists k. split; [exact Hk|exact Hp].
Defined.

(** ** The cache, guild by guild *)

Section CacheFrame.

Import Cache Tasks.

Lemma step_call_cache (k : call) (c : cache) :
  snd (fst (step_call k c)) = c \/
  exists v, truthy v = true /\
            snd (fst (step_call k c)) = <[guild_id k := CacheEntry (today (env k)) v]> c.
Proof.
  unfold step_call. destruct (at_pc k) as [| |json|r]; cbn.
  - destruct (cache_hit _ _ _); now left.
  - destruct (usable _); now left.
  - pose proof (translate_and_store_cases (env k) (guild_id k) (gemini_api_key k) json c) as H.
    destruct (translate_and_store _ _ _ _ _) as [[r c'] es]. cbn.
    destruct H as [[_ ->]|[Hr ->]]; [now left|right; eauto].
  - now left.
Qed.

Lemma resume_calls (j i : nat) (s : system) (k' : call) :
  calls (resume j s) !! i = Some k' ->
  exists k, calls s !! i = Some k /\ env k = env k' /\ guild_id k = guild_id k'
            /\ gemini_api_key k = gemini_api_key k'
            /\ (i <> j -> k = k').
Proof.
  unfold resume. destruct (calls s !! j) as [kj|] eqn:Hj.
  2: { intros H. exists k'. now repeat split. }
  pose proof (step_call_same kj (shared s)) as [Hg He].
  assert (Hkey : gemini_api_key (fst (fst (step_call kj (shared s)))) = gemini_api_key kj).
  { unfold step_call. destruct (at_pc kj); cbn.
    - now destruct (cache_hit _ _ _).
    - now destruct (usable _).
    - now destruct (translate_and_store _ _ _ _ _) as [[? ?] ?].
    - reflexivity. }
  destruct (step_call kj (shared s)) as [[kj' c'] es]. cbn [calls fst] in *.
  destruct (decide (i = j)) as [->|Hne].
  - rewrite list_lookup_insert_eq by (eapply lookup_lt_Some; eassumption).
    intros [= <-]. exists kj. repeat split; try assumption; congruence.
  - rewrite list_lookup_insert_ne by congruence. intros H. exists k'. now repeat split.
Qed.

Lemma run_schedule_calls (sched : list nat) (i : nat) (s : system) (k' : call) :
  calls (run_schedule sched s) !! i = Some k' ->
  exists k, calls s !! i = Some k /\ env k = env k' /\ guild_id k = guild_id k'.
Proof.
  revert s. induction sched as [|j sched IH]; intros s H; [eauto|].
  cbn in H. apply IH in H as (k1 & H1 & He & Hg).
  apply resume_calls in H1 as (k & Hk & He' & Hg' & _).
  exists k. repeat split; congruence.
Qed.

Lemma resume_shared (j : nat) (s : system) :
  shared (resume j s) = shared s \/
  exists k v, calls s !! j = Some k /\ truthy v = true /\
              shared (resume j s) = <[guild_id k := CacheEntry (today (env k)) v]> (shared s).
Proof.
  unfold resume. destruct (calls s !! j) as [k|] eqn:Hj; [|now left].
  pose proof (step_call_cache k (shared s)) as H.
  destruct (step_call k (shared s)) as [[k' c'] es]. cbn [shared fst snd] in *.
  destruct H as [->|(v & Hv & ->)]; [now left|right; eauto].
Qed.

End CacheFrame.

(** X12: a call of [get_today_horoscope_for_guild] never touches another
    guild's cache entry; its own guild's entry is either left as it was or
    replaced by the returned payload stamped with today's date, and whenever
    the call returns a payload the cache afterwards serves exactly that
    payload for the guild and the day. *)
Theorem call_stays_in_its_guild
    (env : Cache.call_env) (g : Z) (key : pyval) (c : Cache.cache) :
  let r := fst (fst (Cache.get_today_horoscope_for_guild env g key c)) in
  let c' := snd (fst (Cache.get_today_horoscope_for_guild env g key c)) in
  (forall g', g' <> g -> c' !! g' = c !! g') /\
  (c' = c \/ (truthy r = true /\ c' = <[g := Cache.CacheEntry (Cache.today env) r]> c)) /\
  (r <> PyNone -> Cache.cache_hit c' g (Cache.today env) = Some r).
Proof.
  cbn zeta. unfold Cache.get_today_horoscope_for_guild.
  destruct (Cache.cache_hit c g (Cache.today env)) as [d|] eqn:Hhit; cbn [fst snd].
  { repeat split; auto. }
  pose proof (pipeline_cases env g key c) as H.
  destruct (Cache.pipeline env g key c) as [[r c'] es]. cbn [fst snd].
  destruct H as [[[-> ->]|[Hr ->]] _].
  - repeat split; auto. congruence.
  - repeat split.
    + intros g' Hne. now apply lookup_insert_ne.
    + right. now split.
    + intros _. now apply cache_hit_insert.
Qed.

Lemma call_stays_in_its_guild_witness :
  let items := PyList [PyStr "x"] in
  let env := Cache.CallEnv "20250102" (Some "[1]")
               (Translate.scripted [Translate.Response 200 (Translate.BodyJson items)]
                  Translate.PostRaised) in
  let e := Cache.CacheEntry "20250101" (PyList [PyStr "old"]) in
  let c : Cache.cache := <[8 := e]> ∅ in
  8 <> 7 /\
  snd (fst (Cache.get_today_horoscope_for_guild env 7 (PyStr "k") c)) !! 8 = Some e.
Proof.
  intros items env e c.
  assert (Hne : 8 <> 7) by lia.
  split; [exact Hne|].
  exact (proj1 (call_stays_in_its_guild env 7 (PyStr "k") c) 8 Hne).
Defined.

(** X13: an entry stamped with another day is never served: the call runs
    the whole pipeline; when the pipeline succeeds the old entry is replaced
    as a whole by the new payload stamped with today, and when it fails the
    old entry stays. *)
Theorem stale_entry_is_recomputed
    (env : Cache.call_env) (g : Z) (key : pyval) (c : Cache.cache) (e : Cache.cache_entry) :
  c !! g = Some e -> Cache.date e <> Cache.today env ->
  let res := Cache.get_today_horoscope_for_guild env g key c in
  res = Cache.pipeline env g key c /\
  (exists es, snd res = Cache.EFetch :: es) /\
  (fst (fst res) = PyNone -> snd (fst res) !! g = Some e) /\
  (fst (fst res) <> PyNone ->
   snd (fst res) !! g = Some (Cache.CacheEntry (Cache.today env) (fst (fst res)))).
Proof.
  intros He Hd. cbn zeta.
  assert (Hmiss : Cache.cache_hit c g (Cache.today env) = None).
  { unfold Cache.cache_hit. rewrite He.
    destruct (String.eqb_spec (Cache.date e) (Cache.today env)); [contradiction|reflexivity]. }
  unfold Cache.get_today_horoscope_for_guild. rewrite Hmiss.
  pose proof (pipeline_cases env g key c) as H.
  destruct (Cache.pipeline env g key c) as [[r c'] es]. cbn [fst snd].
  destruct H as [[[-> ->]|[Hr ->]] Hes].
  - repeat split; auto. congruence.
  - repeat split; auto.
    + intros ->. discriminate.
    + intros _. apply lookup_insert_eq.
Qed.

Lemma stale_entry_is_recomputed_witness :
  let items := PyList [PyStr "x"] in
  let env := Cache.CallEnv "20250102" (Some "[1]")
               (Translate.scripted [Translate.Response 200 (Translate.BodyJson items)]
                  Translate.PostRaised) in
  let e := Cache.CacheEntry "20250101" (PyList [PyStr "old"]) in
  let c : Cache.cache := <[7 := e]> ∅ in
  c !! 7 = Some e /\ Cache.date e <> Cache.today env /\
  Cache.get_today_horoscope_for_guild env 7 (PyStr "k") c = Cache.pipeline env 7 (PyStr "k") c.
Proof.
  intros items env e c.
  assert (Hd : Cache.date e <> Cache.today env) by discriminate.
  split; [reflexivity|]. split; [exact Hd|].
  exact (proj1 (stale_entry_is_recomputed env 7 (PyStr "k") c e eq_refl Hd)).
Defined.

(** X14: under every interleaving of the calls in flight, each guild's
    cache entry is at any time either the entry it was at the start or an
    entry written as a whole by one of the calls for that guild: a non-empty
    payload stamped with that call's date.  Entries are never mixed, and
    starting from non-empty entries every entry stays non-empty. *)
Theorem cache_entries_are_whole (sched : list nat) (s : Cache.system) :
  let s' := Cache.run_schedule sched s in
  (forall g,
     Cache.shared s' !! g = Cache.shared s !! g \/
     exists i k v,
       Cache.calls s !! i = Some k /\ Cache.guild_id k = g /\ truthy v = true /\
       Cache.shared s' !! g = Some (Cache.CacheEntry (Cache.today (Cache.env k)) v)) /\
  (Tasks.all_nonempty (Cache.shared s) -> Tasks.all_nonempty (Cache.shared s')).
Proof.
  cbn zeta.
  assert (H : forall g,
     Cache.shared (Cache.run_schedule sched s) !! g = Cache.shared s !! g \/
     exists i k v,
       Cache.calls s !! i = Some k /\ Cache.guild_id k = g /\ truthy v = true /\
       Cache.shared (Cache.run_schedule sched s) !! g
         = Some (Cache.CacheEntry (Cache.today (Cache.env k)) v)).
  { revert s. induction sched as [|j sched IH]; intros s g; [now left|].
    cbn [Cache.run_schedule foldl]. fold (Cache.run_schedule sched (Cache.resume j s)).
    destruct (IH (Cache.resume j s) g) as [Heq|(i & k1 & v & Hi & Hg & Hv & Hs)].
    - rewrite Heq.
      destruct (resume_shared j s) as [->|(k & v & Hk & Hv & ->)]; [now left|].
      destruct (decide (Cache.guild_id k = g)) as [<-|Hne].
      + right. exists j, k, v. rewrite lookup_insert_eq. now repeat split.
      + left. now apply lookup_insert_ne.
    - right. apply resume_calls in Hi as (k & Hk & He & Hg' & _).
      exists i, k, v. rewrite Hs, He. repeat split; try assumption. congruence. }
  split; [exact H|].
  intros Hne g e He. destruct (H g) as [Heq|(i & k & v & _ & _ & Hv & Hs)].
  - rewrite Heq in He. eapply Hne; eassumption.
  - rewrite Hs in He. now injection He as <-.
Qed.

Lemma cache_entries_are_whole_witness :
  let items := PyList [PyStr "x"] in
  let env := Cache.CallEnv "20250101" (Some "[1]")
               (Translate.scripted [Translate.Response 200 (Translate.BodyJson items)]
                  Translate.PostRaised) in
  let k := Cache.Call env 7 (PyStr "key") Cache.Start in
  let s := Cache.System ∅ [k; k] [] in
  Tasks.all_nonempty (Cache.shared s) /\
  Tasks.all_nonempty (Cache.shared (Cache.run_schedule [0; 1; 0; 1; 0; 1]%nat s)).
Proof.
  intros items env k s.
  assert (H0 : Tasks.all_nonempty (Cache.shared s)) by (intros g e He; discriminate).
  split; [exact H0|].
  exact (proj2 (cache_entries_are_whole [0; 1; 0; 1; 0; 1]%nat s) H0).
Defined.

(** ** The key of [/ohaasa apikey] *)

(** X16: the key [/ohaasa apikey] stores is free of surrounding ASCII white
    space (stripping it again changes nothing); a key made of such white space only is
    stored as the empty string, and the guild then counts as having no key
    for [/ohaasa test], which answers so instead of posting. *)
Theorem apikey_is_stripped (w : Bot.world) (g : Z) (k : string) (s : Bot.store) :
  let s' := Bot.after (Bot.run_command w (Some g) (Bot.CmdApikey k) s) in
  exists c,
    Config.lookup g (Bot.guild_settings s') = Some c /\
    Config.get c "gemini_api_key" = PyStr (Py.strip k) /\
    Py.strip (Py.strip k) = Py.strip k /\
    (Forall (fun a => is_space a = true) (list_ascii_of_string k) ->
     Config.get c "gemini_api_key" = PyStr EmptyString /\
     (truthy (Config.get c "channel_id") = true ->
      Bot.effects (Bot.run_command w (Some g) Bot.CmdTest s') = [Bot.ERespond Bot.RNoKey])).
Proof.
  cbn zeta. cbn [Bot.run_command].
  set (s' := Bot.after (Bot.assign_and_save g _ _ s)).
  set (c := <["gemini_api_key" := PyStr (Py.strip k)]>
              (default Config.default_cfg (Config.lookup g (Bot.guild_settings s)))).
  assert (Hl : Config.lookup g (Bot.guild_settings s') = Some c).
  { unfold s'. rewrite after_assign_and_save, lookup_assign.
    destruct (decide (g = g)); [reflexivity|contradiction]. }
  assert (Hk : Config.get c "gemini_api_key" = PyStr (Py.strip k)).
  { unfold Config.get, c. now rewrite lookup_insert_eq. }
  exists c. split; [exact Hl|]. split; [exact Hk|]. split; [apply strip_idem|].
  intros Hblank. rewrite Hk, (strip_blank k Hblank). split; [reflexivity|].
  intros Hch. unfold Bot.run_test, Config.get_or_create_guild_settings.
  rewrite Hl, Hch, Hk, (strip_blank k Hblank). reflexivity.
Qed.

Lemma apikey_is_stripped_witness :
  let w := Bot.World (Bot.Clock "20250101" 8 0) (fun id => Some (Bot.Channel id)) in
  let c := <["channel_id" := PyInt 10]> Config.default_cfg in
  let s := Bot.Store [(1, c)] Config.FileAbsent [] in
  Forall (fun a => is_space a = true) (list_ascii_of_string "  ") /\
  exists c',
    Config.lookup 1 (Bot.guild_settings
                       (Bot.after (Bot.run_command w (Some 1) (Bot.CmdApikey "  ") s)))
      = Some c' /\
    Config.get c' "gemini_api_key" = PyStr EmptyString.
Proof.
  intros w c s.
  assert (Hb : Forall (fun a => is_space a = true) (list_ascii_of_string "  "))
    by (repeat constructor).
  split; [exact Hb|].
  destruct (apikey_is_stripped w 1 "  " s) as (c' & H1 & _ & _ & H4).
  exists c'. split; [exact H1|]. exact (proj1 (H4 Hb)).
Defined.

(** ** The source data: [fetch_horoscope_data_sync] *)

Section SourceProps.

Variable str_of : pyval -> string.

Lemma collect_nonempty (resp : option pyval) (items : list Source.item) :
  Source.collect str_of resp = Some items -> items <> [].
Proof.
  unfold Source.collect. repeat case_match; try discriminate; now intros [= <-].
Qed.

Lemma dumps_cons (x : Source.item) (xs : list Source.item) :
  exists rest, Source.dumps (x :: xs) = String "[" (String Source.newline rest).
Proof. eexists. unfold Source.dumps. cbn [string_of_list_ascii]. reflexivity. Qed.

Lemma collect_details (root : list (string * pyval)) (others ds : list pyval) :
  Source.dict_find root "detail" = Some (PyList ds) ->
  Source.collect str_of (Some (PyList (PyDict root :: others)))
  = match omap (Source.convert str_of) ds with [] => None | result => Some result end.
Proof. intros H. unfold Source.collect. now rewrite H. Qed.

End SourceProps.

(** X17: whatever [fetch_horoscope_data_sync] returns passes the test
    [get_today_horoscope_for_guild] applies to it: the function returns
    [None] or the serialisation of at least one item, never the empty
    string or ["[]"]. *)
Theorem fetched_data_is_usable (str_of : pyval -> string) (resp : option pyval) :
  Cache.usable (Source.fetch_horoscope_data_sync str_of resp)
  = Source.fetch_horoscope_data_sync str_of resp.
Proof.
  unfold Source.fetch_horoscope_data_sync.
  destruct (Source.collect str_of resp) as [[|x xs]|] eqn:E; cbn [fmap option_fmap option_map].
  - now apply collect_nonempty in E.
  - destruct (dumps_cons x xs) as [rest ->]. unfold Cache.usable.
    destruct (String.eqb_spec (String "[" (String Source.newline rest)) EmptyString);
      [discriminate|].
    destruct (String.eqb_spec (String "[" (String Source.newline rest)) "[]");
      [discriminate|reflexivity].
  - reflexivity.
Qed.



Example fetch_one_item :
  let q := String Source.quote EmptyString in
  let tab := String "009"%char EmptyString in
  Source.fetch_horoscope_data_sync Source.str_scalar
    (Some (PyList [PyDict [("detail",
       PyList [PyDict [("ranking_no", PyInt 1); ("horoscope_st", PyStr "03");
                       ("horoscope_text", PyStr (" a" +:+ tab +:+ "b "))]])]]))
  = Some (String.concat Publish.nl
            ["["; "  {";
             "    " +:+ q +:+ "rank" +:+ q +:+ ": " +:+ q +:+ "1位" +:+ q +:+ ",";
             "    " +:+ q +:+ "sign_jp" +:+ q +:+ ": " +:+ q +:+ "双子座" +:+ q +:+ ",";
             "    " +:+ q +:+ "description_jp" +:+ q +:+ ": " +:+ q +:+ "a b" +:+ q;
             "  }"; "]"]).
Proof. vm_compute. reflexivity. Qed.

(** ** Posting: [fetch_and_post_horoscope] *)

Section PublishProps.

Variable str_of : pyval -> string.

Lemma next_api_ok (tape : list bool) :
  Publish.all_ok tape = true ->
  exists tape', Publish.next_api tape = (true, tape') /\ Publish.all_ok tape' = true.
Proof.
  destruct tape as [|ok rest]; cbn; [now exists []|].
  intros H. apply andb_true_iff in H as [-> H]. now exists rest.
Qed.

(** A lookup that returns an empty value leaves the cache as it was. *)
Lemma lookup_falsy_unchanged (env : Cache.call_env) (g : Z) (key : pyval) (c : Cache.cache) :
  truthy (fst (fst (Cache.get_today_horoscope_for_guild env g key c))) = false ->
  snd (fst (Cache.get_today_horoscope_for_guild env g key c)) = c.
Proof.
  unfold Cache.get_today_horoscope_for_guild.
  destruct (Cache.cache_hit c g (Cache.today env)) as [d|] eqn:Hhit; [reflexivity|].
  pose proof (pipeline_cases env g key c) as H.
  destruct (Cache.pipeline env g key c) as [[r c'] es]. cbn [fst snd].
  destruct H as [[[_ ->]|[Hr _]] _]; [reflexivity|congruence].
Qed.

Lemma ranking_line_of_detail (item : pyval) :
  is_Some (Publish.detail_block str_of item) -> is_Some (Publish.ranking_line str_of item).
Proof.
  unfold Publish.detail_block, Publish.ranking_line.
  destruct (Publish.subscript item "rank"), (Publish.subscript item "sign_ko");
    cbn; intros [? H]; try discriminate; eauto.
Qed.

Lemma ranking_list_is_Some (items : list pyval) :
  Forall (fun i => is_Some (Publish.ranking_line str_of i)) items ->
  is_Some (Publish.ranking_list str_of items).
Proof.
  intros H. unfold Publish.ranking_list.
  destruct (mapM_is_Some_2 (Publish.ranking_line str_of) items H) as [k ->]. now eexists.
Qed.

Lemma ranking_list_None (items : list pyval) :
  Exists (fun i => Publish.ranking_line str_of i = None) items ->
  Publish.ranking_list str_of items = None.
Proof.
  intros H. unfold Publish.ranking_list.
  now rewrite (mapM_None_2 (Publish.ranking_line str_of) items H).
Qed.

Lemma details_text_is_Some (header : string) (items : list pyval) :
  Forall (fun i => is_Some (Publish.detail_block str_of i)) items ->
  is_Some (Publish.details_text str_of header items).
Proof.
  intros H. unfold Publish.details_text.
  destruct (mapM_is_Some_2 (Publish.detail_block str_of) items H) as [k ->]. now eexists.
Qed.

Lemma details_text_None (header : string) (items : list pyval) :
  Exists (fun i => Publish.detail_block str_of i = None) items ->
  Publish.details_text str_of header items = None.
Proof.
  intros H. unfold Publish.details_text.
  now rewrite (mapM_None_2 (Publish.detail_block str_of) items H).
Qed.

(** A ranking of at least one line is not the empty string. *)
Lemma ranking_list_nonempty (item : pyval) (items : list pyval) (s : string) :
  Publish.ranking_list str_of (item :: items) = Some s -> Publish.or_no_data s = s.
Proof.
  unfold Publish.ranking_list. intros H.
  apply fmap_Some in H as (lines & Hm & ->).
  apply mapM_Some_1 in Hm. inversion Hm as [|? line ? rest Hline Hrest]; subst.
  unfold Publish.ranking_line in Hline.
  destruct (Publish.subscript item "rank"), (Publish.subscript item "sign_ko");
    try discriminate.
  injection Hline as <-. destruct rest; reflexivity.
Qed.

Lemma ranking_list_nil : Publish.ranking_list str_of [] = Some EmptyString.
Proof. reflexivity. Qed.

(** With the Discord API going through, the posting block ends either
    normally with the second detail text, or with an error of the data. *)
Lemma post_ranking_ok (date_str : string) (data : pyval) (tape : list bool) :
  Publish.all_ok tape = true ->
  exists es tape' failure,
    Publish.post_ranking str_of date_str data tape = (es, tape', failure) /\
    Publish.all_ok tape' = true /\
    ((failure = None /\ exists es0 to text, es = es0 ++ [Publish.ESendDetails to text]) \/
     failure = Some Publish.DataError).
Proof.
  intros Hok. unfold Publish.post_ranking.
  destruct (Publish.halves data) as [[top bottom]|]; [|repeat eexists; eauto].
  destruct (Publish.ranking_list str_of top) as [top_list|]; [|repeat eexists; eauto].
  destruct (Publish.ranking_list str_of bottom) as [bottom_list|]; [|repeat eexists; eauto].
  destruct (next_api_ok tape Hok) as (t1 & -> & Hok1). cbn [negb].
  destruct (next_api_ok t1 Hok1) as (t2 & -> & Hok2).
  destruct (Publish.details_text str_of Publish.top_header top) as [td|];
    [|repeat eexists; eauto].
  destruct (Publish.details_text str_of Publish.bottom_header bottom) as [bd|];
    [|repeat eexists; eauto].
  destruct (next_api_ok t2 Hok2) as (t3 & -> & Hok3). cbn [negb].
  destruct (next_api_ok t3 Hok3) as (t4 & -> & Hok4). cbn [negb].
  do 3 eexists. split; [reflexivity|]. split; [exact Hok4|]. left. split; [reflexivity|].
  eauto.
Qed.

End PublishProps.

(** X19: as long as the Discord API accepts the calls, a posting never
    raises, whatever the translation returned; the channel first gets the
    loading message, and the last thing posted is one of: the edit of that
    message to a failure text, a detail text, or the error message. *)
Theorem post_always_concludes (str_of : pyval -> string) (e : Publish.env) (key : pyval)
    (mention : option string) (guild_id : option Z) (c : Cache.cache) (tape : list bool) :
  Publish.all_ok tape = true ->
  let o := Publish.fetch_and_post_horoscope str_of e key mention guild_id c tape in
  Publish.raised o = None /\
  exists body final,
    Publish.effects o = Publish.ESend (Publish.loading_content mention) :: body ++ [final] /\
    Publish.concludes final = true.
Proof.
  intros Hok. cbn zeta. unfold Publish.fetch_and_post_horoscope.
  destruct (next_api_ok tape Hok) as (t1 & -> & Hok1). cbn [negb].
  destruct (match guild_id with Some g => Some g | None => Publish.channel_guild e end)
    as [g|].
  - destruct (Cache.get_today_horoscope_for_guild _ g key c) as [[data c'] ces].
    destruct (truthy data); cbn [negb].
    + destruct (post_ranking_ok str_of (Publish.date_str e) data t1 Hok1)
        as (es & t2 & failure & -> & Hok2 & [[-> (es0 & to & text & ->)]| ->]).
      * split; [reflexivity|]. exists ((Publish.ECache <$> ces) ++ es0), (Publish.ESendDetails to text).
        split; [|reflexivity]. cbn. now rewrite <- !app_assoc.
      * destruct (next_api_ok t2 Hok2) as (t3 & -> & _).
        split; [reflexivity|].
        exists ((Publish.ECache <$> ces) ++ es), (Publish.ESendError Publish.DataError).
        split; [|reflexivity]. cbn. now rewrite <- !app_assoc.
    + destruct (next_api_ok t1 Hok1) as (t2 & -> & _).
      split; [reflexivity|].
      exists (Publish.ECache <$> ces), (Publish.EEdit Publish.load_failed).
      split; reflexivity.
  - destruct (next_api_ok t1 Hok1) as (t2 & -> & _).
    split; [reflexivity|]. exists [], (Publish.EEdit Publish.no_guild). split; reflexivity.
Qed.

Lemma post_always_concludes_witness :
  let e := Publish.Env
             (Cache.CallEnv "20250101" None (Translate.scripted [] Translate.PostRaised))
             "2025년 01월 01일" None in
  Publish.raised
    (Publish.fetch_and_post_horoscope Source.str_scalar e (PyStr "k") None (Some 1) ∅ [])
  = None.
Proof.
  intros e.
  exact (proj1 (post_always_concludes Source.str_scalar e (PyStr "k") None (Some 1) ∅ []
                  eq_refl)).
Defined.

(** X20: a dispatch of the scheduler or of [/ohaasa test] whose lookup
    returns nothing edits the loading message to the load-failure text and
    posts nothing else; the cache stays as it was.  (The guild is always
    passed, so the no-guild text is never used.) *)
Theorem dispatch_reports_missing_data (str_of : pyval -> string) (e : Publish.env)
    (d : Bot.dispatch) (c : Cache.cache) (tape : list bool) :
  Publish.all_ok tape = true ->
  truthy (fst (fst (Cache.get_today_horoscope_for_guild
                      (Publish.cache_env e) (Bot.d_guild d) (Bot.d_key d) c))) = false ->
  let o := Publish.run_dispatch str_of e d c tape in
  Publish.raised o = None /\
  Publish.cache_after o = c /\
  Publish.effects o
  = Publish.ESend (Publish.loading_content (Bot.d_mention d))
      :: (Publish.ECache <$> snd (Cache.get_today_horoscope_for_guild
                                    (Publish.cache_env e) (Bot.d_guild d) (Bot.d_key d) c))
      ++ [Publish.EEdit Publish.load_failed].
Proof.
  intros Hok Hfalsy. cbn zeta.
  pose proof (lookup_falsy_unchanged _ _ _ _ Hfalsy) as Hc.
  unfold Publish.run_dispatch, Publish.fetch_and_post_horoscope.
  destruct (next_api_ok tape Hok) as (t1 & -> & Hok1). cbn [negb].
  destruct (Cache.get_today_horoscope_for_guild _ _ _ c) as [[data c'] ces].
  cbn [fst snd] in *. rewrite Hfalsy. cbn [negb].
  destruct (next_api_ok t1 Hok1) as (t2 & -> & _). subst c'.
  repeat split.
Qed.

Lemma dispatch_reports_missing_data_witness :
  let e := Publish.Env
             (Cache.CallEnv "20250101" None (Translate.scripted [] Translate.PostRaised))
             "2025년 01월 01일" None in
  let d := Bot.Dispatch (Bot.Channel 10) (PyStr "k") (Some "@everyone") 1 in
  Publish.effects (Publish.run_dispatch Source.str_scalar e d ∅ [])
  = [Publish.ESend ("@everyone " +:+ Publish.loading);
     Publish.ECache Cache.EFetch;
     Publish.EEdit Publish.load_failed].
Proof.
  intros e d.
  exact (proj2 (proj2 (dispatch_reports_missing_data Source.str_scalar e d ∅ []
                         eq_refl eq_refl))).
Defined.

(** X21: when the lookup returns a non-empty list whose items all have
    [rank], [sign_ko] and [description_ko], the loading message becomes the
    embed with the first six items in the upper field and the others in the
    lower one (the placeholder when there are none), and both detail texts
    are sent, to the new thread, or to the channel itself when the thread
    could not be created. *)
Theorem complete_ranking_is_posted (str_of : pyval -> string) (e : Publish.env) (key : pyval)
    (mention : option string) (g : Z) (c c' : Cache.cache) (items : list pyval)
    (ces : list Cache.effect) (created : bool) (rest : list bool) :
  Cache.get_today_horoscope_for_guild (Publish.cache_env e) g key c = (PyList items, c', ces) ->
  items <> [] ->
  Forall (fun i => is_Some (Publish.detail_block str_of i)) items ->
  Publish.all_ok rest = true ->
  exists top bottom top_details bottom_details,
    Publish.ranking_list str_of (firstn 6 items) = Some top /\
    Publish.ranking_list str_of (skipn 6 items) = Some bottom /\
    Publish.details_text str_of Publish.top_header (firstn 6 items) = Some top_details /\
    Publish.details_text str_of Publish.bottom_header (skipn 6 items) = Some bottom_details /\
    let o := Publish.fetch_and_post_horoscope str_of e key mention (Some g) c
               (true :: true :: created :: rest) in
    let thread := if created then Publish.ToThread else Publish.ToChannel in
    Publish.raised o = None /\
    Publish.cache_after o = c' /\
    Publish.effects o
    = Publish.ESend (Publish.loading_content mention) :: (Publish.ECache <$> ces)
        ++ Publish.EEditEmbed (Publish.title (Publish.date_str e)) top
             (Publish.or_no_data bottom)
        :: (if created then [Publish.ECreateThread (Publish.thread_name (Publish.date_str e))]
            else [])
        ++ [Publish.ESendDetails thread top_details;
            Publish.ESendDetails thread bottom_details].
Proof.
  intros Hget Hne Hall Hok.
  assert (Htop : Forall (fun i => is_Some (Publish.detail_block str_of i)) (firstn 6 items))
    by now apply Forall_take.
  assert (Hbot : Forall (fun i => is_Some (Publish.detail_block str_of i)) (skipn 6 items))
    by now apply Forall_drop.
  destruct (ranking_list_is_Some str_of (firstn 6 items)) as [top Et].
  { eapply Forall_impl; [exact Htop|]. apply ranking_line_of_detail. }
  destruct (ranking_list_is_Some str_of (skipn 6 items)) as [bottom Eb].
  { eapply Forall_impl; [exact Hbot|]. apply ranking_line_of_detail. }
  destruct (details_text_is_Some str_of Publish.top_header _ Htop) as [td Etd].
  destruct (details_text_is_Some str_of Publish.bottom_header _ Hbot) as [bd Ebd].
  exists top, bottom, td, bd. repeat (split; [assumption|]).
  assert (Hnon : Publish.or_no_data top = top).
  { destruct items as [|x xs]; [contradiction|]. cbn [firstn] in Et.
    exact (ranking_list_nonempty str_of _ _ _ Et). }
  cbn zeta. unfold Publish.fetch_and_post_horoscope. cbn [Publish.next_api negb].
  rewrite Hget.
  assert (Ht : truthy (PyList items) = true) by (destruct items; [contradiction|reflexivity]).
  rewrite Ht. cbn [negb]. unfold Publish.post_ranking. cbn [Publish.halves Publish.next_api negb].
  rewrite Et, Eb, Etd, Ebd, Hnon.
  destruct (next_api_ok rest Hok) as (t1 & -> & Hok1). cbn [negb].
  destruct (next_api_ok t1 Hok1) as (t2 & -> & _). cbn [negb].
  destruct created; cbn; repeat split; now rewrite <- ?app_assoc.
Qed.

Lemma complete_ranking_is_posted_witness :
  let item := PyDict [("rank", PyStr "1위"); ("sign_ko", PyStr "쌍둥이자리");
                      ("description_ko", PyStr "좋은 하루")] in
  let e := Publish.Env
             (Cache.CallEnv "20250101" None (Translate.scripted [] Translate.PostRaised))
             "2025년 01월 01일" None in
  let c : Cache.cache := {[ 1 := Cache.CacheEntry "20250101" (PyList [item]) ]} in
  exists top top_details bottom_details,
    Publish.effects
      (Publish.fetch_and_post_horoscope Source.str_scalar e (PyStr "k") None (Some 1) c
         [true; true; false])
    = [Publish.ESend Publish.loading;
       Publish.EEditEmbed (Publish.title "2025년 01월 01일") top Publish.no_data;
       Publish.ESendDetails Publish.ToChannel top_details;
       Publish.ESendDetails Publish.ToChannel bottom_details].
Proof.
  intros item e c.
  destruct (complete_ranking_is_posted Source.str_scalar e (PyStr "k") None 1 c c [item] []
              false [] eq_refl ltac:(discriminate)
              ltac:(repeat constructor; vm_compute; eauto) eq_refl)
    as (top & bottom & td & bd & _ & Eb & _ & _ & _ & _ & Heff).
  exists top, td, bd. rewrite Heff. cbn in Eb. injection Eb as <-. reflexivity.
Defined.

(** X22: when every item has [rank] and [sign_ko] but one lacks
    [description_ko], the embed with the ranking is posted and the thread
    created before the missing field is noticed: the call ends with the
    error message and sends no detail text. *)
Theorem missing_description_posts_ranking_only (str_of : pyval -> string) (e : Publish.env)
    (key : pyval) (mention : option string) (g : Z) (c c' : Cache.cache)
    (items : list pyval) (ces : list Cache.effect) (tape : list bool) :
  Cache.get_today_horoscope_for_guild (Publish.cache_env e) g key c = (PyList items, c', ces) ->
  Forall (fun i => is_Some (Publish.ranking_line str_of i)) items ->
  Exists (fun i => Publish.detail_block str_of i = None) items ->
  Publish.all_ok tape = true ->
  exists top bottom,
    let o := Publish.fetch_and_post_horoscope str_of e key mention (Some g) c tape in
    Publish.raised o = None /\
    Publish.effects o
    = Publish.ESend (Publish.loading_content mention) :: (Publish.ECache <$> ces)
        ++ [Publish.EEditEmbed (Publish.title (Publish.date_str e)) top bottom;
            Publish.ECreateThread (Publish.thread_name (Publish.date_str e));
            Publish.ESendError Publish.DataError].
Proof.
  intros Hget Hall Hex Hok.
  destruct (ranking_list_is_Some str_of (firstn 6 items)) as [top Et];
    [now apply Forall_take|].
  destruct (ranking_list_is_Some str_of (skipn 6 items)) as [bottom Eb];
    [now apply Forall_drop|].
  exists (Publish.or_no_data top), (Publish.or_no_data bottom).
  assert (Ht : truthy (PyList items) = true).
  { destruct items; [|reflexivity]. now apply Exists_nil in Hex. }
  cbn zeta. unfold Publish.fetch_and_post_horoscope.
  destruct (next_api_ok tape Hok) as (t1 & -> & Hok1). cbn [negb].
  rewrite Hget, Ht. cbn [negb]. unfold Publish.post_ranking. cbn [Publish.halves].
  rewrite Et, Eb.
  destruct (next_api_ok t1 Hok1) as (t2 & -> & Hok2). cbn [negb].
  destruct (next_api_ok t2 Hok2) as (t3 & -> & Hok3).
  assert (Hnone : Publish.details_text str_of Publish.top_header (firstn 6 items) = None \/
                  Publish.details_text str_of Publish.bottom_header (skipn 6 items) = None).
  { rewrite <- (take_drop 6 items) in Hex. apply Exists_app in Hex as [H|H];
      [left|right]; now apply details_text_None. }
  destruct (next_api_ok t3 Hok3) as (t4 & E4 & _).
  destruct (Publish.details_text str_of Publish.top_header (firstn 6 items)) as [td|].
  - destruct Hnone as [Hn|Hn]; [discriminate|]. rewrite Hn, E4. cbn.
    split; [reflexivity|]. now rewrite <- ?app_assoc.
  - rewrite E4. cbn. split; [reflexivity|]. now rewrite <- ?app_assoc.
Qed.

Lemma missing_description_posts_ranking_only_witness :
  let item := PyDict [("rank", PyStr "1위"); ("sign_ko", PyStr "쌍둥이자리")] in
  let e := Publish.Env
             (Cache.CallEnv "20250101" None (Translate.scripted [] Translate.PostRaised))
             "2025년 01월 01일" None in
  let c : Cache.cache := {[ 1 := Cache.CacheEntry "20250101" (PyList [item]) ]} in
  exists top bottom,
    Publish.effects
      (Publish.fetch_and_post_horoscope Source.str_scalar e (PyStr "k") None (Some 1) c [])
    = [Publish.ESend Publish.loading;
       Publish.EEditEmbed (Publish.title "2025년 01월 01일") top bottom;
       Publish.ECreateThread (Publish.thread_name "2025년 01월 01일");
       Publish.ESendError Publish.DataError].
Proof.
  intros item e c.
  destruct (missing_description_posts_ranking_only Source.str_scalar e (PyStr "k") None 1
              c c [item] [] [] eq_refl
              ltac:(repeat constructor; vm_compute; eauto)
              ltac:(constructor; reflexivity) eq_refl)
    as (top & bottom & _ & Heff).
  exists top, bottom. exact Heff.
Defined.

(** X23: when the translation is not a list, or an item of it has no [rank]
    or no [sign_ko] (or is not an object), nothing of it is posted: the
    loading message stays and the error message follows it. *)
Theorem malformed_data_posts_only_error (str_of : pyval -> string) (e : Publish.env)
    (key : pyval) (mention : option string) (g : Z) (c c' : Cache.cache)
    (data : pyval) (ces : list Cache.effect) (tape : list bool) :
  Cache.get_today_horoscope_for_guild (Publish.cache_env e) g key c = (data, c', ces) ->
  truthy data = true ->
  match Publish.halves data with
  | Some (top, bottom) =>
      Exists (fun i => Publish.ranking_line str_of i = None) (top ++ bottom)
  | None => True
  end ->
  Publish.all_ok tape = true ->
  let o := Publish.fetch_and_post_horoscope str_of e key mention (Some g) c tape in
  Publish.raised o = None /\
  Publish.effects o
  = Publish.ESend (Publish.loading_content mention) :: (Publish.ECache <$> ces)
      ++ [Publish.ESendError Publish.DataError].
Proof.
  intros Hget Ht Hbad Hok. cbn zeta. unfold Publish.fetch_and_post_horoscope.
  destruct (next_api_ok tape Hok) as (t1 & -> & Hok1). cbn [negb].
  rewrite Hget, Ht. cbn [negb]. unfold Publish.post_ranking.
  destruct (next_api_ok t1 Hok1) as (t2 & E2 & _).
  destruct (Publish.halves data) as [[top bottom]|].
  - apply Exists_app in Hbad as [H|H].
    + rewrite (ranking_list_None str_of top H), E2. now split.
    + rewrite (ranking_list_None str_of bottom H).
      destruct (Publish.ranking_list str_of top); rewrite E2; now split.
  - rewrite E2. now split.
Qed.

Lemma malformed_data_posts_only_error_witness :
  let e := Publish.Env
             (Cache.CallEnv "20250101" None (Translate.scripted [] Translate.PostRaised))
             "2025년 01월 01일" None in
  let c : Cache.cache := {[ 1 := Cache.CacheEntry "20250101" (PyStr "sorry") ]} in
  Publish.effects
    (Publish.fetch_and_post_horoscope Source.str_scalar e (PyStr "k") None (Some 1) c [])
  = [Publish.ESend Publish.loading; Publish.ESendError Publish.DataError].
Proof.
  intros e c.
  exact (proj2 (malformed_data_posts_only_error Source.str_scalar e (PyStr "k") None 1
                  c c (PyStr "sorry") [] [] eq_refl eq_refl
                  ltac:(constructor; reflexivity) eq_refl)).
Defined.

(** ** Several scheduler tasks: [on_ready] called more than once *)

Section SessionProps.

Variables (T : Z) (D : string).

Lemma bot_effects_fmap (es : list Bot.effect) :
  Session.bot_effects (Session.EBot <$> es) = es.
Proof. induction es as [|e es IH]; [reflexivity|]. cbn. now f_equal. Qed.

(** A pass or a command of the session is a step of the process on the same
    globals. *)
Lemma session_step_bot (ev : Session.event) (s : Session.state) (bev : Bot.event) :
  Session.bot_event ev = Some bev ->
  exists alive,
    let r := Bot.step bev (Bot.BotState (Session.globals s) alive) in
    Session.globals (fst (Session.step ev s)) = Bot.globals (fst r) /\
    Session.bot_effects (snd (Session.step ev s)) = snd r.
Proof.
  destruct ev as [ok guilds|loop w|w guild cmd]; cbn [Session.bot_event];
    [discriminate| |]; intros [= <-]; cbn [Session.step].
  - exists (default false (Session.loops s !! loop)). cbn zeta.
    destruct (Bot.step _ _) as [b es]. cbn [fst snd Session.globals].
    now rewrite bot_effects_fmap.
  - exists true. cbn zeta.
    destruct (Bot.step _ _) as [b es]. cbn [fst snd Session.globals].
    now rewrite bot_effects_fmap.
Qed.

Lemma session_step_ready (ev : Session.event) (s : Session.state) :
  Session.bot_event ev = None ->
  Session.globals (fst (Session.step ev s)) = Session.globals s.
Proof. destruct ev; cbn; [reflexivity|discriminate|discriminate]. Qed.

Lemma session_run_cons (ev : Session.event) (rest : list Session.event) (s : Session.state) :
  Bot.scheduled T D (Session.bot_log (snd (Session.run (ev :: rest) s)))
  = (match Session.bot_event ev with
     | Some bev =>
         if Bot.is_tick_on D bev
         then Bot.tasks_for T (Session.bot_effects (snd (Session.step ev s)))
         else 0
     | None => 0
     end
     + Bot.scheduled T D (Session.bot_log (snd (Session.run rest (fst (Session.step ev s))))))%nat.
Proof.
  cbn [Session.run]. destruct (Session.step ev s) as [s' es]. cbn [fst snd].
  destruct (Session.run rest s') as [s'' log]. cbn [snd].
  unfold Session.bot_log at 1. cbn [omap list_omap fst snd].
  destruct (Session.bot_event ev) as [bev|]; reflexivity.
Qed.

Lemma session_step_NoDup (ev : Session.event) (s : Session.state) :
  NoDup (Config.keys (Bot.guild_settings (Session.globals s))) ->
  NoDup (Config.keys (Bot.guild_settings (Session.globals (fst (Session.step ev s))))).
Proof.
  intros Hnd. destruct (Session.bot_event ev) as [bev|] eqn:E.
  - destruct (session_step_bot ev s bev E) as (alive & -> & _).
    now apply (step_NoDup bev (Bot.BotState (Session.globals s) alive)).
  - now rewrite session_step_ready.
Qed.

Lemma session_run_after (evs : list Session.event) (s : Session.state) :
  Bot.day_not_revisited D Bot.After (omap Session.bot_event evs) = true ->
  Bot.scheduled T D (Session.bot_log (snd (Session.run evs s))) = 0%nat.
Proof.
  revert s. induction evs as [|ev rest IH]; intros s H; [reflexivity|].
  rewrite session_run_cons. cbn [omap list_omap] in H.
  destruct (Session.bot_event ev) as [bev|]; [|now apply IH].
  cbn [Bot.day_not_revisited] in H. unfold Bot.is_tick_on.
  destruct (Bot.ev_action bev) as [|guild cmd]; [|now apply IH].
  destruct (String.eqb (Bot.today_str (Bot.now (Bot.ev_world bev))) D);
    [discriminate|now apply IH].
Qed.

Lemma session_run_marked (evs : list Session.event) (s : Session.state) :
  NoDup (Config.keys (Bot.guild_settings (Session.globals s))) ->
  Bot.marked T D (Bot.guild_settings (Session.globals s)) ->
  Bot.day_not_revisited D Bot.During (omap Session.bot_event evs) = true ->
  Bot.scheduled T D (Session.bot_log (snd (Session.run evs s))) = 0%nat.
Proof.
  revert s. induction evs as [|ev rest IH]; intros s Hnd Hm H; [reflexivity|].
  rewrite session_run_cons. cbn [omap list_omap] in H.
  pose proof (session_step_NoDup ev s Hnd) as Hnd'.
  destruct (Session.bot_event ev) as [bev|] eqn:E.
  2: { apply IH; [assumption| |assumption]. now rewrite session_step_ready. }
  destruct (session_step_bot ev s bev E) as (alive & Hg & He). cbn zeta in *.
  rewrite He. cbn [Bot.day_not_revisited] in H. unfold Bot.is_tick_on.
  set (b := Bot.BotState (Session.globals s) alive) in *.
  destruct (Bot.ev_action bev) as [|guild cmd] eqn:Ha.
  - destruct (String.eqb_spec (Bot.today_str (Bot.now (Bot.ev_world bev))) D) as [Hd|Hd].
    + destruct (step_tick_on T D bev b Ha Hd Hnd) as (_ & _ & Hz).
      destruct (Hz Hm) as [-> Hm']. apply IH; [assumption| |assumption]. now rewrite Hg.
    + now apply session_run_after.
  - apply IH; [assumption| |assumption]. rewrite Hg.
    now apply (step_command_marked T D bev b guild cmd).
Qed.

Lemma session_run_once (p : Bot.phase) (evs : list Session.event) (s : Session.state) :
  p <> Bot.After ->
  NoDup (Config.keys (Bot.guild_settings (Session.globals s))) ->
  Bot.day_not_revisited D p (omap Session.bot_event evs) = true ->
  (Bot.scheduled T D (Session.bot_log (snd (Session.run evs s))) <= 1)%nat.
Proof.
  revert p s. induction evs as [|ev rest IH]; intros p s Hp Hnd H; [cbn; lia|].
  rewrite session_run_cons. cbn [omap list_omap] in H.
  pose proof (session_step_NoDup ev s Hnd) as Hnd'.
  destruct (Session.bot_event ev) as [bev|] eqn:E.
  2: { now apply (IH p). }
  destruct (session_step_bot ev s bev E) as (alive & Hg & He). cbn zeta in *.
  rewrite He. cbn [Bot.day_not_revisited] in H. unfold Bot.is_tick_on.
  set (b := Bot.BotState (Session.globals s) alive) in *.
  destruct (Bot.ev_action bev) as [|guild cmd] eqn:Ha.
  - destruct (String.eqb_spec (Bot.today_str (Bot.now (Bot.ev_world bev))) D) as [Hd|Hd].
    + assert (H' : Bot.day_not_revisited D Bot.During (omap Session.bot_event rest) = true)
        by now destruct p.
      destruct (step_tick_on T D bev b Ha Hd Hnd) as (Hle & Hmk & _).
      destruct (Nat.eq_dec (Bot.tasks_for T (snd (Bot.step bev b))) 0%nat) as [Hz|Hnz].
      * rewrite Hz. now apply (IH Bot.During).
      * rewrite (session_run_marked rest _ Hnd'); [lia| |exact H'].
        rewrite Hg. now apply Hmk.
    + destruct p; [now apply (IH Bot.Before)| |contradiction].
      rewrite session_run_after by assumption. lia.
  - now apply (IH p).
Qed.

End SessionProps.

Lemma session_run_loops (evs : list Session.event) (s : Session.state) :
  length (Session.loops (fst (Session.run evs s)))
  = (length (Session.loops s) + Session.started evs)%nat.
Proof.
  revert s. induction evs as [|ev rest IH]; intros s; [cbn; lia|].
  cbn [Session.run]. destruct (Session.step ev s) as [s' es] eqn:E.
  specialize (IH s'). destruct (Session.run rest s') as [s'' log]. cbn [fst] in *.
  rewrite IH. unfold Session.started. cbn [List.filter].
  destruct ev as [[|] guilds|loop w|w guild cmd]; cbn [Session.step Session.on_ready] in E.
  - injection E as <- _. cbn [Session.loops length]. rewrite length_app. cbn. lia.
  - injection E as <- _. reflexivity.
  - destruct (Bot.step _ _) as [b es0]. injection E as <- _.
    cbn [Session.loops]. now rewrite length_insert.
  - destruct (Bot.step _ _) as [b es0]. injection E as <- _. reflexivity.
Qed.

(** X24: every call of [on_ready] that gets through the synchronisation of
    the command tree starts one more [scheduler_loop] task (a call whose
    synchronisation raises starts none).  However many of them run on the
    shared settings, and however their passes and the commands interleave,
    at most one dispatch is created per guild and day, for a clock that
    does not return to a day it has left. *)
Theorem at_most_once_with_several_loops
    (T : Z) (D : string) (evs : list Session.event) (s : Session.state) :
  length (Session.loops (fst (Session.run evs s)))
  = (length (Session.loops s) + Session.started evs)%nat /\
  (NoDup (Config.keys (Bot.guild_settings (Session.globals s))) ->
   Bot.day_not_revisited D Bot.Before (omap Session.bot_event evs) = true ->
   (Bot.scheduled T D (Session.bot_log (snd (Session.run evs s))) <= 1)%nat).
Proof.
  split; [apply session_run_loops|].
  intros Hnd Hd. now apply (session_run_once T D Bot.Before).
Qed.

Lemma at_most_once_with_several_loops_witness :
  let c := <["channel_id" := PyInt 10]> (<["gemini_api_key" := PyStr "k"]> Config.default_cfg) in
  let s := Session.State (Bot.Store [(1, c)] Config.FileAbsent []) [] in
  let w := Bot.World (Bot.Clock "20250101" 8 0) (fun id => Some (Bot.Channel id)) in
  let evs := [Session.Ready true [1]; Session.Ready false [1]; Session.Ready true [1];
              Session.LoopTick 0 w; Session.LoopTick 1 w] in
  Session.loops (fst (Session.run evs s)) = [true; true] /\
  Bot.scheduled 1 "20250101" (Session.bot_log (snd (Session.run evs s))) = 1%nat /\
  (Bot.scheduled 1 "20250101" (Session.bot_log (snd (Session.run evs s))) <= 1)%nat.
Proof.
  intros c s w evs. split; [reflexivity|]. split; [reflexivity|].
  apply (proj2 (at_most_once_with_several_loops 1 "20250101" evs s)); [|reflexivity].
  apply (bool_decide_unpack _). reflexivity.
Defined.

(** When the synchronisation of the command tree fails, [on_ready] starts no
    scheduler: a guild that is due is not served. *)
Example failed_sync_starts_no_scheduler :
  let c := <["channel_id" := PyInt 10]> (<["gemini_api_key" := PyStr "k"]> Config.default_cfg) in
  let s := Session.State (Bot.Store [(1, c)] Config.FileAbsent []) [] in
  let w := Bot.World (Bot.Clock "20250101" 8 0) (fun id => Some (Bot.Channel id)) in
  snd (Session.run [Session.Ready false [1]; Session.LoopTick 0 w] s)
  = [(Session.Ready false [1], [Session.EPrewarm 1 (PyStr "k")]);
     (Session.LoopTick 0 w, [])].
Proof. vm_compute. reflexivity. Qed.
